(** * covid_dashboard: the update scheduler of the two feed modules

    A shallow embedding of [covid_data_handler] (imported as [cdh]),
    [covid_news_handling] ([cnh]) and of [home], [collate_update_lists],
    [format_update_toasts] and [data_init] from [covid_dashboard],
    together with the part of the Python runtime they rely on, and the
    properties of the update scheduler, of the CSV and news lists and of
    the rendered page stated over it.  [load_config] is not embedded: it
    stores JSON values of any type into the modules' globals.

    Conventions of the embedding.
    - Module-level globals become fields of a record of globals that is
      threaded through every function; a raised exception carries the
      globals as they were when it was raised.
    - [datetime.datetime.now()], [time.time()] and the two web APIs are
      oracles: the k-th observation of the clock and the k-th answer of an
      API are functions of k, and the state counts the observations made.
      A call of an API answers, fails with an exception that the request
      function catches, or raises any other exception, which goes through.
      The file system is an oracle too: what [open] finds under a name.
    - A naive [datetime] is the number of microseconds since
      0001-01-01T00:00:00; a [timedelta] and a scheduler delay are numbers
      of microseconds (Python holds the delay as seconds, [total_seconds()]
      being the same quantity divided by 10^6).
    - A [str] is a sequence of code points below 256, so that the digits
      of [isdigit()] and [int()] are those of Latin-1; a theorem about
      digits names the characters it is about.  [int()] is taken without
      the limit that later interpreters put on the number of digits (4300
      by default); a theorem about the value of a digit string bounds its
      length. *)

From Stdlib Require Import ZArith List String Ascii Bool Lia RelationClasses.
From Stdlib Require Import Permutation Sorted DecimalString.
Import ListNotations.
Local Open Scope string_scope.
Local Open Scope Z_scope.

(** ** The Python runtime used by the modules *)

Module py.

(** The built-in exceptions the modelled code can raise, and an exception
    of a class that a library defines, named by that class. *)
Inductive exn : Type :=
| ValueError
| KeyError
| TypeError
| OverflowError
| IndexError
| UnboundLocalError
| LibraryError (class : string).

(** A pure operation that may raise. *)
Definition result (A : Type) : Type := (exn + A)%type.

Definition ok {A : Type} (a : A) : result A := inr a.
Definition throw {A : Type} (e : exn) : result A := inl e.

Definition rbind {A B : Type} (r : result A) (k : A -> result B) : result B :=
  match r with
  | inl e => inl e
  | inr a => k a
  end.

(** *** dict: insertion-ordered, keys unique *)

Section Dict.
Context {V : Type}.

Definition dict : Type := list (string * V).

Definition keys (d : dict) : list string := map fst d.

(** [d.get(k)] *)
Fixpoint dict_get (d : dict) (k : string) : option V :=
  match d with
  | [] => None
  | (k', v) :: d' => if String.eqb k k' then Some v else dict_get d' k
  end.

(** [k in d] *)
Definition dict_in (k : string) (d : dict) : bool :=
  match dict_get d k with
  | Some _ => true
  | None => false
  end.

(** [d[k]]: KeyError when [k] is not a key. *)
Definition dict_item (d : dict) (k : string) : result V :=
  match dict_get d k with
  | Some v => ok v
  | None => throw KeyError
  end.

(** [d[k] = v]: an existing key keeps its position, a new key goes last. *)
Fixpoint dict_set (d : dict) (k : string) (v : V) : dict :=
  match d with
  | [] => [(k, v)]
  | (k', v') :: d' =>
      if String.eqb k k' then (k', v) :: d' else (k', v') :: dict_set d' k v
  end.

(** The entries left by [del d[k]]. *)
Definition dict_remove (d : dict) (k : string) : dict :=
  filter (fun entry => negb (String.eqb k (fst entry))) d.

(** [del d[k]]: KeyError when [k] is not a key. *)
Definition dict_del (d : dict) (k : string) : result dict :=
  if dict_in k d then ok (dict_remove d k) else throw KeyError.
End Dict.

Arguments dict : clear implicits.

(** *** str *)

Definition code (c : ascii) : nat := nat_of_ascii c.

Definition between (lo hi n : nat) : bool := Nat.leb lo n && Nat.leb n hi.

(** The characters of the class [[0-9]]. *)
Definition is_09 (c : ascii) : bool := between 48 57 (code c).

(** [c.isdigit()] below 256: the ASCII digits and the superscripts
    U+00B2, U+00B3, U+00B9. *)
Definition char_isdigit (c : ascii) : bool :=
  is_09 c || Nat.eqb (code c) 178 || Nat.eqb (code c) 179 || Nat.eqb (code c) 185.

(** [s.isdigit()]: at least one character, and all of them digits. *)
Definition isdigit (s : string) : bool :=
  match s with
  | EmptyString => false
  | _ => forallb char_isdigit (list_ascii_of_string s)
  end.

(** The white space [int()] strips from both ends. *)
Definition int_space (c : ascii) : bool :=
  between 9 13 (code c) || Nat.eqb (code c) 32
  || Nat.eqb (code c) 133 || Nat.eqb (code c) 160.

Fixpoint lstrip (l : list ascii) : list ascii :=
  match l with
  | c :: l' => if int_space c then lstrip l' else l
  | [] => []
  end.

Definition strip (l : list ascii) : list ascii := rev (lstrip (rev (lstrip l))).

Definition digit_val (c : ascii) : Z := Z.of_nat (code c) - 48.

(** Decimal digits in groups separated by single underscores.
    [after_digit] tells whether the previous character was a digit. *)
Fixpoint digits_value (acc : Z) (after_digit : bool) (l : list ascii) : option Z :=
  match l with
  | [] => if after_digit then Some acc else None
  | c :: l' =>
      if is_09 c then digits_value (acc * 10 + digit_val c) true l'
      else if Ascii.eqb c "_"%char
           then if after_digit then digits_value acc false l' else None
           else None
  end.

(** [int(s)] for a [str]: ValueError unless [s] is, between white space, an
    optional sign followed by a decimal literal.  The ValueError of an
    interpreter that limits the number of digits is not modelled. *)
Definition int_of_str (s : string) : result Z :=
  let body := strip (list_ascii_of_string s) in
  let signed :=
    match body with
    | c :: l' =>
        if Ascii.eqb c "-"%char then option_map Z.opp (digits_value 0 false l')
        else if Ascii.eqb c "+"%char then digits_value 0 false l'
        else digits_value 0 false body
    | [] => None
    end in
  match signed with
  | Some n => ok n
  | None => throw ValueError
  end.

(** [s.split(sep)] for a one-character separator. *)
Fixpoint split_from (sep : ascii) (cur : list ascii) (l : list ascii) : list string :=
  match l with
  | [] => [string_of_list_ascii (rev cur)]
  | c :: l' =>
      if Ascii.eqb c sep then string_of_list_ascii (rev cur) :: split_from sep [] l'
      else split_from sep (c :: cur) l'
  end.

Definition split (sep : ascii) (s : string) : list string :=
  split_from sep [] (list_ascii_of_string s).

(** *** re *)

Inductive regex : Type :=
| Never
| Eps
| Class (p : ascii -> bool)
| Seq (r1 r2 : regex)
| Alt (r1 r2 : regex)
| Star (r : regex).

Fixpoint nullable (r : regex) : bool :=
  match r with
  | Never => false
  | Eps => true
  | Class _ => false
  | Seq r1 r2 => nullable r1 && nullable r2
  | Alt r1 r2 => nullable r1 || nullable r2
  | Star _ => true
  end.

Fixpoint deriv (c : ascii) (r : regex) : regex :=
  match r with
  | Never => Never
  | Eps => Never
  | Class p => if p c then Eps else Never
  | Seq r1 r2 =>
      if nullable r1 then Alt (Seq (deriv c r1) r2) (deriv c r2)
      else Seq (deriv c r1) r2
  | Alt r1 r2 => Alt (deriv c r1) (deriv c r2)
  | Star r' => Seq (deriv c r') (Star r')
  end.

Fixpoint accepts (r : regex) (s : string) : bool :=
  match s with
  | EmptyString => nullable r
  | String c s' => accepts (deriv c r) s'
  end.

Definition Lit (c : ascii) : regex := Class (Ascii.eqb c).
Definition Range (lo hi : ascii) : regex :=
  Class (fun c => between (code lo) (code hi) (code c)).
Definition Opt (r : regex) : regex := Alt r Eps.
Definition Plus (r : regex) : regex := Seq r (Star r).
Definition Anything : regex := Star (Class (fun _ => true)).

(** Whether [re.match(r, s)] finds a match: [r] has to match at the start
    of [s] and may stop anywhere. *)
Definition re_match (r : regex) (s : string) : bool :=
  accepts (Seq r Anything) s.

(** The same for a pattern that ends in [$]: the match has to stop at the
    end of [s] or just before a newline that ends [s]. *)
Definition re_match_dollar (r : regex) (s : string) : bool :=
  accepts (Seq r (Opt (Lit "010"%char))) s.

(** *** Values of mixed type *)

(** A statistic of a fetched record: [None], an [int] (from the API) or a
    [str] (from a CSV file); also what [process_covid_csv_data] returns for
    a statistic, an [int] or the [str] "N/A". *)
Inductive value : Type :=
| VNone
| VInt (n : Z)
| VStr (s : string).

(** [bool(v)] *)
Definition truthy (v : value) : bool :=
  match v with
  | VNone => false
  | VInt n => negb (n =? 0)
  | VStr EmptyString => false
  | VStr _ => true
  end.

(** [int(v)] *)
Definition int_of (v : value) : result Z :=
  match v with
  | VNone => throw TypeError
  | VInt n => ok n
  | VStr s => int_of_str s
  end.

(** [str(v)], as an f-string writes a value. *)
Definition str_of_int (n : Z) : string := NilZero.string_of_int (Z.to_int n).

Definition str_of (v : value) : string :=
  match v with
  | VNone => "None"
  | VInt n => str_of_int n
  | VStr s => s
  end.

(** [l[i]] for a list. *)
Definition list_item {A : Type} (l : list A) (i : nat) : result A :=
  match nth_error l i with
  | Some a => ok a
  | None => throw IndexError
  end.

(** The [update_interval] argument, of type [int|str|datetime.datetime]. *)
Inductive interval : Type :=
| an_int (n : Z)
| a_str (s : string)
| a_datetime (t : Z).

(** *** datetime *)

Definition SECOND : Z := 1000000.
Definition MINUTE : Z := 60 * SECOND.
Definition HOUR : Z := 60 * MINUTE.
Definition DAY : Z := 24 * HOUR.

(** [datetime.max] is the last microsecond of 9999-12-31, whose ordinal is
    3652059. *)
Definition DATETIME_END : Z := 3652059 * DAY.

Definition in_range (t : Z) : bool := (0 <=? t) && (t <? DATETIME_END).

(** [t + timedelta]: OverflowError outside 0001-01-01 .. 9999-12-31. *)
Definition dt_add (t delta : Z) : result Z :=
  if in_range (t + delta) then ok (t + delta) else throw OverflowError.

(** Midnight of the day of [t]. *)
Definition midnight (t : Z) : Z := t / DAY * DAY.

(** [t.hour] and [t.minute] *)
Definition hour (t : Z) : Z := (t mod DAY) / HOUR.
Definition minute (t : Z) : Z := (t mod HOUR) / MINUTE.

(** [t.replace(hour=h, minute=m, second=0, microsecond=0)] *)
Definition replace_hm (t h m : Z) : result Z :=
  if (0 <=? h) && (h <? 24) && (0 <=? m) && (m <? 60)
  then ok (midnight t + h * HOUR + m * MINUTE)
  else throw ValueError.

(** A number below 100 in two digits, and [t.strftime("%H:%M")]. *)
Definition two_digit (n : Z) : string :=
  String (ascii_of_nat (48 + Z.to_nat (n / 10)))
         (String (ascii_of_nat (48 + Z.to_nat (n mod 10))) "").

Definition strftime_HM (t : Z) : string :=
  two_digit (hour t) ++ ":" ++ two_digit (minute t).

(** *** sched *)

(** The callbacks the two schedulers are given. *)
Inductive action : Type :=
| call_sch_update_covid_data
| call_sch_update_news.

(** [sched.Event]; the argument tuple is (update_time, update_name, repeat). *)
Record Event : Type := mkEvent {
  ev_time : Z;
  ev_priority : Z;
  ev_sequence : nat;
  ev_action : action;
  ev_argument : Z * string * bool
}.

(** Events are tuples: [==] compares every field. *)
Definition action_eqb (a b : action) : bool :=
  match a, b with
  | call_sch_update_covid_data, call_sch_update_covid_data => true
  | call_sch_update_news, call_sch_update_news => true
  | _, _ => false
  end.

Definition argument_eqb (a b : Z * string * bool) : bool :=
  let '(t, n, r) := a in
  let '(t', n', r') := b in
  (t =? t') && String.eqb n n' && Bool.eqb r r'.

Definition event_eqb (a b : Event) : bool :=
  (ev_time a =? ev_time b) && (ev_priority a =? ev_priority b)
  && Nat.eqb (ev_sequence a) (ev_sequence b)
  && action_eqb (ev_action a) (ev_action b)
  && argument_eqb (ev_argument a) (ev_argument b).

(** The queue without the first event equal to [e]. *)
Fixpoint queue_without (e : Event) (q : list Event) : list Event :=
  match q with
  | [] => []
  | e' :: q' => if event_eqb e e' then q' else e' :: queue_without e q'
  end.

(** [scheduler.cancel(event)]: [queue.remove(event)], which raises
    ValueError when no event of the queue equals [event]. *)
Definition queue_remove (e : Event) (q : list Event) : result (list Event) :=
  if existsb (event_eqb e) q then ok (queue_without e q) else throw ValueError.

(** The order of the heap: by time, then priority, then sequence number,
    which differs between any two events of one scheduler. *)
Definition event_lt (a b : Event) : bool :=
  (ev_time a <? ev_time b)
  || ((ev_time a =? ev_time b)
      && ((ev_priority a <? ev_priority b)
          || ((ev_priority a =? ev_priority b)
              && Nat.ltb (ev_sequence a) (ev_sequence b)))).

(** [q[0]] of the heap: the least event of the queue. *)
Fixpoint least (q : list Event) : option Event :=
  match q with
  | [] => None
  | e :: q' =>
      match least q' with
      | Some m => if event_lt m e then Some m else Some e
      | None => Some e
      end
  end.

(** What [scheduler.run(blocking=False)] returns: [None] when the queue is
    empty, the time until the next event when that is not due; the loop of
    [run] has no bound, so the model counts its rounds and tells when they
    are used up. *)
Inductive polled : Type :=
| queue_empty
| next_in (delay : Z)
| rounds_used_up.

(** *** Globals, oracles and the monad of the module functions *)

(** What lies outside the modules: the clock, observed by
    [datetime.datetime.now()] and [time.time()]. *)
Record Outside : Type := mkOutside {
  clock : nat -> Z
}.

(** The state threaded through a module: the number of observations of the
    clock and of calls of the module's web API made so far, the counter that
    numbers the events of [sched], and the module's globals. *)
Record World (G : Type) : Type := mkWorld {
  clock_reads : nat;
  api_calls : nat;
  sequence : nat;
  globals_of : G
}.

Arguments mkWorld {G}.
Arguments clock_reads {G}.
Arguments api_calls {G}.
Arguments sequence {G}.
Arguments globals_of {G}.

Inductive outcome (G A : Type) : Type :=
| Returns (a : A) (w : World G)
| Raises (e : exn) (w : World G).

Arguments Returns {G A}.
Arguments Raises {G A}.

Definition M (G A : Type) : Type := World G -> outcome G A.

Definition ret {G A : Type} (a : A) : M G A := fun w => Returns a w.

Definition raise {G A : Type} (e : exn) : M G A := fun w => Raises e w.

Definition bind {G A B : Type} (m : M G A) (k : A -> M G B) : M G B :=
  fun w =>
    match m w with
    | Returns a w' => k a w'
    | Raises e w' => Raises e w'
    end.

Definition lift {G A : Type} (r : result A) : M G A :=
  match r with
  | inl e => raise e
  | inr a => ret a
  end.

(** The world with other globals. *)
Definition with_globals {G : Type} (w : World G) (g : G) : World G :=
  mkWorld (clock_reads w) (api_calls w) (sequence w) g.

Definition get_globals {G : Type} : M G G := fun w => Returns (globals_of w) w.

Definition set_globals {G : Type} (g : G) : M G unit :=
  fun w => Returns tt (with_globals w g).

(** The world after the outcome, whether it returned or raised. *)
Definition world_of {G A : Type} (o : outcome G A) : World G :=
  match o with
  | Returns _ w => w
  | Raises _ w => w
  end.

Definition raised {G A : Type} (o : outcome G A) : bool :=
  match o with
  | Returns _ _ => false
  | Raises _ _ => true
  end.

(** The world after one more observation of the clock. *)
Definition ticked {G : Type} (w : World G) : World G :=
  mkWorld (S (clock_reads w)) (api_calls w) (sequence w) (globals_of w).

Section Oracles.
Variable out : Outside.
Context {G : Type}.

(** One observation of the clock. *)
Definition now : M G Z :=
  fun w => Returns (clock out (clock_reads w)) (ticked w).

(** The number of the next call of the web API. *)
Definition next_api_call : M G nat :=
  fun w =>
    Returns (api_calls w)
            (mkWorld (clock_reads w) (S (api_calls w)) (sequence w) (globals_of w)).

(** [scheduler.enter(delay, priority, action, argument)]: the event is due
    [delay] after the time read now and is numbered by the next value of
    the counter; pushing it on the queue is left to the caller, which owns
    the queue. *)
Definition enter (delay priority : Z) (act : action)
    (argument : Z * string * bool) : M G Event :=
  fun w =>
    Returns (mkEvent (clock out (clock_reads w) + delay) priority
                     (sequence w) act argument)
            (mkWorld (S (clock_reads w)) (api_calls w) (S (sequence w)) (globals_of w)).
End Oracles.

End py.

Declare Scope py_scope.
Delimit Scope py_scope with py.
Notation "x <- m ;; k" := (py.bind m (fun x => k))
  (at level 61, m at next level, right associativity) : py_scope.
Notation "m ;;; k" := (py.bind m (fun _ => k))
  (at level 61, right associativity) : py_scope.
Notation "' pat <- m ;; k" := (py.bind m (fun x => match x with pat => k end))
  (at level 61, pat pattern, m at next level, right associativity) : py_scope.


Local Open Scope py_scope.

(** An entry of a module's [scheduled_updates]:
    [{"event": event, "update_time": update_time, "repeat": repeat}]. *)
Record ScheduledUpdate : Type := mkUpdate {
  event : py.Event;
  update_time : Z;
  repeat : bool
}.

(** ** The blocks the two modules have in common

    [time_to_update_interval] and the blocks of [schedule_covid_updates]
    and [schedule_news_updates] that handle a [datetime] and an [int] are
    the same text in both modules and touch no global. *)

Module intervals.
Import py.

Section Blocks.
Variable out : Outside.
Context {G : Type}.

(** [hrs, mins = map(int, update_interval.split(":"))] *)
Definition hrs_mins (update_interval : string) : result (Z * Z) :=
  match split ":" update_interval with
  | [a; b] =>
      rbind (int_of_str a) (fun hrs =>
      rbind (int_of_str b) (fun mins => ok (hrs, mins)))
  | _ => throw ValueError
  end.

(** Returns (time_to_update, update_time). *)
Definition time_to_update_interval (update_interval : string)
  : M G (Z * Z) :=
  '(hrs, mins) <- lift (hrs_mins update_interval) ;;
  t1 <- now out ;;
  update_time <- lift (replace_hm t1 hrs mins) ;;
  t2 <- now out ;;
  update_time <- (if update_time <? t2 then lift (dt_add update_time DAY)
                  else ret update_time) ;;
  t3 <- now out ;;
  ret (update_time - t3, update_time).

(** The [if isinstance(update_interval, datetime.datetime)] block. *)
Definition parse_datetime (update_interval : interval) (times : option (Z * Z))
  : M G (option (Z * Z)) :=
  match update_interval with
  | a_datetime t =>
      let update_time := t in
      t1 <- now out ;;
      update_time <-
        (if update_time <? t1 then
           t2 <- now out ;;
           update_time <- lift (replace_hm t2 (hour update_time) (minute update_time)) ;;
           t3 <- now out ;;
           if update_time <? t3 then lift (dt_add update_time DAY)
           else ret update_time
         else ret update_time) ;;
      t4 <- now out ;;
      ret (Some (update_time - t4, update_time))
  | _ => ret times
  end.

(** The [if isinstance(update_interval, int)] block. *)
Definition parse_int (update_interval : interval) (times : option (Z * Z))
  : M G (option (Z * Z)) :=
  match update_interval with
  | an_int n =>
      let time_to_update := Z.abs n * SECOND in
      t <- now out ;;
      update_time <- lift (dt_add t (n * SECOND)) ;;
      ret (Some (time_to_update, update_time))
  | _ => ret times
  end.
End Blocks.

End intervals.

(** ** covid_data_handler *)

Module cdh.
Import py intervals.

(** A value of the dict returned by the COVID API. *)
Inductive field : Type :=
| Null
| Records (l : list (dict value))
| Other (s : string).

Definition json : Type := dict field.

(** What [Cov19API(...).get_json()] does: it returns the data, raises one
    of the two exceptions [covid_API_request] catches, or raises an
    exception of neither class, a [requests.exceptions.ReadTimeout] say,
    which [covid_API_request] does not catch. *)
Inductive fetch : Type :=
| Fetched (data : json)
| FailedRequestError
| ConnectionError
| Uncaught (error : exn).

Record globals : Type := mkGlobals {
  covid_data : json;
  national_covid_data : json;
  scheduled_updates : dict ScheduledUpdate;
  scheduler : list Event;
  config_covid_location : dict string
}.

Definition with_covid_data (g : globals) (d : json) : globals :=
  mkGlobals d (national_covid_data g) (scheduled_updates g) (scheduler g)
            (config_covid_location g).

Definition with_national_covid_data (g : globals) (d : json) : globals :=
  mkGlobals (covid_data g) d (scheduled_updates g) (scheduler g)
            (config_covid_location g).

Definition with_scheduled_updates (g : globals) (u : dict ScheduledUpdate) : globals :=
  mkGlobals (covid_data g) (national_covid_data g) u (scheduler g)
            (config_covid_location g).

Definition with_scheduler (g : globals) (q : list Event) : globals :=
  mkGlobals (covid_data g) (national_covid_data g) (scheduled_updates g) q
            (config_covid_location g).

(** *** parse_csv_data and convert_covid_csv_data_to_list_dict *)

(** The characters [str.splitlines()] breaks a line at, below 256. *)
Definition is_line_break (c : ascii) : bool :=
  between 10 13 (code c) || between 28 30 (code c) || Nat.eqb (code c) 133.

(** [s.splitlines()]: a carriage return and the line feed after it are one
    break, and no empty line is made of the end of the text. *)
Fixpoint splitlines_from (cur : list ascii) (l : list ascii) : list string :=
  match l with
  | [] =>
      match cur with
      | [] => []
      | _ => [string_of_list_ascii (rev cur)]
      end
  | c :: l' =>
      if is_line_break c then
        string_of_list_ascii (rev cur)
        :: match l' with
           | c' :: l'' =>
               if Ascii.eqb c "013"%char && Ascii.eqb c' "010"%char
               then splitlines_from [] l''
               else splitlines_from [] l'
           | [] => []
           end
      else splitlines_from (c :: cur) l'
  end.

Definition splitlines (s : string) : list string :=
  splitlines_from [] (list_ascii_of_string s).

(** What [open(filename, encoding="ascii")] and [file.read()] come to: the
    text of the file, an IOError, or the UnicodeDecodeError of a byte that
    is not ASCII. *)
Inductive file : Type :=
| Text (content : string)
| IOError
| UnicodeDecodeError.

(** The [headers] of [parse_csv_data]. *)
Definition headers : dict string :=
  [("areaCode", "area_code");
   ("areaName", "area_name");
   ("areaType", "area_type");
   ("date", "date");
   ("cumDailyNsoDeathsByDeathDate", "cum_deaths");
   ("hospitalCases", "hospital_cases");
   ("newCasesBySpecimenDate", "new_cases")].

(** The loop over [file_headers]: a known header is renamed, an unknown
    one is kept. *)
Definition rename (header : string) : string :=
  match dict_get headers header with
  | Some new_header => new_header
  | None => header
  end.

(** The loop [for header, data_entry in zip(headers, row_data):
    data[header] = data_entry]. *)
Fixpoint fill (data : dict string) (covid_data_headers row_data : list string)
  : dict string :=
  match covid_data_headers, row_data with
  | header :: headers', data_entry :: row_data' =>
      fill (dict_set data header data_entry) headers' row_data'
  | _, _ => data
  end.

(** The keys [x['date']] of the sort, computed before anything is moved. *)
Fixpoint keyed (l : list (dict string)) : result (list (string * dict string)) :=
  match l with
  | [] => ok []
  | x :: l' =>
      rbind (dict_item x "date") (fun key =>
      rbind (keyed l') (fun rest => ok ((key, x) :: rest)))
  end.

(** [list.sort(key=..., reverse=True)]: no key is before a greater one,
    and records with the same key keep their order.  The record [x] came
    before those of [l]. *)
Fixpoint insert_desc (x : string * dict string) (l : list (string * dict string))
  : list (string * dict string) :=
  match l with
  | [] => [x]
  | y :: l' => if String.ltb (fst x) (fst y) then y :: insert_desc x l' else x :: l
  end.

Definition sort_desc (l : list (string * dict string)) : list (string * dict string) :=
  fold_right insert_desc [] l.

(** A record of a CSV row as [process_covid_csv_data] takes it: every
    value is a [str]. *)
Definition as_values (x : dict string) : dict value :=
  map (fun entry => (fst entry, VStr (snd entry))) x.

(** The body of [convert_covid_csv_data_to_list_dict] after the headers
    have been split off. *)
Definition records_of (covid_data_headers : list string)
    (covid_csv_data_local : list string) : result (list (dict value)) :=
  let covid_data_local :=
    map (fun row => fill [] covid_data_headers (split "," row))
        covid_csv_data_local in
  rbind (keyed covid_data_local) (fun with_keys =>
    ok (map (fun entry => as_values (snd entry)) (sort_desc with_keys))).

Definition convert_covid_csv_data_to_list_dict (covid_csv_data : list string)
  : result (list (dict value)) :=
  rbind (list_item covid_csv_data 0) (fun first =>
    records_of (split "," first) (tl covid_csv_data)).

(** [parse_csv_data]; [None] is what it returns after an IOError. *)
Definition parse_csv_data (open_file : string -> file) (filename : string)
  : result (option (list (dict value))) :=
  match open_file filename with
  | IOError => ok None
  | UnicodeDecodeError => throw ValueError
  | Text content =>
      let data_lines := splitlines content in
      rbind (list_item data_lines 0) (fun first =>
        let file_headers := split "," first in
        let new_headers := map rename file_headers in
        let data_lines := String.concat "," new_headers :: tl data_lines in
        rbind (convert_covid_csv_data_to_list_dict data_lines)
              (fun covid_data_local => ok (Some covid_data_local)))
  end.

(** *** process_covid_csv_data *)

(** [next((i for i, item in enumerate(l) if item[key]), None)], counting
    from [i]. *)
Fixpoint first_with (key : string) (l : list (dict value)) (i : nat)
  : result (option nat) :=
  match l with
  | [] => ok None
  | item :: l' =>
      rbind (dict_item item key) (fun v =>
        if truthy v then ok (Some i) else first_with key l' (S i))
  end.

(** The loop [for days in range(days): total += int(l[first_date+days]['new_cases'])]. *)
Fixpoint add_cases (l : list (dict value)) (first_date : nat) (days : list nat)
    (total : Z) : result Z :=
  match days with
  | [] => ok total
  | d :: days' =>
      rbind (list_item l (first_date + d)) (fun item =>
      rbind (dict_item item "new_cases") (fun v =>
      rbind (int_of v) (fun n =>
        add_cases l first_date days' (total + n))))
  end.

Definition NA : value := VStr "N/A".

(** The first block: the cases of the seven days after the first day that
    has data. *)
Definition total_cases_last_7_days (l : list (dict value)) : result value :=
  rbind (first_with "new_cases" l 0) (fun first_date =>
    match first_date with
    | Some i =>
        let first_date := S i in
        let days :=
          if Nat.ltb 7 (List.length l - first_date) then 7%nat
          else (List.length l - first_date)%nat in
        rbind (add_cases l first_date (seq 0 days) 0) (fun total => ok (VInt total))
    | None => ok NA
    end).

(** The second and third block: the most recent value of a statistic. *)
Definition most_recent (key : string) (l : list (dict value)) : result value :=
  rbind (first_with key l 0) (fun first_date =>
    match first_date with
    | Some i =>
        rbind (list_item l i) (fun item =>
        rbind (dict_item item key) (fun v =>
        rbind (int_of v) (fun n => ok (VInt n))))
    | None => ok NA
    end).

Definition process_covid_csv_data (covid_data_local : list (dict value))
  : result (value * value * value) :=
  rbind (total_cases_last_7_days covid_data_local) (fun cases =>
  rbind (most_recent "hospital_cases" covid_data_local) (fun hospital_cases =>
  rbind (most_recent "cum_deaths" covid_data_local) (fun cum_deaths =>
    ok (cases, hospital_cases, cum_deaths)))).

(** *** Scheduling *)

Section Functions.
Variable out : Outside.
Variable get_json : nat -> list string -> fetch.

(** [time_to_update_interval] of this module. *)
Definition time_to_update_interval : string -> M globals (Z * Z) :=
  intervals.time_to_update_interval out.

(** The pattern ["^([0-1]?[0-9]|2[0-3]):[0-5][0-9]$"], without its
    anchors. *)
Definition HH_MM : regex :=
  Seq (Alt (Seq (Opt (Range "0" "1")) (Range "0" "9"))
           (Seq (Lit "2") (Range "0" "3")))
      (Seq (Lit ":") (Seq (Range "0" "5") (Range "0" "9"))).

(** The [if isinstance(update_interval, str)] block: [None] stands for
    its [return None]; otherwise the interval as the later blocks see it
    and the two times if they have been assigned. *)
Definition parse_str (update_interval : interval)
  : M globals (option (interval * option (Z * Z))) :=
  match update_interval with
  | a_str s =>
      if re_match_dollar HH_MM s then
        times <- time_to_update_interval s ;;
        ret (Some (update_interval, Some times))
      else if isdigit s then
        n <- lift (int_of_str s) ;;
        ret (Some (an_int n, None))
      else ret None
  | _ => ret (Some (update_interval, None))
  end.

(** The last block: register the update unless its name is in use. *)
Definition register (times : option (Z * Z)) (update_name : string)
    (repeat : bool) : M globals unit :=
  match times with
  | None => raise UnboundLocalError
  | Some (time_to_update, update_time) =>
      g <- get_globals ;;
      if negb (dict_in update_name (scheduled_updates g)) then
        event <- enter out time_to_update 1 call_sch_update_covid_data
                       (update_time, update_name, repeat) ;;
        g <- get_globals ;;
        set_globals
          (with_scheduled_updates (with_scheduler g (scheduler g ++ [event]))
             (dict_set (scheduled_updates g) update_name
                       (mkUpdate event update_time repeat)))
      else ret tt
  end.

Definition schedule_covid_updates (update_interval : interval)
    (update_name : string) (repeat : bool) : M globals unit :=
  parsed <- parse_str update_interval ;;
  match parsed with
  | None => ret tt
  | Some (update_interval, times) =>
      times <- parse_datetime out update_interval times ;;
      times <- parse_int out update_interval times ;;
      register times update_name repeat
  end.

(** The answer of a failed request. *)
Definition no_data : json := [("data", Null)].

Definition covid_API_request (location location_type : string) : M globals json :=
  let location_data :=
    if negb (String.eqb location_type "overview")
    then ["areaType=" ++ location_type; "areaName=" ++ location]%string
    else ["areaType=overview"] in
  k <- next_api_call ;;
  match get_json k location_data with
  | Fetched data => ret data
  | FailedRequestError =>
      schedule_covid_updates (an_int 30) "API Retry" false ;;;
      ret no_data
  | ConnectionError =>
      schedule_covid_updates (an_int 30) "API Retry" false ;;;
      ret no_data
  | Uncaught error => raise error
  end.

(** [bool(d)] for a dict. *)
Definition nonempty {V : Type} (d : dict V) : bool :=
  match d with
  | [] => false
  | _ => true
  end.

(** The callback [sch_update_covid_data] in its three steps.  First
    [del scheduled_updates[update_name]]. *)
Definition forget (update_name : string) : M globals unit :=
  g <- get_globals ;;
  updates <- lift (dict_del (scheduled_updates g) update_name) ;;
  set_globals (with_scheduled_updates g updates).

(** Then the two requests and the assignments of their answers. *)
Definition refresh : M globals unit :=
  g <- get_globals ;;
  api_response <-
    (if nonempty (config_covid_location g) then
       location_type <- lift (dict_item (config_covid_location g) "area_type") ;;
       location <- lift (dict_item (config_covid_location g) "area_name") ;;
       covid_API_request location location_type
     else covid_API_request "Exeter" "ltla") ;;
  national_api_response <- covid_API_request "Exeter" "overview" ;;
  (if nonempty api_response then
     g <- get_globals ;; set_globals (with_covid_data g api_response)
   else ret tt) ;;;
  (if nonempty national_api_response then
     g <- get_globals ;; set_globals (with_national_covid_data g national_api_response)
   else ret tt).

(** Last the [if repeat] block. *)
Definition rearm (update_time : Z) (update_name : string) (repeat : bool)
  : M globals unit :=
  if repeat then
    update_time <- lift (dt_add update_time DAY) ;;
    schedule_covid_updates (a_datetime update_time) update_name repeat
  else ret tt.

Definition sch_update_covid_data (update_time : Z) (update_name : string)
    (repeat : bool) : M globals unit :=
  forget update_name ;;;
  refresh ;;;
  rearm update_time update_name repeat.

Definition cancel_scheduled_update (update_name : string) : M globals unit :=
  g <- get_globals ;;
  if dict_in update_name (scheduled_updates g) then
    update <- lift (dict_item (scheduled_updates g) update_name) ;;
    queue <- lift (queue_remove (event update) (scheduler g)) ;;
    set_globals (with_scheduler g queue) ;;;
    g <- get_globals ;;
    updates <- lift (dict_del (scheduled_updates g) update_name) ;;
    set_globals (with_scheduled_updates g updates)
  else ret tt.

(** [scheduler.run(blocking=False)], as [home] calls it, for at most
    [rounds] rounds of its loop.  Every event of this scheduler was entered
    by [schedule_covid_updates], with [sch_update_covid_data] as action. *)
Fixpoint scheduler_run (rounds : nat) : M globals polled :=
  match rounds with
  | O => ret rounds_used_up
  | S rounds' =>
      g <- get_globals ;;
      match least (scheduler g) with
      | None => ret queue_empty
      | Some first =>
          t <- now out ;;
          if ev_time first >? t then ret (next_in (ev_time first - t))
          else
            set_globals (with_scheduler g (queue_without first (scheduler g))) ;;;
            (let '(update_time, update_name, repeat) := ev_argument first in
             sch_update_covid_data update_time update_name repeat) ;;;
            scheduler_run rounds'
      end
  end.
End Functions.

End cdh.

(** ** covid_news_handling *)

Module cnh.
Import py intervals.

(** An article of the news API; [content] is [None] when the API has no
    text for it. *)
Record Article : Type := mkArticle {
  title : string;
  url : string;
  content : option string
}.

(** The dict the news API answers with. *)
Record json : Type := mkJson {
  status : string;
  articles : list Article
}.

(** What [requests.get(url)] followed by [response.json()] does: it
    answers, raises one of the two exceptions [news_API_request] catches,
    or raises an exception of neither class, the
    [requests.exceptions.JSONDecodeError] of a body that is no JSON say,
    which [news_API_request] does not catch. *)
Inductive fetch : Type :=
| Fetched (response : json)
| ConnectionError
| Timeout
| Uncaught (error : exn).

(** An entry of [formatted_news]. *)
Record Formatted : Type := mkFormatted {
  formatted_title : string;
  formatted_content : string
}.

Record globals : Type := mkGlobals {
  api_key : string;
  config_covid_terms : string;
  news : list Article;
  formatted_news : list Formatted;
  removed_articles : list string;
  scheduler : list Event;
  scheduled_updates : dict ScheduledUpdate
}.

Definition with_news (g : globals) (l : list Article) : globals :=
  mkGlobals (api_key g) (config_covid_terms g) l (formatted_news g)
            (removed_articles g) (scheduler g) (scheduled_updates g).

Definition with_formatted_news (g : globals) (l : list Formatted) : globals :=
  mkGlobals (api_key g) (config_covid_terms g) (news g) l
            (removed_articles g) (scheduler g) (scheduled_updates g).

Definition with_removed_articles (g : globals) (l : list string) : globals :=
  mkGlobals (api_key g) (config_covid_terms g) (news g) (formatted_news g)
            l (scheduler g) (scheduled_updates g).

Definition with_scheduler (g : globals) (q : list Event) : globals :=
  mkGlobals (api_key g) (config_covid_terms g) (news g) (formatted_news g)
            (removed_articles g) q (scheduled_updates g).

Definition with_scheduled_updates (g : globals) (u : dict ScheduledUpdate) : globals :=
  mkGlobals (api_key g) (config_covid_terms g) (news g) (formatted_news g)
            (removed_articles g) (scheduler g) u.

(** [t in l] for a list of titles. *)
Definition title_in (t : string) (l : list string) : bool :=
  existsb (String.eqb t) l.

(** [l.index(t)] when [t in l]. *)
Fixpoint index_of (t : string) (l : list string) : nat :=
  match l with
  | [] => 0%nat
  | t' :: l' => if String.eqb t t' then 0%nat else S (index_of t l')
  end.

(** [del l[i]] *)
Fixpoint del_at {A : Type} (l : list A) (i : nat) : list A :=
  match l, i with
  | [], _ => []
  | _ :: l', O => l'
  | a :: l', S i' => a :: del_at l' i'
  end.

(** [c[0:100]] of an article's content: TypeError when it is [None]. *)
Definition first_100 (c : option string) : result string :=
  match c with
  | Some text => ok (substring 0 100 text)
  | None => throw TypeError
  end.

(** The entry [news_formatter] makes of an article. *)
Definition format_article (article : Article) : result Formatted :=
  rbind (first_100 (content article)) (fun text =>
    ok (mkFormatted (title article)
          ("<a href = '" ++ url article ++ "'" ++ String "010"
           "                         style = 'color:black'>" ++ text ++ "...</a>"))).

Section Functions.
Variable out : Outside.
Variable requests_get : nat -> string -> fetch.

(** The loop of [news_formatter], appending to [formatted_news]. *)
Fixpoint format_all (temp_news_list : list Article) : M globals unit :=
  match temp_news_list with
  | [] => ret tt
  | article :: rest =>
      temp_formatted <- lift (format_article article) ;;
      g <- get_globals ;;
      set_globals (with_formatted_news g (formatted_news g ++ [temp_formatted])) ;;;
      format_all rest
  end.

Definition news_formatter : M globals unit :=
  g <- get_globals ;;
  set_globals (with_formatted_news g []) ;;;
  g <- get_globals ;;
  let temp_news_list :=
    if Nat.leb 5 (List.length (news g)) then firstn 5 (news g) else news g in
  format_all temp_news_list.

(** [time_to_update_interval] of this module. *)
Definition time_to_update_interval : string -> M globals (Z * Z) :=
  intervals.time_to_update_interval out.

(** The pattern ["[0-9]{2}:[0-9]{}2"]: [{}] is no repetition count, so
    the three characters after the third digit are matched literally. *)
Definition HH_MM : regex :=
  Seq (Seq (Range "0" "9") (Range "0" "9"))
      (Seq (Lit ":") (Seq (Range "0" "9") (Seq (Lit "{") (Seq (Lit "}") (Lit "2"))))).

(** The pattern ["[0-9]+"]. *)
Definition digits : regex := Plus (Range "0" "9").

Definition parse_str (update_interval : interval)
  : M globals (option (interval * option (Z * Z))) :=
  match update_interval with
  | a_str s =>
      if re_match HH_MM s then
        times <- time_to_update_interval s ;;
        ret (Some (update_interval, Some times))
      else if re_match digits s then
        n <- lift (int_of_str s) ;;
        ret (Some (an_int n, None))
      else ret None
  | _ => ret (Some (update_interval, None))
  end.

Definition register (times : option (Z * Z)) (update_name : string)
    (repeat : bool) : M globals unit :=
  match times with
  | None => raise UnboundLocalError
  | Some (time_to_update, update_time) =>
      g <- get_globals ;;
      if negb (dict_in update_name (scheduled_updates g)) then
        event <- enter out time_to_update 1 call_sch_update_news
                       (update_time, update_name, repeat) ;;
        g <- get_globals ;;
        set_globals
          (with_scheduled_updates (with_scheduler g (scheduler g ++ [event]))
             (dict_set (scheduled_updates g) update_name
                       (mkUpdate event update_time repeat)))
      else ret tt
  end.

Definition schedule_news_updates (update_interval : interval)
    (update_name : string) (repeat : bool) : M globals unit :=
  parsed <- parse_str update_interval ;;
  match parsed with
  | None => ret tt
  | Some (update_interval, times) =>
      times <- parse_datetime out update_interval times ;;
      times <- parse_int out update_interval times ;;
      register times update_name repeat
  end.

(** The [url] of [news_API_request]. *)
Definition request_url (g : globals) (covid_terms : string) : string :=
  let covid_terms :=
    match config_covid_terms g with
    | EmptyString => covid_terms
    | configured => configured
    end in
  let covid_terms_list := split " " covid_terms in
  ("https://newsapi.org/v2/everything?q=+"
     ++ String.concat "+" covid_terms_list
     ++ "&apikey=" ++ api_key g)%string.

(** Returns [None] when the request failed. *)
Definition news_API_request (covid_terms : string) : M globals (option json) :=
  g <- get_globals ;;
  let url := request_url g covid_terms in
  k <- next_api_call ;;
  match requests_get k url with
  | Fetched response => ret (Some response)
  | ConnectionError =>
      schedule_news_updates (an_int 30) "API Retry" false ;;;
      ret None
  | Timeout =>
      schedule_news_updates (an_int 30) "API Retry" false ;;;
      ret None
  | Uncaught error => raise error
  end.

(** The loop of [update_news], appending to [news]. *)
Fixpoint keep_articles (l : list Article) : M globals unit :=
  match l with
  | [] => ret tt
  | article :: rest =>
      g <- get_globals ;;
      (if negb (title_in (title article) (removed_articles g))
       then set_globals (with_news g (news g ++ [article]))
       else ret tt) ;;;
      keep_articles rest
  end.

Definition update_news (terms : string) : M globals unit :=
  api_response <- news_API_request terms ;;
  g <- get_globals ;;
  set_globals (with_news g []) ;;;
  match api_response with
  | Some response =>
      if negb (String.eqb (status response) "error") then
        keep_articles (articles response) ;;;
        news_formatter
      else ret tt
  | None => ret tt
  end.

Definition add_removed_article (article_title : string) : M globals unit :=
  g <- get_globals ;;
  set_globals (with_removed_articles g (removed_articles g ++ [article_title])) ;;;
  g <- get_globals ;;
  let article_titles := map title (news g) in
  (if title_in article_title article_titles then
     let article_index := index_of article_title article_titles in
     set_globals (with_news g (del_at (news g) article_index))
   else ret tt) ;;;
  news_formatter.

(** The callback [sch_update_news] in its three steps: first
    [del scheduled_updates[update_name]], then [update_news()], last the
    [if repeat] block. *)
Definition forget (update_name : string) : M globals unit :=
  g <- get_globals ;;
  updates <- lift (dict_del (scheduled_updates g) update_name) ;;
  set_globals (with_scheduled_updates g updates).

Definition rearm (update_time : Z) (update_name : string) (repeat : bool)
  : M globals unit :=
  if repeat then
    update_time <- lift (dt_add update_time DAY) ;;
    schedule_news_updates (a_datetime update_time) update_name repeat
  else ret tt.

Definition sch_update_news (update_time : Z) (update_name : string)
    (repeat : bool) : M globals unit :=
  forget update_name ;;;
  update_news "Covid COVID-19 coronavirus" ;;;
  rearm update_time update_name repeat.

Definition cancel_scheduled_update (update_name : string) : M globals unit :=
  g <- get_globals ;;
  if dict_in update_name (scheduled_updates g) then
    update <- lift (dict_item (scheduled_updates g) update_name) ;;
    queue <- lift (queue_remove (event update) (scheduler g)) ;;
    set_globals (with_scheduler g queue) ;;;
    g <- get_globals ;;
    updates <- lift (dict_del (scheduled_updates g) update_name) ;;
    set_globals (with_scheduled_updates g updates)
  else ret tt.

(** [scheduler.run(blocking=False)], as [home] calls it, for at most
    [rounds] rounds of its loop.  Every event of this scheduler was entered
    by [schedule_news_updates], with [sch_update_news] as action. *)
Fixpoint scheduler_run (rounds : nat) : M globals polled :=
  match rounds with
  | O => ret rounds_used_up
  | S rounds' =>
      g <- get_globals ;;
      match least (scheduler g) with
      | None => ret queue_empty
      | Some first =>
          t <- now out ;;
          if ev_time first >? t then ret (next_in (ev_time first - t))
          else
            set_globals (with_scheduler g (queue_without first (scheduler g))) ;;;
            (let '(update_time, update_name, repeat) := ev_argument first in
             sch_update_news update_time update_name repeat) ;;;
            scheduler_run rounds'
      end
  end.
End Functions.

End cnh.

(** ** covid_dashboard *)

Module dashboard.
Import py intervals.

(** An entry of the dashboard's [scheduled_updates]:
    [{"covid": .., "news": .., "time": .., "repeat": ..}]. *)
Record Merged : Type := mkMerged {
  covid : bool;
  news : bool;
  time : Z;
  repeat_daily : bool
}.

(** The first loop of [collate_update_lists], over the names of
    [cdh.scheduled_updates]. *)
Fixpoint collate_covid (names : list string)
    (cdh_updates cnh_updates : dict ScheduledUpdate)
    (scheduled_updates : dict Merged) : result (dict Merged) :=
  match names with
  | [] => ok scheduled_updates
  | covid_update :: rest =>
      rbind (dict_item cdh_updates covid_update) (fun u =>
        collate_covid rest cdh_updates cnh_updates
          (dict_set scheduled_updates covid_update
             (mkMerged true (dict_in covid_update cnh_updates)
                       (update_time u) (repeat u))))
  end.

(** The second loop, over the names of [cnh.scheduled_updates]. *)
Fixpoint collate_news (names : list string)
    (cnh_updates : dict ScheduledUpdate)
    (scheduled_updates : dict Merged) : result (dict Merged) :=
  match names with
  | [] => ok scheduled_updates
  | news_update :: rest =>
      if negb (dict_in news_update scheduled_updates) then
        rbind (dict_item cnh_updates news_update) (fun u =>
          collate_news rest cnh_updates
            (dict_set scheduled_updates news_update
               (mkMerged false true (update_time u) (repeat u))))
      else collate_news rest cnh_updates scheduled_updates
  end.

(** The dashboard's [scheduled_updates] after [collate_update_lists()],
    which clears it first. *)
Definition collate_update_lists (cdh_updates cnh_updates : dict ScheduledUpdate)
  : result (dict Merged) :=
  rbind (collate_covid (keys cdh_updates) cdh_updates cnh_updates [])
        (fun scheduled_updates =>
           collate_news (keys cnh_updates) cnh_updates scheduled_updates).

(** An entry of the list [format_update_toasts] returns:
    [{"title": .., "content": ..}]. *)
Record Toast : Type := mkToast {
  toast_title : string;
  toast_content : string
}.

(** [s * b] for a [str] and a [bool]. *)
Definition times (s : string) (b : bool) : string := if b then s else "".

(** The end of a line of the f-string and the blanks that start the
    next one. *)
Definition next_line : string := String "010" "             ".

(** The f-string of [format_update_toasts]. *)
Definition toast_text (update_details : Merged) (update_time : string) : string :=
  "Updating " ++ times "COVID Data" (covid update_details)
  ++ next_line ++ times (times "and" (covid update_details)) (news update_details)
  ++ " " ++ next_line ++ times "Covid News" (news update_details)
  ++ next_line ++ "at " ++ update_time ++ " "
  ++ times "every day" (repeat_daily update_details).

Definition format_update_toasts (scheduled_updates : dict Merged) : list Toast :=
  map (fun item =>
         let update_name := fst item in
         let update_details := snd item in
         let update_time := strftime_HM (time update_details) in
         mkToast update_name (toast_text update_details update_time))
      scheduled_updates.

(** *** The state of the program

    The globals of the two imported modules, each with the count of the
    calls of its API and the counter of its scheduler, and the dashboard's
    own [scheduled_updates].  The clock is one for all of them. *)
Record globals : Type := mkGlobals {
  data_module : cdh.globals;
  data_api_calls : nat;
  data_sequence : nat;
  news_module : cnh.globals;
  news_api_calls : nat;
  news_sequence : nat;
  scheduled_updates : dict Merged
}.

Definition with_scheduled_updates (g : globals) (u : dict Merged) : globals :=
  mkGlobals (data_module g) (data_api_calls g) (data_sequence g)
            (news_module g) (news_api_calls g) (news_sequence g) u.

(** The data module as the program has it, and the program after the data
    module has run. *)
Definition data_world (w : World globals) : World cdh.globals :=
  mkWorld (clock_reads w) (data_api_calls (globals_of w))
          (data_sequence (globals_of w)) (data_module (globals_of w)).

Definition after_data (w : World globals) (wd : World cdh.globals) : World globals :=
  mkWorld (clock_reads wd) (api_calls w) (sequence w)
          (mkGlobals (globals_of wd) (api_calls wd) (sequence wd)
                     (news_module (globals_of w)) (news_api_calls (globals_of w))
                     (news_sequence (globals_of w)) (scheduled_updates (globals_of w))).

Definition news_world (w : World globals) : World cnh.globals :=
  mkWorld (clock_reads w) (news_api_calls (globals_of w))
          (news_sequence (globals_of w)) (news_module (globals_of w)).

Definition after_news (w : World globals) (wn : World cnh.globals) : World globals :=
  mkWorld (clock_reads wn) (api_calls w) (sequence w)
          (mkGlobals (data_module (globals_of w)) (data_api_calls (globals_of w))
                     (data_sequence (globals_of w))
                     (globals_of wn) (api_calls wn) (sequence wn)
                     (scheduled_updates (globals_of w))).

(** A call of a function of [cdh], and one of [cnh]. *)
Definition in_cdh {A : Type} (m : M cdh.globals A) : M globals A :=
  fun w =>
    match m (data_world w) with
    | Returns a wd => Returns a (after_data w wd)
    | Raises e wd => Raises e (after_data w wd)
    end.

Definition in_cnh {A : Type} (m : M cnh.globals A) : M globals A :=
  fun w =>
    match m (news_world w) with
    | Returns a wn => Returns a (after_news w wn)
    | Raises e wn => Raises e (after_news w wn)
    end.

(** *** home *)

(** The arguments of the request, each a [str] or [None]:
    [request.args.get] of "notif", "update", "two", "repeat", "covid-data",
    "news" and "update_item". *)
Record Args : Type := mkArgs {
  notif : option string;
  update : option string;
  two : option string;
  repeat_arg : option string;
  covid_data_arg : option string;
  news_arg : option string;
  update_item : option string
}.

(** [bool(a)] and [str(a)] for such an argument. *)
Definition given (a : option string) : bool :=
  match a with
  | Some (String _ _) => true
  | _ => false
  end.

Definition str_of_arg (a : option string) : string :=
  match a with
  | Some s => s
  | None => "None"
  end.

(** What [render_template] is given, the title apart. *)
Record Page : Type := mkPage {
  location : value;
  local_7day_infections : string;
  nation_location : value;
  national_7day_infections : value;
  hospital_cases : value;
  deaths_total : value;
  news_articles : list cnh.Formatted;
  updates : list Toast
}.

(** [bool(f)] for a value of the dict of the API. *)
Definition field_truthy (f : cdh.field) : bool :=
  match f with
  | cdh.Null => false
  | cdh.Records [] => false
  | cdh.Records _ => true
  | cdh.Other EmptyString => false
  | cdh.Other _ => true
  end.

(** The records of a value that is not empty; the characters of a [str]
    are no records, and subscripting one with a key raises TypeError. *)
Definition records (f : cdh.field) : result (list (dict value)) :=
  match f with
  | cdh.Records l => ok l
  | _ => throw TypeError
  end.

(** The six values of the [if] at the start of [home]:
    (local_7_day_infections, location, nation_location,
    national_7day_infections, hospital_cases, deaths_total). *)
Definition key_statistics (g : cdh.globals)
  : result (value * value * value * value * value * value) :=
  rbind (dict_item (cdh.covid_data g) "data") (fun local =>
  rbind (if field_truthy local
         then rbind (dict_item (cdh.national_covid_data g) "data")
                    (fun national => ok (field_truthy national))
         else ok false) (fun loaded =>
  if (loaded : bool) then
    rbind (dict_item (cdh.national_covid_data g) "data") (fun national =>
    rbind (records national) (fun national_records =>
    rbind (cdh.process_covid_csv_data national_records) (fun national_stats =>
    rbind (dict_item (cdh.covid_data g) "data") (fun local =>
    rbind (records local) (fun local_records =>
    rbind (cdh.process_covid_csv_data local_records) (fun local_stats =>
    let local_7_day_infections := fst (fst local_stats) in
    rbind (list_item local_records 0) (fun first_local =>
    rbind (dict_item first_local "area_name") (fun location =>
    rbind (list_item national_records 0) (fun first_national =>
    rbind (dict_item first_national "area_name") (fun nation_location =>
    ok (local_7_day_infections, location, nation_location,
        VStr (str_of (fst (fst national_stats)) ++ " cases"),
        VStr (str_of (snd (fst national_stats)) ++ " hospital cases"),
        VStr (str_of (snd national_stats) ++ " total deaths"))))))))))))
  else
    ok (VStr "N/A", VStr "N/A", VStr "N/A", VStr "N/A", VStr "N/A", VStr "N/A"))).

Section Functions.
Variable out : Outside.
Variable get_json : nat -> list string -> cdh.fetch.
Variable requests_get : nat -> string -> cnh.fetch.

(** [cdh.schedule_covid_updates(update_time, update_title, repeat)] with
    the "update" argument of the request.  [None] is none of the three
    types the function looks for: it assigns neither time and raises
    UnboundLocalError where it logs the update time, before anything is
    registered. *)
Definition schedule_covid_from_form (update_time : option string)
    (update_title : string) (repeat : bool) : M globals unit :=
  match update_time with
  | Some s => in_cdh (cdh.schedule_covid_updates out (a_str s) update_title repeat)
  | None => raise UnboundLocalError
  end.

Definition schedule_news_from_form (update_time : option string)
    (update_title : string) (repeat : bool) : M globals unit :=
  match update_time with
  | Some s => in_cnh (cnh.schedule_news_updates out (a_str s) update_title repeat)
  | None => raise UnboundLocalError
  end.

(** The [if update_covid_data or update_news] block. *)
Definition schedule_from_form (args : Args) : M globals unit :=
  let repeat := given (repeat_arg args) in
  if given (covid_data_arg args) || given (news_arg args) then
    let update_title := (str_of_arg (two args) ++ " - " ++ str_of_arg (update args))%string in
    g <- get_globals ;;
    if negb (dict_in update_title (scheduled_updates g)) then
      (if given (covid_data_arg args)
       then schedule_covid_from_form (update args) update_title repeat
       else ret tt) ;;;
      (if given (news_arg args)
       then schedule_news_from_form (update args) update_title repeat
       else ret tt)
    else ret tt
  else ret tt.

(** The [if remove_scheduled_update] block. *)
Definition remove_from_form (args : Args) : M globals unit :=
  if given (update_item args) then
    let remove_scheduled_update := str_of_arg (update_item args) in
    g <- get_globals ;;
    update <- lift (dict_item (scheduled_updates g) remove_scheduled_update) ;;
    (if news update
     then in_cnh (cnh.cancel_scheduled_update remove_scheduled_update)
     else ret tt) ;;;
    (if covid update
     then in_cdh (cdh.cancel_scheduled_update remove_scheduled_update)
     else ret tt)
  else ret tt.

(** The [if remove_news_notif] block. *)
Definition remove_article_from_form (args : Args) : M globals unit :=
  if given (notif args)
  then in_cnh (cnh.add_removed_article (str_of_arg (notif args)))
  else ret tt.

(** [collate_update_lists()] on the registries of the two modules. *)
Definition collate_now : M globals unit :=
  g <- get_globals ;;
  collated <- lift (collate_update_lists (cdh.scheduled_updates (data_module g))
                                         (cnh.scheduled_updates (news_module g))) ;;
  set_globals (with_scheduled_updates g collated).

(** [home], with the polls of the two schedulers bounded by [rounds]. *)
Definition home (rounds : nat) (args : Args) : M globals Page :=
  in_cdh (cdh.scheduler_run out get_json rounds) ;;;
  in_cnh (cnh.scheduler_run out requests_get rounds) ;;;
  g <- get_globals ;;
  '(local_7_day_infections, location, nation_location,
    national_7day_infections, hospital_cases, deaths_total)
     <- lift (key_statistics (data_module g)) ;;
  schedule_from_form args ;;;
  remove_from_form args ;;;
  remove_article_from_form args ;;;
  collate_now ;;;
  g <- get_globals ;;
  let updates := format_update_toasts (scheduled_updates g) in
  ret (mkPage location (str_of local_7_day_infections ++ " cases")
              nation_location national_7day_infections hospital_cases deaths_total
              (cnh.formatted_news (news_module g)) updates).

(** [data_init] *)
Definition data_init : M globals unit :=
  g <- get_globals ;;
  let config := cdh.config_covid_location (data_module g) in
  covid_data <-
    (if cdh.nonempty config then
       location <- lift (dict_item config "area_name") ;;
       location_type <- lift (dict_item config "area_type") ;;
       in_cdh (cdh.covid_API_request out get_json location location_type)
     else in_cdh (cdh.covid_API_request out get_json "Exeter" "ltla")) ;;
  in_cdh (g <- get_globals ;; set_globals (cdh.with_covid_data g covid_data)) ;;;
  national_covid_data <- in_cdh (cdh.covid_API_request out get_json "Exeter" "overview") ;;
  in_cdh (g <- get_globals ;;
          set_globals (cdh.with_national_covid_data g national_covid_data)) ;;;
  in_cnh (cnh.update_news out requests_get "Covid COVID-19 coronavirus").
End Functions.

End dashboard.

(** ** Notions used in the statements *)

Module notions.
Import py.

(** [x in names], for a list of names. *)
Definition mem (x : string) (names : list string) : bool :=
  existsb (String.eqb x) names.

(** The merged entry the first loop of [collate_update_lists] writes for a
    name of the data registry, and the one the second loop writes for a
    name that is only in the news registry. *)
Definition covid_entry (cdh_updates cnh_updates : dict ScheduledUpdate)
    (x : string) : option dashboard.Merged :=
  option_map
    (fun u => dashboard.mkMerged true (dict_in x cnh_updates) (update_time u) (repeat u))
    (dict_get cdh_updates x).

Definition news_entry (cnh_updates : dict ScheduledUpdate) (x : string)
  : option dashboard.Merged :=
  option_map
    (fun u => dashboard.mkMerged false true (update_time u) (repeat u))
    (dict_get cnh_updates x).

(** A record has the statistic [key] and its value is empty: [None], the
    empty string or 0. *)
Definition empty_in (key : string) (item : dict value) : bool :=
  match dict_get item key with
  | Some v => negb (truthy v)
  | None => false
  end.

(** The statistic is there and empty in every record. *)
Definition all_empty (key : string) (l : list (dict value)) : bool :=
  forallb (empty_in key) l.

(** Nothing but the count of clock observations differs between two
    worlds: the same globals, and no event and no API call was made. *)
Definition same_but_clock {G : Type} (w w' : World G) : Prop :=
  api_calls w' = api_calls w
  /\ sequence w' = sequence w
  /\ globals_of w' = globals_of w.

(** A computation that at most observes the clock, whatever its outcome. *)
Definition quiet {G A : Type} (m : M G A) : Prop :=
  forall w, same_but_clock w (world_of (m w)).

(** The two digits of a number below 100, and a time of day as the
    dashboard's form writes it: "HH:MM", or "H:MM" for an hour below 10. *)
Definition two_digits (n : nat) : string :=
  String (ascii_of_nat (48 + n / 10)) (String (ascii_of_nat (48 + n mod 10)) "").

Definition HHMM (h m : nat) : string := (two_digits h ++ ":" ++ two_digits m)%string.

Definition HMM (h m : nat) : string :=
  (String (ascii_of_nat (48 + h)) "" ++ ":" ++ two_digits m)%string.

(** [s] is a valid wall-clock time, of hour [h] and minute [m]. *)
Definition wall_clock (s : string) (h m : nat) : Prop :=
  (h < 24)%nat /\ (m < 60)%nat /\ (s = HHMM h m \/ ((h < 10)%nat /\ s = HMM h m)).

(** [s] is accepted by the data module as the time of day [h]:[m]. *)
Definition read_as (s : string) (h m : nat) : bool :=
  re_match_dollar cdh.HH_MM s
  && match intervals.hrs_mins s with
     | inr (hrs, mins) => (hrs =? Z.of_nat h) && (mins =? Z.of_nat m)
     | inl _ => false
     end.

(** [s] goes through the patterns of the news module to [int()], which
    refuses it. *)
Definition news_refuses (s : string) : bool :=
  negb (re_match cnh.HH_MM s)
  && re_match cnh.digits s
  && match int_of_str s with
     | inl ValueError => true
     | _ => false
     end.

(** The next time it is [h]:[m], seen from [t]: today if that is not
    before [t], else tomorrow. *)
Definition next_occurrence (t : Z) (h m : nat) : Z :=
  let today := midnight t + Z.of_nat h * HOUR + Z.of_nat m * MINUTE in
  if today <? t then today + DAY else today.

(** The time of day [h]:[m] on the day of [t1], moved to the next day when
    it is before [t2]. *)
Definition occurrence (t1 t2 : Z) (h m : nat) : Z :=
  let today := midnight t1 + Z.of_nat h * HOUR + Z.of_nat m * MINUTE in
  if today <? t2 then today + DAY else today.

(** A computation whose final globals, whatever its outcome, are related
    by [R] to the globals it started from. *)
Definition preserves {G A : Type} (R : G -> G -> Prop) (m : M G A) : Prop :=
  forall w, R (globals_of w) (globals_of (world_of (m w))).

(** The registry [reg] holds the same entries under every name but [name]. *)
Definition elsewhere {G : Type} (reg : G -> dict ScheduledUpdate) (name : string)
    (g g' : G) : Prop :=
  forall x, x <> name -> dict_get (reg g') x = dict_get (reg g) x.

(** The entries [news_formatter] makes of a list of articles, when every
    one of them has a content. *)
Fixpoint format_list (l : list cnh.Article) : result (list cnh.Formatted) :=
  match l with
  | [] => ok []
  | article :: rest =>
      rbind (cnh.format_article article) (fun entry =>
      rbind (format_list rest) (fun entries => ok (entry :: entries)))
  end.

(** The titles of the live news list. *)
Definition titles (g : cnh.globals) : list string := map cnh.title (cnh.news g).

(** A call of a function of the news module, as the dashboard and the
    scheduler make them. *)
Inductive news_call : Type :=
| do_update_news (terms : string)
| do_news_formatter
| do_add_removed_article (article_title : string)
| do_schedule_news_updates (update_interval : interval) (update_name : string)
                             (repeat : bool)
| do_sch_update_news (update_time : Z) (update_name : string) (repeat : bool).

Definition run_call (out : Outside) (requests_get : nat -> string -> cnh.fetch)
    (c : news_call) : M cnh.globals unit :=
  match c with
  | do_update_news terms => cnh.update_news out requests_get terms
  | do_news_formatter => cnh.news_formatter
  | do_add_removed_article t => cnh.add_removed_article t
  | do_schedule_news_updates ui name r => cnh.schedule_news_updates out ui name r
  | do_sch_update_news u name r => cnh.sch_update_news out requests_get u name r
  end.

(** The world after a sequence of calls; a call that raises leaves the
    world as it was when the exception was raised, and the next call goes
    on from there. *)
Definition run_calls (out : Outside) (requests_get : nat -> string -> cnh.fetch)
    (calls : list news_call) (w : World cnh.globals) : World cnh.globals :=
  fold_left (fun w c => world_of (run_call out requests_get c w)) calls w.

(** The list of removed titles only grows. *)
Definition removed_grows (g g' : cnh.globals) : Prop :=
  forall t, In t (cnh.removed_articles g) -> In t (cnh.removed_articles g').

(** The articles [update_news] keeps of a response. *)
Definition kept (removed : list string) (l : list cnh.Article) : list cnh.Article :=
  filter (fun article => negb (cnh.title_in (cnh.title article) removed)) l.

(** The live list after [add_removed_article t], before it is formatted. *)
Definition without_first (t : string) (g : cnh.globals) : list cnh.Article :=
  if cnh.title_in t (titles g) then cnh.del_at (cnh.news g) (cnh.index_of t (titles g))
  else cnh.news g.

(** The name an event was entered for. *)
Definition name_of (e : Event) : string := snd (fst (ev_argument e)).

(** A registry and a queue that agree: every entry of the registry holds an
    event of the queue that carries the entry's name, fire time and repeat
    flag; every event of the queue is the event of the entry under its
    name; and the events of the queue have different sequence numbers, all
    below the scheduler's counter. *)
Definition agree (updates : dict ScheduledUpdate) (queue : list Event)
    (counter : nat) : Prop :=
  (forall name u,
      dict_get updates name = Some u ->
      In (event u) queue
      /\ ev_argument (event u) = (update_time u, name, repeat u))
  /\ (forall e, In e queue ->
        exists u, dict_get updates (name_of e) = Some u /\ event u = e)
  /\ NoDup (map ev_sequence queue)
  /\ (forall e, In e queue -> (ev_sequence e < counter)%nat).

Definition cdh_consistent (w : World cdh.globals) : Prop :=
  agree (cdh.scheduled_updates (globals_of w)) (cdh.scheduler (globals_of w))
        (sequence w).

Definition cnh_consistent (w : World cnh.globals) : Prop :=
  agree (cnh.scheduled_updates (globals_of w)) (cnh.scheduler (globals_of w))
        (sequence w).

(** A computation that keeps a property of the world, whatever its
    outcome. *)
Definition keeps {G A : Type} (I : World G -> Prop) (m : M G A) : Prop :=
  forall w, I w -> I (world_of (m w)).

(** A computation that, started in a world with the property [I], raises
    no exception but those of [allowed]. *)
Definition throws_only_from {G A : Type} (I : World G -> Prop)
    (allowed : exn -> Prop) (m : M G A) : Prop :=
  forall w, I w ->
    match m w with
    | Returns _ _ => True
    | Raises e _ => allowed e
    end.

Definition anywhere {G : Type} (w : World G) : Prop := True.

(** What the dashboard asks of the data module: [home] schedules, cancels
    and polls, [data_init] makes a request. *)
Inductive covid_request : Type :=
| ask_schedule_covid (update_interval : interval) (update_name : string)
                     (repeat : bool)
| ask_cancel_covid (update_name : string)
| ask_poll_covid (rounds : nat)
| ask_covid_data (location location_type : string).

Definition serve_covid (out : Outside) (get_json : nat -> list string -> cdh.fetch)
    (r : covid_request) (w : World cdh.globals) : World cdh.globals :=
  match r with
  | ask_schedule_covid ui name repeat =>
      world_of (cdh.schedule_covid_updates out ui name repeat w)
  | ask_cancel_covid name => world_of (cdh.cancel_scheduled_update name w)
  | ask_poll_covid rounds => world_of (cdh.scheduler_run out get_json rounds w)
  | ask_covid_data location location_type =>
      world_of (cdh.covid_API_request out get_json location location_type w)
  end.

(** The world after a sequence of requests; a request that raises leaves
    the world as it was when the exception was raised, and the next request
    goes on from there. *)
Definition serve_covid_all (out : Outside)
    (get_json : nat -> list string -> cdh.fetch)
    (requests : list covid_request) (w : World cdh.globals) : World cdh.globals :=
  fold_left (fun w r => serve_covid out get_json r w) requests w.

(** What the dashboard asks of the news module: [home] schedules, cancels,
    polls and removes articles, [data_init] updates the news. *)
Inductive news_request : Type :=
| ask_schedule_news (update_interval : interval) (update_name : string)
                    (repeat : bool)
| ask_cancel_news (update_name : string)
| ask_poll_news (rounds : nat)
| ask_remove_article (article_title : string)
| ask_update_news (terms : string).

Definition serve_news (out : Outside) (requests_get : nat -> string -> cnh.fetch)
    (r : news_request) (w : World cnh.globals) : World cnh.globals :=
  match r with
  | ask_schedule_news ui name repeat =>
      world_of (cnh.schedule_news_updates out ui name repeat w)
  | ask_cancel_news name => world_of (cnh.cancel_scheduled_update name w)
  | ask_poll_news rounds => world_of (cnh.scheduler_run out requests_get rounds w)
  | ask_remove_article t => world_of (cnh.add_removed_article t w)
  | ask_update_news terms => world_of (cnh.update_news out requests_get terms w)
  end.

Definition serve_news_all (out : Outside)
    (requests_get : nat -> string -> cnh.fetch)
    (requests : list news_request) (w : World cnh.globals) : World cnh.globals :=
  fold_left (fun w r => serve_news out requests_get r w) requests w.

(** The characters from [lo] to [hi], as a class of a pattern lists
    them. *)
Definition chars (lo hi : ascii) : list ascii :=
  map ascii_of_nat (seq (code lo) (S (code hi) - code lo)).

(** The ways to write an hour and a minute that the pattern of the data
    module lets through, and the strings it lets through: an hour, a
    colon, a minute, and possibly a newline at the end. *)
Definition hours_written : list string :=
  (flat_map (fun c1 => map (fun c2 => String c1 (String c2 "")) (chars "0" "9"))
            (chars "0" "1")
   ++ map (fun c => String c "") (chars "0" "9")
   ++ map (fun c => String "2" (String c "")) (chars "0" "3"))%list.

Definition minutes_written : list string :=
  flat_map (fun c1 => map (fun c2 => String c1 (String c2 "")) (chars "0" "9"))
           (chars "0" "5").

Definition times_written : list string :=
  flat_map (fun hh =>
    flat_map (fun mm => [hh ++ ":" ++ mm; hh ++ ":" ++ mm ++ String "010" ""]%string)
             minutes_written)
    hours_written.

(** The values the records hold under [key], when every record has the
    key. *)
Definition column (key : string) (l : list (dict value)) (vs : list value) : Prop :=
  Forall2 (fun item v => dict_get item key = Some v) l vs.

(** The position of the first value that is not empty. *)
Fixpoint first_truthy (vs : list value) : option nat :=
  match vs with
  | [] => None
  | v :: rest => if truthy v then Some 0%nat else option_map S (first_truthy rest)
  end.

Definition total (ns : list Z) : Z := fold_right Z.add 0 ns.

(** The date of a record, and the order of the sort: no record is before
    one of a later date. *)
Definition date_of (x : dict value) : string :=
  match dict_get x "date" with
  | Some (VStr s) => s
  | _ => ""
  end.

Definition not_before (x y : dict value) : Prop :=
  String.leb (date_of y) (date_of x) = true.

(** The records of the rows, in the order of the rows. *)
Definition rows_as_records (headers : list string) (rows : list string)
  : list (dict value) :=
  map (fun row => cdh.as_values (cdh.fill [] headers (split "," row))) rows.

(** The cell under the last of the headers that are [header]. *)
Fixpoint cell_under (header : string) (headers cells : list string) : option string :=
  match headers, cells with
  | h :: headers', c :: cells' =>
      match cell_under header headers' cells' with
      | Some later => Some later
      | None => if String.eqb header h then Some c else None
      end
  | _, _ => None
  end.

(** An article has a content, and the articles before the first one that
    has none. *)
Definition has_content (article : cnh.Article) : bool :=
  match cnh.content article with
  | Some _ => true
  | None => false
  end.

Fixpoint before_gap (l : list cnh.Article) : list cnh.Article :=
  match l with
  | [] => []
  | article :: rest => if has_content article then article :: before_gap rest else []
  end.

(** The entry of an article that has a content. *)
Definition entry_of (article : cnh.Article) : cnh.Formatted :=
  match cnh.format_article article with
  | inr entry => entry
  | inl _ => cnh.mkFormatted (cnh.title article) ""
  end.

(** A string with a plus sign for every space. *)
Definition plus_for_space (s : string) : string :=
  string_of_list_ascii
    (map (fun c => if Ascii.eqb c " " then "+"%char else c) (list_ascii_of_string s)).

(** The location of the config file is empty, or it gives the name of an
    area and its type. *)
Definition location_given (g : cdh.globals) : Prop :=
  cdh.nonempty (cdh.config_covid_location g) = true ->
  dict_in "area_type" (cdh.config_covid_location g) = true
  /\ dict_in "area_name" (cdh.config_covid_location g) = true.

(** The location of the config file is as it was. *)
Definition same_location (g g' : cdh.globals) : Prop :=
  cdh.config_covid_location g' = cdh.config_covid_location g.

(** A computation raises nothing but OverflowError. *)
Definition overflow_only {G A : Type} (o : outcome G A) : Prop :=
  match o with
  | Returns _ _ => True
  | Raises e _ => e = OverflowError
  end.

(** The snapshots of the data module are as they were. *)
Definition same_snapshots (g g' : cdh.globals) : Prop :=
  cdh.covid_data g' = cdh.covid_data g
  /\ cdh.national_covid_data g' = cdh.national_covid_data g.

(** The six values of the page when no data is loaded. *)
Definition no_statistics : value * value * value * value * value * value :=
  (VStr "N/A", VStr "N/A", VStr "N/A", VStr "N/A", VStr "N/A", VStr "N/A").

(** A computation raises nothing but OverflowError and the exceptions of
    [others]. *)
Definition overflow_or {G A : Type} (others : exn -> Prop) (o : outcome G A) : Prop :=
  match o with
  | Returns _ _ => True
  | Raises e _ => e = OverflowError \/ others e
  end.

(** An exception that some call of the API raises and that the request
    function does not catch. *)
Definition covid_let_through (get_json : nat -> list string -> cdh.fetch) (e : exn)
  : Prop :=
  exists k filters, get_json k filters = cdh.Uncaught e.

Definition news_let_through (requests_get : nat -> string -> cnh.fetch) (e : exn)
  : Prop :=
  exists k url, requests_get k url = cnh.Uncaught e.

(** The order of the keys of the sort. *)
Definition keys_descend (a b : string * dict string) : Prop :=
  String.leb (fst b) (fst a) = true.

(** The records dated [d], in their order. *)
Definition dated (d : string) (l : list (dict value)) : list (dict value) :=
  filter (fun x => String.eqb (date_of x) d) l.

(** A string without a comma. *)
Definition no_comma (s : string) : bool :=
  forallb (fun c => negb (Ascii.eqb c ",")) (list_ascii_of_string s).

(** The number a string of ASCII digits writes. *)
Definition decimal (s : string) : Z :=
  fold_left (fun n c => n * 10 + digit_val c) (list_ascii_of_string s) 0.

(** The failures of an API call that the request function catches. *)
Definition covid_failure (answer : cdh.fetch) : bool :=
  match answer with
  | cdh.FailedRequestError | cdh.ConnectionError => true
  | _ => false
  end.

Definition news_failure (answer : cnh.fetch) : bool :=
  match answer with
  | cnh.ConnectionError | cnh.Timeout => true
  | _ => false
  end.

(** The superscript digits U+00B2, U+00B3 and U+00B9: digits for
    [isdigit()], no decimal digits for [int()]. *)
Definition is_superscript (c : ascii) : bool :=
  Nat.eqb (code c) 178 || Nat.eqb (code c) 179 || Nat.eqb (code c) 185.

(** The default of [sys.get_int_max_str_digits()], where the interpreter
    has it: the longest digit string [int()] converts. *)
Definition max_str_digits : nat := 4300.

(** [s] starts with an ASCII digit. *)
Definition starts_with_digit (s : string) : bool :=
  match s with
  | String c _ => is_09 c
  | EmptyString => false
  end.

(** [hrs_mins] reads [s] as an hour below 24 and a minute below 60. *)
Definition reads_a_time (s : string) : bool :=
  match intervals.hrs_mins s with
  | inr (hrs, mins) => (0 <=? hrs) && (hrs <? 24) && (0 <=? mins) && (mins <? 60)
  | inl _ => false
  end.

(** The last reading of the clock made before the world [w]. *)
Definition last_reading {G : Type} (out : Outside) (w : World G) : Z :=
  clock out (pred (clock_reads w)).

End notions.

(** ** Concrete worlds *)

Module scenes.
Import py.

(** 12:34:00 on day 738000, and a clock that stands still. *)
Definition noon_34 : Z := 738000 * DAY + 12 * HOUR + 34 * MINUTE.

Definition frozen (t : Z) : Outside := mkOutside (fun _ => t).

(** A clock that reads a microsecond more each time, from the microsecond
    before 12:34:00 on. *)
Definition creeping : Outside :=
  mkOutside (fun k => noon_34 - 1 + Z.of_nat k).

(** The COVID API out of reach, and answering. *)
Definition covid_api_down : nat -> list string -> cdh.fetch :=
  fun _ _ => cdh.ConnectionError.

Definition a_record (cases : value) : dict value :=
  [("area_name", VStr "Exeter"); ("date", VStr "2021-10-28");
   ("cum_deaths", VNone); ("hospital_cases", VNone); ("new_cases", cases)].

Definition fetched_data : cdh.json := [("data", cdh.Records [a_record (VInt 7)])].

Definition covid_api_up : nat -> list string -> cdh.fetch :=
  fun _ _ => cdh.Fetched fetched_data.

(** An update named "daily", due at 12:34:00 and repeating every day. *)
Definition daily_event (act : action) : Event :=
  mkEvent noon_34 1 0 act (noon_34, "daily", true).

Definition daily (act : action) : dict ScheduledUpdate :=
  [("daily", mkUpdate (daily_event act) noon_34 true)].

(** The data module holding a snapshot of both feeds and the update
    "daily". *)
Definition covid_globals : cdh.globals :=
  cdh.mkGlobals [("data", cdh.Records [a_record (VInt 5)])]
                [("data", cdh.Records [a_record (VInt 6)])]
                (daily call_sch_update_covid_data)
                [daily_event call_sch_update_covid_data]
                [].

Definition covid_world : World cdh.globals := mkWorld 0 0 1 covid_globals.

(** The news API out of reach, and answering with two articles. *)
Definition news_api_down : nat -> string -> cnh.fetch :=
  fun _ _ => cnh.ConnectionError.

Definition first_article : cnh.Article :=
  cnh.mkArticle "Cases fall" "https://example.org/1" (Some "Cases fell this week.").

Definition second_article : cnh.Article :=
  cnh.mkArticle "Cases fall" "https://example.org/2" (Some "A second report.").

Definition third_article : cnh.Article :=
  cnh.mkArticle "Vaccines" "https://example.org/3" (Some "A third report.").

Definition news_api_up : nat -> string -> cnh.fetch :=
  fun _ _ => cnh.Fetched (cnh.mkJson "ok" [first_article; third_article]).

(** The news API answering with both articles titled "Cases fall" and a
    third one. *)
Definition news_api_twice : nat -> string -> cnh.fetch :=
  fun _ _ => cnh.Fetched (cnh.mkJson "ok" [first_article; second_article; third_article]).

(** The COVID API taking too long to answer, and the news API answering
    with a body that is no JSON: exceptions that the request functions do
    not catch. *)
Definition covid_api_times_out : nat -> list string -> cdh.fetch :=
  fun _ _ => cdh.Uncaught (LibraryError "requests.exceptions.ReadTimeout").

Definition news_api_no_json : nat -> string -> cnh.fetch :=
  fun _ _ => cnh.Uncaught (LibraryError "requests.exceptions.JSONDecodeError").

(** The news module showing one article, with the update "daily". *)
Definition news_globals : cnh.globals :=
  cnh.mkGlobals "key" "" [first_article]
                [cnh.mkFormatted "Cases fall" "shown"] []
                [daily_event call_sch_update_news]
                (daily call_sch_update_news).

Definition news_world : World cnh.globals := mkWorld 0 0 1 news_globals.

(** The same with two articles of one title in the live list. *)
Definition twice_globals : cnh.globals :=
  cnh.with_news news_globals [first_article; second_article].

Definition twice_world : World cnh.globals := mkWorld 0 0 1 twice_globals.

(** Records in which no hospital cases and no deaths are reported, the
    second one without new cases either; and a record without any of the
    three statistics. *)
Definition gap_records : list (dict value) := [a_record (VInt 5); a_record VNone].

Definition bare_records : list (dict value) := [[("date", VStr "2021-10-28")]].

(** The two modules as they are when imported, before any call. *)
Definition covid_start : World cdh.globals :=
  mkWorld 0 0 0 (cdh.mkGlobals [] [] [] [] []).

Definition news_start : World cnh.globals :=
  mkWorld 0 0 0 (cnh.mkGlobals "" "" [] [] [] [] []).

(** A clock that reads a second more each time, from 12:34:00 on. *)
Definition ticking : Outside :=
  mkOutside (fun k => noon_34 + Z.of_nat k * SECOND).

(** A visit of the dashboard: two updates are scheduled, the schedulers
    are polled a minute's worth of times, and the first update is
    cancelled. *)
Definition covid_visit : list notions.covid_request :=
  [notions.ask_covid_data "Exeter" "ltla";
   notions.ask_schedule_covid (a_str "12:35") "first" true;
   notions.ask_schedule_covid (an_int 1) "second" false;
   notions.ask_poll_covid 3;
   notions.ask_cancel_covid "first"].

Definition news_visit : list notions.news_request :=
  [notions.ask_update_news "Covid COVID-19 coronavirus";
   notions.ask_schedule_news (an_int 1) "first" true;
   notions.ask_remove_article "Cases fall";
   notions.ask_poll_news 3;
   notions.ask_cancel_news "first"].

(** A CSV file of a header line and three rows, the last one without a
    cell for the hospital cases, and a file system that holds it as
    "nation.csv" and nothing else. *)
Definition new_line : string := String "010" "".

Definition csv_header : string := "date,newCasesBySpecimenDate,hospitalCases,notes".

Definition csv_rows : list string :=
  ["2021-10-27,5,70,a"; "2021-10-28,7,,b"; "2021-10-27,6"].

Definition csv_text : string :=
  String.concat new_line (csv_header :: csv_rows) ++ new_line.

Definition csv_files (filename : string) : cdh.file :=
  if String.eqb filename "nation.csv" then cdh.Text csv_text else cdh.IOError.

(** Records of eleven days, the most recent one without cases yet, and
    the hospital cases of four days, the first two of them empty. *)
Definition case_counts : list Z := [0; 4; 1; 2; 3; 4; 5; 6; 7; 8; 9].

Definition count_records : list (dict value) :=
  map (fun n => [("date", VStr "2021-10-28"); ("new_cases", VInt n)]) case_counts.

Definition hospital_values : list value := [VNone; VInt 0; VStr "70"; VInt 80].

Definition hospital_records : list (dict value) :=
  map (fun v => [("hospital_cases", v)]) hospital_values.

(** A [datetime] three days and an hour before 12:34:00, 17 seconds after
    the minute. *)
Definition three_days_ago : Z := noon_34 - 3 * DAY - HOUR + 17 * SECOND.

(** The program as it is when its modules are imported, and a request
    whose form asks for an update of the news called "evening" at
    19:30. *)
Definition app_start : World dashboard.globals :=
  mkWorld 0 0 0
    (dashboard.mkGlobals (globals_of covid_start) 0 0 (globals_of news_start) 0 0 []).

Definition no_args : dashboard.Args :=
  dashboard.mkArgs None None None None None None None.

Definition evening_news : dashboard.Args :=
  dashboard.mkArgs None (Some "19:30") (Some "evening") None None (Some "news") None.

Definition evening_data : dashboard.Args :=
  dashboard.mkArgs None (Some "19:30") (Some "evening") None (Some "covid-data")
                   None None.

Definition remove_evening : dashboard.Args :=
  dashboard.mkArgs None None None None None None (Some "evening - 19:30").

(** The program after [data_init] with both APIs out of reach, at
    12:34:00. *)
Definition app_loaded : World dashboard.globals :=
  Eval vm_compute in
    world_of (dashboard.data_init (frozen noon_34) covid_api_down news_api_down
                                  app_start).

(** The program with the update "daily" in both modules and in the view
    of the dashboard. *)
Definition app_with_daily : World dashboard.globals :=
  mkWorld 0 0 0
    (dashboard.mkGlobals covid_globals 0 1 news_globals 0 1
       [("daily", dashboard.mkMerged true true noon_34 true)]).

Definition remove_daily : dashboard.Args :=
  dashboard.mkArgs None None None None None None (Some "daily").

(** Two registries that share the name "A": in the data registry it is
    due at 10:00 and does not repeat, in the news registry it is due at
    11:00 and repeats. *)
Definition data_A : ScheduledUpdate :=
  mkUpdate (mkEvent 0 1 0 call_sch_update_covid_data (10 * HOUR, "A", false))
           (10 * HOUR) false.

Definition news_A : ScheduledUpdate :=
  mkUpdate (mkEvent 0 1 1 call_sch_update_news (11 * HOUR, "A", true))
           (11 * HOUR) true.

Definition news_B : ScheduledUpdate :=
  mkUpdate (mkEvent 0 1 2 call_sch_update_news (11 * HOUR, "B", true))
           (11 * HOUR) true.

Definition data_registry : dict ScheduledUpdate := [("A", data_A)].

Definition news_registry : dict ScheduledUpdate := [("A", news_A); ("B", news_B)].

End scenes.

(** * Properties *)

(** ** Facts about dicts *)

Section DictFacts.
Import py.
Context {V : Type}.
Implicit Types (d : dict V) (k : string) (v : V).

Lemma dict_get_In d k : dict_get d k <> None <-> In k (keys d).
Proof.
  induction d as [|[k' v'] d IH]; simpl.
  - split; [congruence | tauto].
  - destruct (String.eqb_spec k k') as [->|Hne].
    + split; [auto | discriminate].
    + rewrite IH. split; [auto | intros [H|H]; [congruence | exact H]].
Qed.

Lemma dict_in_In d k : dict_in k d = true <-> In k (keys d).
Proof.
  rewrite <- dict_get_In. unfold dict_in.
  destruct (dict_get d k); split; congruence.
Qed.

Lemma dict_in_false d k : dict_in k d = false <-> dict_get d k = None.
Proof. unfold dict_in. destruct (dict_get d k); split; congruence. Qed.

Lemma dict_get_set_same d k v : dict_get (dict_set d k v) k = Some v.
Proof.
  induction d as [|[k' v'] d IH]; simpl.
  - now rewrite String.eqb_refl.
  - destruct (String.eqb_spec k k') as [->|Hne]; simpl.
    + now rewrite String.eqb_refl.
    + destruct (String.eqb_spec k k'); [contradiction | exact IH].
Qed.

Lemma dict_get_set_other d k k' v :
  k' <> k -> dict_get (dict_set d k v) k' = dict_get d k'.
Proof.
  intros Hne. induction d as [|[k0 v0] d IH]; simpl.
  - destruct (String.eqb_spec k' k); [contradiction | reflexivity].
  - destruct (String.eqb_spec k k0) as [->|Hk]; simpl.
    + destruct (String.eqb_spec k' k0); [contradiction | reflexivity].
    + destruct (String.eqb_spec k' k0); [reflexivity | exact IH].
Qed.

Lemma dict_get_set d k k' v :
  dict_get (dict_set d k v) k' = if String.eqb k' k then Some v else dict_get d k'.
Proof.
  destruct (String.eqb_spec k' k) as [->|Hne].
  - apply dict_get_set_same.
  - now apply dict_get_set_other.
Qed.

Lemma keys_set d k v :
  keys (dict_set d k v) = if dict_in k d then keys d else (keys d ++ [k])%list.
Proof.
  unfold dict_in, keys. induction d as [|[k' v'] d IH]; simpl; [reflexivity|].
  destruct (String.eqb_spec k k') as [->|Hne]; simpl; [reflexivity|].
  rewrite IH. now destruct (dict_get d k).
Qed.

Lemma NoDup_keys_set d k v : NoDup (keys d) -> NoDup (keys (dict_set d k v)).
Proof.
  intros Hd. rewrite keys_set. destruct (dict_in k d) eqn:Hin; [exact Hd|].
  apply NoDup_app; [exact Hd | repeat constructor; simpl; tauto |].
  intros x Hx [<-|[]]. apply dict_in_In in Hx. congruence.
Qed.

Lemma dict_get_remove d k k' :
  dict_get (dict_remove d k) k' = if String.eqb k' k then None else dict_get d k'.
Proof.
  unfold dict_remove. induction d as [|[k0 v0] d IH]; simpl.
  - now destruct (String.eqb k' k).
  - destruct (String.eqb_spec k k0) as [->|Hk]; simpl.
    + rewrite IH. destruct (String.eqb_spec k' k0); reflexivity.
    + rewrite IH. destruct (String.eqb_spec k' k0) as [->|Hk'].
      * destruct (String.eqb_spec k0 k); [congruence | reflexivity].
      * reflexivity.
Qed.

Lemma dict_in_remove_same d k : dict_in k (dict_remove d k) = false.
Proof.
  apply dict_in_false. rewrite dict_get_remove. now rewrite String.eqb_refl.
Qed.
End DictFacts.

(** ** The update collator *)

Section Collate.
Import py dashboard notions.
Implicit Types (c n : dict ScheduledUpdate) (acc m : dict Merged).
Implicit Types (names : list string) (x : string).

Lemma mem_In x names : mem x names = true <-> In x names.
Proof.
  unfold mem. rewrite existsb_exists. split.
  - intros [y [Hy Heq]]. apply String.eqb_eq in Heq. now subst.
  - intros H. exists x. split; [exact H | apply String.eqb_refl].
Qed.

Lemma collate_covid_ok names c n acc :
  (forall x, In x names -> In x (keys c)) ->
  exists m,
    collate_covid names c n acc = ok m
    /\ (NoDup (keys acc) -> NoDup (keys m))
    /\ forall x, dict_get m x =
                   if mem x names then covid_entry c n x else dict_get acc x.
Proof.
  revert acc. induction names as [|a rest IH]; intros acc Hsub; simpl.
  - exists acc. auto.
  - assert (Ha : In a (keys c)) by (apply Hsub; now left).
    apply dict_get_In in Ha. unfold dict_item.
    destruct (dict_get c a) as [u|] eqn:Hu; [clear Ha | congruence]. simpl.
    destruct (IH (dict_set acc a (mkMerged true (dict_in a n) (update_time u) (repeat u))))
      as [m [Hm [Hnd Hget]]].
    { intros x Hx. apply Hsub. now right. }
    exists m. split; [exact Hm|]. split.
    + intros H. apply Hnd. now apply NoDup_keys_set.
    + intros x. rewrite Hget, dict_get_set.
      destruct (String.eqb_spec x a) as [->|Hne]; simpl.
      * unfold covid_entry. rewrite Hu. simpl. now destruct (mem a rest).
      * reflexivity.
Qed.

Lemma collate_news_ok names n acc :
  (forall x, In x names -> In x (keys n)) ->
  exists m,
    collate_news names n acc = ok m
    /\ (NoDup (keys acc) -> NoDup (keys m))
    /\ forall x, dict_get m x =
                   match dict_get acc x with
                   | Some e => Some e
                   | None => if mem x names then news_entry n x else None
                   end.
Proof.
  revert acc. induction names as [|a rest IH]; intros acc Hsub; simpl.
  - exists acc. split; [reflexivity|]. split; [auto|].
    intros x. now destruct (dict_get acc x).
  - assert (Hrest : forall x, In x rest -> In x (keys n))
      by (intros x Hx; apply Hsub; now right).
    destruct (dict_in a acc) eqn:Hin; simpl.
    + destruct (IH acc Hrest) as [m [Hm [Hnd Hget]]].
      exists m. split; [exact Hm|]. split; [exact Hnd|].
      intros x. rewrite Hget.
      destruct (dict_get acc x) eqn:Hx; [reflexivity|].
      destruct (String.eqb_spec x a) as [->|Hne]; simpl; [|reflexivity].
      unfold dict_in in Hin. rewrite Hx in Hin. discriminate.
    + assert (Ha : In a (keys n)) by (apply Hsub; now left).
      apply dict_get_In in Ha. unfold dict_item.
      destruct (dict_get n a) as [u|] eqn:Hu; [clear Ha | congruence]. simpl.
      destruct (IH (dict_set acc a (mkMerged false true (update_time u) (repeat u))) Hrest)
        as [m [Hm [Hnd Hget]]].
      exists m. split; [exact Hm|]. split.
      * intros H. apply Hnd. now apply NoDup_keys_set.
      * intros x. rewrite Hget, dict_get_set.
        destruct (String.eqb_spec x a) as [->|Hne]; simpl.
        -- apply dict_in_false in Hin. rewrite Hin.
           unfold news_entry. now rewrite Hu.
        -- reflexivity.
Qed.

(** What [collate_update_lists] leaves under each name. *)
Lemma collate_lookup c n :
  exists m,
    collate_update_lists c n = ok m
    /\ NoDup (keys m)
    /\ forall x, dict_get m x =
                   if dict_in x c then covid_entry c n x
                   else if dict_in x n then news_entry n x else None.
Proof.
  unfold collate_update_lists.
  destruct (collate_covid_ok (keys c) c n []) as [m1 [Hm1 [Hnd1 Hget1]]]; [auto|].
  destruct (collate_news_ok (keys n) n m1) as [m2 [Hm2 [Hnd2 Hget2]]]; [auto|].
  rewrite Hm1. simpl. exists m2. split; [exact Hm2|]. split.
  - apply Hnd2, Hnd1. constructor.
  - intros x. rewrite Hget2, Hget1. simpl.
    assert (Hc : mem x (keys c) = dict_in x c).
    { apply eq_true_iff_eq. now rewrite mem_In, dict_in_In. }
    assert (Hn : mem x (keys n) = dict_in x n).
    { apply eq_true_iff_eq. now rewrite mem_In, dict_in_In. }
    rewrite Hc, Hn. destruct (dict_in x c) eqn:Hin; [|reflexivity].
    unfold covid_entry. unfold dict_in in Hin.
    destruct (dict_get c x); [reflexivity | discriminate].
Qed.

(** C7: the merged view has exactly one entry for every name of either
    registry and none for any other name; the covid flag of an entry
    tells whether its name is in the covid registry and the news flag
    whether it is in the news registry, so that a name of both registries
    has both flags set. *)
Theorem collate_one_entry_per_name c n :
  exists m,
    collate_update_lists c n = ok m
    /\ (forall x, In x (keys c) \/ In x (keys n) ->
                  count_occ string_dec (keys m) x = 1%nat)
    /\ (forall x, In x (keys m) -> In x (keys c) \/ In x (keys n))
    /\ (forall x e, dict_get m x = Some e ->
                    covid e = dict_in x c /\ news e = dict_in x n)
    /\ (forall x, In x (keys c) -> In x (keys n) ->
                  exists e, dict_get m x = Some e /\ covid e = true /\ news e = true).
Proof.
  destruct (collate_lookup c n) as [m [Hm [Hnd Hget]]].
  exists m. split; [exact Hm|].
  assert (Hin : forall x, In x (keys m) <-> In x (keys c) \/ In x (keys n)).
  { intros x. rewrite <- (dict_get_In m), Hget, <- !dict_in_In.
    unfold covid_entry, news_entry, dict_in.
    destruct (dict_get c x); destruct (dict_get n x); simpl;
      intuition congruence. }
  split; [|split; [|split]].
  - intros x Hx. apply NoDup_count_occ'; [exact Hnd | now apply Hin].
  - intros x Hx. now apply Hin.
  - intros x e. rewrite Hget. unfold covid_entry, news_entry, dict_in.
    destruct (dict_get c x); destruct (dict_get n x); simpl;
      intros [= <-]; auto.
  - intros x Hc Hn. apply dict_in_In in Hc, Hn. rewrite Hget, Hc.
    unfold covid_entry. unfold dict_in in Hc.
    destruct (dict_get c x) as [u|]; [|discriminate]. simpl.
    eexists. split; [reflexivity|]. simpl. auto.
Qed.

(** C10: for a name of both registries the merged entry shows the fire
    time and the repeat flag of the covid registry's entry, whatever the
    news registry's entry records. *)
Theorem collate_prefers_covid_entry c n x uc un :
  dict_get c x = Some uc ->
  dict_get n x = Some un ->
  exists m,
    collate_update_lists c n = ok m
    /\ dict_get m x = Some (mkMerged true true (update_time uc) (repeat uc)).
Proof.
  intros Hc Hn. destruct (collate_lookup c n) as [m [Hm [_ Hget]]].
  exists m. split; [exact Hm|].
  rewrite Hget. unfold dict_in, covid_entry, dict_in. now rewrite Hc, Hn.
Qed.
End Collate.

(** ** The key statistics *)

Section Statistics.
Import py cdh notions.
Implicit Types (l : list (dict value)) (key : string).

Lemma first_with_all_empty key l i :
  all_empty key l = true -> first_with key l i = ok None.
Proof.
  revert i. induction l as [|item l IH]; intros i H; simpl in *; [reflexivity|].
  apply andb_prop in H. destruct H as [Hitem Hl].
  unfold empty_in in Hitem. unfold dict_item.
  destruct (dict_get item key) as [v|]; [|discriminate]. simpl.
  apply negb_true_iff in Hitem. rewrite Hitem. now apply IH.
Qed.

Lemma total_cases_all_empty l :
  all_empty "new_cases" l = true -> total_cases_last_7_days l = ok NA.
Proof.
  intros H. unfold total_cases_last_7_days.
  now rewrite (first_with_all_empty _ _ _ H).
Qed.

Lemma most_recent_all_empty key l :
  all_empty key l = true -> most_recent key l = ok NA.
Proof.
  intros H. unfold most_recent. now rewrite (first_with_all_empty _ _ _ H).
Qed.

(** C9, as the code has it: a statistic that every record carries with an
    empty value ([None], the empty string or 0) is reported as "N/A", and
    the two other statistics are what their own blocks compute, so that
    the call raises only when one of those raises; with all three
    statistics empty in every record the result is three times "N/A". *)
Theorem missing_statistic_is_NA l :
  (all_empty "new_cases" l = true ->
     process_covid_csv_data l =
       rbind (most_recent "hospital_cases" l) (fun hospital_cases =>
       rbind (most_recent "cum_deaths" l) (fun cum_deaths =>
         ok (NA, hospital_cases, cum_deaths))))
  /\ (all_empty "hospital_cases" l = true ->
     process_covid_csv_data l =
       rbind (total_cases_last_7_days l) (fun cases =>
       rbind (most_recent "cum_deaths" l) (fun cum_deaths =>
         ok (cases, NA, cum_deaths))))
  /\ (all_empty "cum_deaths" l = true ->
     process_covid_csv_data l =
       rbind (total_cases_last_7_days l) (fun cases =>
       rbind (most_recent "hospital_cases" l) (fun hospital_cases =>
         ok (cases, hospital_cases, NA))))
  /\ (all_empty "new_cases" l = true ->
      all_empty "hospital_cases" l = true ->
      all_empty "cum_deaths" l = true ->
      process_covid_csv_data l = ok (NA, NA, NA)).
Proof.
  unfold process_covid_csv_data. repeat split.
  - intros H. now rewrite (total_cases_all_empty _ H).
  - intros H. now rewrite (most_recent_all_empty _ _ H).
  - intros H. rewrite (most_recent_all_empty _ _ H).
    destruct (total_cases_last_7_days l); [reflexivity|]. simpl.
    now destruct (most_recent "hospital_cases" l).
  - intros H1 H2 H3.
    now rewrite (total_cases_all_empty _ H1), !most_recent_all_empty.
Qed.
End Statistics.

(** ** The monad *)

Section MonadFacts.
Import py notions.
Context {G : Type}.

Lemma same_but_clock_refl (w : World G) : same_but_clock w w.
Proof. now repeat split. Qed.

Lemma same_but_clock_trans (w1 w2 w3 : World G) :
  same_but_clock w1 w2 -> same_but_clock w2 w3 -> same_but_clock w1 w3.
Proof.
  intros (A1 & S1 & G1) (A2 & S2 & G2). repeat split; congruence.
Qed.

Lemma same_but_clock_ticked (w : World G) : same_but_clock w (ticked w).
Proof. now repeat split. Qed.

Lemma quiet_ret {A : Type} (a : A) : quiet (ret (G := G) a).
Proof. intros w. apply same_but_clock_refl. Qed.

Lemma quiet_raise {A : Type} (e : exn) : quiet (raise (G := G) (A := A) e).
Proof. intros w. apply same_but_clock_refl. Qed.

Lemma quiet_lift {A : Type} (r : result A) : quiet (lift (G := G) r).
Proof. destruct r; [apply quiet_raise | apply quiet_ret]. Qed.

Lemma quiet_now (out : Outside) : quiet (now (G := G) out).
Proof. intros w. apply same_but_clock_ticked. Qed.

Lemma quiet_bind {A B : Type} (m : M G A) (k : A -> M G B) :
  quiet m -> (forall a, quiet (k a)) -> quiet (bind m k).
Proof.
  intros Hm Hk w. unfold bind. specialize (Hm w).
  destruct (m w) as [a w'|e w']; simpl in *; [|exact Hm].
  eapply same_but_clock_trans; [exact Hm | apply Hk].
Qed.

Lemma quiet_if {A : Type} (b : bool) (m1 m2 : M G A) :
  quiet m1 -> quiet m2 -> quiet (if b then m1 else m2).
Proof. now destruct b. Qed.
End MonadFacts.

Create HintDb quiet.
#[local] Hint Resolve quiet_ret quiet_raise quiet_lift quiet_now quiet_bind quiet_if
  : quiet.

(** ** Reading the interval *)

Section IntervalFacts.
Import py intervals notions.
Variable out : Outside.
Context {G : Type}.

Lemma time_to_update_interval_quiet (s : string) :
  quiet (time_to_update_interval (G := G) out s).
Proof.
  unfold time_to_update_interval.
  apply quiet_bind; [auto with quiet|]. intros [hrs mins].
  repeat (apply quiet_bind; [auto with quiet|]; intros ?).
  auto with quiet.
Qed.

Lemma parse_datetime_quiet (ui : interval) (times : option (Z * Z)) :
  quiet (parse_datetime (G := G) out ui times).
Proof.
  destruct ui; simpl; auto with quiet.
  apply quiet_bind; [auto with quiet|]. intros t1.
  apply quiet_bind.
  - apply quiet_if; [|auto with quiet].
    repeat (apply quiet_bind; [auto with quiet|]; intros ?).
    auto with quiet.
  - intros ?. auto with quiet.
Qed.

Lemma parse_int_quiet (ui : interval) (times : option (Z * Z)) :
  quiet (parse_int (G := G) out ui times).
Proof.
  destruct ui; simpl; auto with quiet.
Qed.

(** The [int] block: the delay is the magnitude of [n], the fire time is
    [n] seconds from now, and the addition overflows outside the range of
    [datetime]. *)
Lemma parse_int_eq (n : Z) (times : option (Z * Z)) (w : World G) :
  parse_int out (an_int n) times w =
    let t := clock out (clock_reads w) in
    if in_range (t + n * SECOND)
    then Returns (Some (Z.abs n * SECOND, t + n * SECOND)) (ticked w)
    else Raises OverflowError (ticked w).
Proof.
  unfold parse_int, bind, now, lift, dt_add. simpl.
  now destruct (in_range (clock out (clock_reads w) + n * SECOND)).
Qed.

End IntervalFacts.

#[local] Hint Resolve time_to_update_interval_quiet parse_datetime_quiet
  parse_int_quiet : quiet.

(** ** Scheduling under a name *)

Section PointwiseBind.
Import py notions.
Context {G A B : Type}.

(** A step that is quiet wherever a fact [P] of the globals holds, after
    a quiet computation, is quiet from a world where [P] holds. *)
Lemma same_but_clock_bind (P : G -> Prop) (m : M G A) (k : A -> M G B)
    (w : World G) :
  quiet m ->
  P (globals_of w) ->
  (forall a w', P (globals_of w') -> same_but_clock w' (world_of (k a w'))) ->
  same_but_clock w (world_of (bind m k w)).
Proof.
  intros Hm HP Hk. unfold bind. specialize (Hm w).
  destruct (m w) as [a w'|e w']; simpl in *; [|exact Hm].
  eapply same_but_clock_trans; [exact Hm|].
  apply Hk. destruct Hm as (_ & _ & ->). exact HP.
Qed.

(** Whether a computation raises after a first step is decided by the
    first step and, when that returns, by the rest. *)
Lemma raised_bind (m : M G A) (k1 k2 : A -> M G B) (w : World G) :
  (forall a w', raised (k1 a w') = raised (k2 a w')) ->
  raised (bind m k1 w) = raised (bind m k2 w).
Proof.
  intros Hk. unfold bind. destruct (m w); [apply Hk | reflexivity].
Qed.
End PointwiseBind.

(** The steps shared by the proofs about the two modules. *)
Ltac in_use_step P :=
  cbv beta iota;
  apply same_but_clock_bind with (P := P);
  [ solve [auto with quiet] | assumption | intros ? ? ? ].

Ltac raised_step :=
  cbv beta iota; apply raised_bind; intros ? ?.

Section CovidScheduling.
Import py intervals notions cdh.
Variable out : Outside.
Implicit Types (w : World globals) (ui : interval).

Lemma cdh_parse_str_quiet ui : quiet (parse_str out ui).
Proof.
  destruct ui as [n|s|t]; simpl; unfold time_to_update_interval;
    auto 8 with quiet.
Qed.

Lemma cdh_register_in_use times name r w :
  dict_in name (scheduled_updates (globals_of w)) = true ->
  same_but_clock w (world_of (register out times name r w))
  /\ raised (register out times name r w) =
       match times with Some _ => false | None => true end.
Proof.
  intros H. destruct times as [[delay fire]|]; simpl.
  - unfold bind, get_globals. rewrite H. simpl. split; [|reflexivity].
    apply same_but_clock_refl.
  - split; [apply same_but_clock_refl | reflexivity].
Qed.

Lemma cdh_register_raised times name name' r r' w :
  raised (register out times name r w) = raised (register out times name' r' w).
Proof.
  destruct times as [[delay fire]|]; simpl; [|reflexivity].
  unfold bind, get_globals.
  destruct (dict_in name (scheduled_updates (globals_of w)));
    destruct (dict_in name' (scheduled_updates (globals_of w))); reflexivity.
Qed.

(** What registering under an unused name does. *)
Lemma cdh_register_fresh delay fire name r w :
  dict_in name (scheduled_updates (globals_of w)) = false ->
  let ev := mkEvent (clock out (clock_reads w) + delay) 1 (sequence w)
                    call_sch_update_covid_data (fire, name, r) in
  register out (Some (delay, fire)) name r w =
    Returns tt
      (mkWorld (S (clock_reads w)) (api_calls w) (S (sequence w))
         (with_scheduled_updates
            (with_scheduler (globals_of w) (scheduler (globals_of w) ++ [ev]))
            (dict_set (scheduled_updates (globals_of w)) name (mkUpdate ev fire r)))).
Proof.
  intros H. simpl. unfold bind, get_globals. rewrite H. reflexivity.
Qed.

Lemma cdh_schedule_in_use ui name r w :
  dict_in name (scheduled_updates (globals_of w)) = true ->
  same_but_clock w (world_of (schedule_covid_updates out ui name r w)).
Proof.
  intros H. unfold schedule_covid_updates.
  set (P := fun g : globals => dict_in name (scheduled_updates g) = true).
  apply same_but_clock_bind with (P := P);
    [apply cdh_parse_str_quiet | exact H |].
  intros [[ui' times]|] w1 H1; [|apply same_but_clock_refl].
  in_use_step P. in_use_step P. now apply cdh_register_in_use.
Qed.

Lemma cdh_schedule_raised ui name name' r r' w :
  raised (schedule_covid_updates out ui name r w) =
  raised (schedule_covid_updates out ui name' r' w).
Proof.
  unfold schedule_covid_updates. raised_step.
  destruct a as [[ui' times]|]; [|reflexivity].
  raised_step. raised_step. apply cdh_register_raised.
Qed.

Lemma cdh_schedule_int_returns n name r w :
  in_range (clock out (clock_reads w) + n * SECOND) = true ->
  raised (schedule_covid_updates out (an_int n) name r w) = false.
Proof.
  intros H. unfold schedule_covid_updates, bind. simpl.
  unfold bind, now, lift, dt_add. simpl. rewrite H. simpl.
  unfold bind, get_globals. simpl.
  now destruct (dict_in name (scheduled_updates (globals_of w))).
Qed.

(** A string that is neither a time of day nor made of digits: the call
    returns at once and leaves the world as it is. *)
Lemma cdh_schedule_unreadable s name r w :
  re_match_dollar HH_MM s = false ->
  isdigit s = false ->
  schedule_covid_updates out (a_str s) name r w = Returns tt w.
Proof.
  intros H1 H2. unfold schedule_covid_updates, bind. simpl.
  now rewrite H1, H2.
Qed.
End CovidScheduling.

Section NewsScheduling.
Import py intervals notions cnh.
Variable out : Outside.
Implicit Types (w : World globals) (ui : interval).

Lemma cnh_parse_str_quiet ui : quiet (parse_str out ui).
Proof.
  destruct ui as [n|s|t]; simpl; unfold time_to_update_interval;
    auto 8 with quiet.
Qed.

Lemma cnh_register_in_use times name r w :
  dict_in name (scheduled_updates (globals_of w)) = true ->
  same_but_clock w (world_of (register out times name r w))
  /\ raised (register out times name r w) =
       match times with Some _ => false | None => true end.
Proof.
  intros H. destruct times as [[delay fire]|]; simpl.
  - unfold bind, get_globals. rewrite H. simpl. split; [|reflexivity].
    apply same_but_clock_refl.
  - split; [apply same_but_clock_refl | reflexivity].
Qed.

Lemma cnh_register_raised times name name' r r' w :
  raised (register out times name r w) = raised (register out times name' r' w).
Proof.
  destruct times as [[delay fire]|]; simpl; [|reflexivity].
  unfold bind, get_globals.
  destruct (dict_in name (scheduled_updates (globals_of w)));
    destruct (dict_in name' (scheduled_updates (globals_of w))); reflexivity.
Qed.

Lemma cnh_register_fresh delay fire name r w :
  dict_in name (scheduled_updates (globals_of w)) = false ->
  let ev := mkEvent (clock out (clock_reads w) + delay) 1 (sequence w)
                    call_sch_update_news (fire, name, r) in
  register out (Some (delay, fire)) name r w =
    Returns tt
      (mkWorld (S (clock_reads w)) (api_calls w) (S (sequence w))
         (with_scheduled_updates
            (with_scheduler (globals_of w) (scheduler (globals_of w) ++ [ev]))
            (dict_set (scheduled_updates (globals_of w)) name (mkUpdate ev fire r)))).
Proof.
  intros H. simpl. unfold bind, get_globals. rewrite H. reflexivity.
Qed.

Lemma cnh_schedule_in_use ui name r w :
  dict_in name (scheduled_updates (globals_of w)) = true ->
  same_but_clock w (world_of (schedule_news_updates out ui name r w)).
Proof.
  intros H. unfold schedule_news_updates.
  set (P := fun g : globals => dict_in name (scheduled_updates g) = true).
  apply same_but_clock_bind with (P := P);
    [apply cnh_parse_str_quiet | exact H |].
  intros [[ui' times]|] w1 H1; [|apply same_but_clock_refl].
  in_use_step P. in_use_step P. now apply cnh_register_in_use.
Qed.

Lemma cnh_schedule_raised ui name name' r r' w :
  raised (schedule_news_updates out ui name r w) =
  raised (schedule_news_updates out ui name' r' w).
Proof.
  unfold schedule_news_updates. raised_step.
  destruct a as [[ui' times]|]; [|reflexivity].
  raised_step. raised_step. apply cnh_register_raised.
Qed.

Lemma cnh_schedule_int_returns n name r w :
  in_range (clock out (clock_reads w) + n * SECOND) = true ->
  raised (schedule_news_updates out (an_int n) name r w) = false.
Proof.
  intros H. unfold schedule_news_updates, bind. simpl.
  unfold bind, now, lift, dt_add. simpl. rewrite H. simpl.
  unfold bind, get_globals. simpl.
  now destruct (dict_in name (scheduled_updates (globals_of w))).
Qed.
End NewsScheduling.

(** C8, as the code has it: scheduling under a name that is in use makes
    no registration, whether the call returns or raises: no event is made,
    and the queue, the registry and every other global are what they were.
    The name in use never makes the call raise: it raises exactly when the
    same interval raises under any other name, and not for a number of
    seconds that leads to a time within the range of [datetime]. *)
Theorem duplicate_name_registers_nothing :
  (forall out (w : py.World cdh.globals) ui name repeat,
      py.dict_in name (cdh.scheduled_updates (py.globals_of w)) = true ->
      let o := cdh.schedule_covid_updates out ui name repeat w in
      notions.same_but_clock w (py.world_of o)
      /\ (forall name' repeat',
             py.raised o =
             py.raised (cdh.schedule_covid_updates out ui name' repeat' w))
      /\ (forall n, ui = py.an_int n ->
             py.in_range (py.clock out (py.clock_reads w) + n * py.SECOND) = true ->
             py.raised o = false))
  /\ (forall out (w : py.World cnh.globals) ui name repeat,
      py.dict_in name (cnh.scheduled_updates (py.globals_of w)) = true ->
      let o := cnh.schedule_news_updates out ui name repeat w in
      notions.same_but_clock w (py.world_of o)
      /\ (forall name' repeat',
             py.raised o =
             py.raised (cnh.schedule_news_updates out ui name' repeat' w))
      /\ (forall n, ui = py.an_int n ->
             py.in_range (py.clock out (py.clock_reads w) + n * py.SECOND) = true ->
             py.raised o = false)).
Proof.
  split; intros out w ui name repeat H o; subst o; repeat split.
  - now apply cdh_schedule_in_use.
  - now apply cdh_schedule_in_use.
  - now apply cdh_schedule_in_use.
  - intros. apply cdh_schedule_raised.
  - intros n -> Hn. now apply cdh_schedule_int_returns.
  - now apply cnh_schedule_in_use.
  - now apply cnh_schedule_in_use.
  - now apply cnh_schedule_in_use.
  - intros. apply cnh_schedule_raised.
  - intros n -> Hn. now apply cnh_schedule_int_returns.
Qed.

(** ** Times of day *)

Section DatetimeFacts.
Import py intervals notions.

Lemma MINUTE_val : MINUTE = 60000000.
Proof. reflexivity. Qed.

Lemma HOUR_val : HOUR = 3600000000.
Proof. reflexivity. Qed.

Lemma DAY_val : DAY = 86400000000.
Proof. reflexivity. Qed.

Lemma DATETIME_END_val : DATETIME_END = 315537897600000000.
Proof. reflexivity. Qed.

Lemma midnight_bounds t : midnight t <= t < midnight t + DAY.
Proof.
  unfold midnight. rewrite DAY_val.
  pose proof (Z.div_mod t 86400000000).
  pose proof (Z.mod_pos_bound t 86400000000). lia.
Qed.

Lemma time_of_day d h m :
  0 <= h < 24 -> 0 <= m < 60 ->
  hour (d * DAY + h * HOUR + m * MINUTE) = h
  /\ minute (d * DAY + h * HOUR + m * MINUTE) = m.
Proof.
  intros Hh Hm. unfold hour, minute.
  rewrite DAY_val, HOUR_val, MINUTE_val. split.
  - rewrite <- (Z.mod_unique (d * 86400000000 + h * 3600000000 + m * 60000000)
                  86400000000 d (h * 3600000000 + m * 60000000)); [|lia|lia].
    symmetry. apply Z.div_unique with (r := m * 60000000); lia.
  - rewrite <- (Z.mod_unique (d * 86400000000 + h * 3600000000 + m * 60000000)
                  3600000000 (d * 24 + h) (m * 60000000)); [|lia|lia].
    symmetry. apply Z.div_unique with (r := 0); lia.
Qed.

(** The next occurrence is at or after [t], less than a day away, and it
    is the time of day asked for. *)
Lemma next_occurrence_spec t h m :
  (h < 24)%nat -> (m < 60)%nat ->
  t <= next_occurrence t h m < t + DAY
  /\ hour (next_occurrence t h m) = Z.of_nat h
  /\ minute (next_occurrence t h m) = Z.of_nat m.
Proof.
  intros Hh Hm. unfold next_occurrence.
  pose proof (midnight_bounds t) as Hb.
  assert (H24 : 0 <= Z.of_nat h < 24) by lia.
  assert (H60 : 0 <= Z.of_nat m < 60) by lia.
  set (today := midnight t + Z.of_nat h * HOUR + Z.of_nat m * MINUTE).
  assert (Htoday : midnight t <= today < midnight t + DAY).
  { subst today. rewrite DAY_val, HOUR_val, MINUTE_val in *. lia. }
  destruct (Z.ltb_spec today t) as [Hlt|Hge].
  - split; [lia|].
    replace (today + DAY) with ((t / DAY + 1) * DAY + Z.of_nat h * HOUR
                                + Z.of_nat m * MINUTE)
      by (subst today; unfold midnight; lia).
    now apply time_of_day.
  - split; [lia|]. subst today. unfold midnight. now apply time_of_day.
Qed.

(** Every valid wall-clock time is accepted by the data module and read
    as its hour and minute. *)
Lemma read_as_all :
  forallb (fun h => forallb (fun m => read_as (HHMM h m) h m) (seq 0 60)) (seq 0 24)
  && forallb (fun h => forallb (fun m => read_as (HMM h m) h m) (seq 0 60)) (seq 0 10)
  = true.
Proof. vm_compute. reflexivity. Qed.

Lemma wall_clock_read_as s h m : wall_clock s h m -> read_as s h m = true.
Proof.
  intros (Hh & Hm & Hs).
  pose proof read_as_all as H. apply andb_prop in H. destruct H as [H1 H2].
  rewrite forallb_forall in H1, H2.
  destruct Hs as [->|[Hh' ->]].
  - specialize (H1 h). rewrite forallb_forall in H1.
    apply H1; apply in_seq; lia.
  - specialize (H2 h). rewrite forallb_forall in H2.
    apply H2; apply in_seq; lia.
Qed.

Lemma wall_clock_hrs_mins s h m :
  wall_clock s h m ->
  re_match_dollar cdh.HH_MM s = true
  /\ hrs_mins s = ok (Z.of_nat h, Z.of_nat m).
Proof.
  intros H. apply wall_clock_read_as in H. unfold read_as in H.
  apply andb_prop in H. destruct H as [H1 H2]. split; [exact H1|].
  destruct (hrs_mins s) as [e|[hrs mins]]; [discriminate|].
  apply andb_prop in H2. destruct H2 as [Ha Hb].
  apply Z.eqb_eq in Ha, Hb. now subst.
Qed.
(** The news module passes every valid wall-clock time to [int()] and
    raises ValueError. *)
Lemma news_refuses_all :
  forallb (fun h => forallb (fun m => news_refuses (HHMM h m)) (seq 0 60)) (seq 0 24)
  && forallb (fun h => forallb (fun m => news_refuses (HMM h m)) (seq 0 60)) (seq 0 10)
  = true.
Proof. vm_compute. reflexivity. Qed.

Lemma wall_clock_news_raises out s h m name r (w : World cnh.globals) :
  wall_clock s h m ->
  cnh.schedule_news_updates out (a_str s) name r w = Raises ValueError w.
Proof.
  intros (Hh & Hm & Hs).
  assert (H : news_refuses s = true).
  { pose proof news_refuses_all as H. apply andb_prop in H. destruct H as [H1 H2].
    rewrite forallb_forall in H1, H2.
    destruct Hs as [->|[Hh' ->]].
    - specialize (H1 h). rewrite forallb_forall in H1.
      apply H1; apply in_seq; lia.
    - specialize (H2 h). rewrite forallb_forall in H2.
      apply H2; apply in_seq; lia. }
  unfold news_refuses in H. apply andb_prop in H. destruct H as [H Hint].
  apply andb_prop in H. destruct H as [Hhm Hdigits].
  apply negb_true_iff in Hhm.
  unfold cnh.schedule_news_updates, bind. simpl. rewrite Hhm, Hdigits.
  unfold bind, lift.
  destruct (int_of_str s) as [[]|]; try discriminate. reflexivity.
Qed.
End DatetimeFacts.

(** ** A time of day from the form *)

Section WallClock.
Import py intervals notions.
Variable out : Outside.

(** [time_to_update_interval] on three readings of the clock: the time of
    day is put on the day of the first reading, moved to the next day when
    it is before the second reading, and the delay is counted from the
    third. *)
Lemma time_to_update_interval_readings {G : Type} (w : World G) s h m :
  hrs_mins s = ok (Z.of_nat h, Z.of_nat m) ->
  (h < 24)%nat -> (m < 60)%nat ->
  let t1 := clock out (clock_reads w) in
  let t2 := clock out (S (clock_reads w)) in
  let t3 := clock out (S (S (clock_reads w))) in
  let today := midnight t1 + Z.of_nat h * HOUR + Z.of_nat m * MINUTE in
  ((today <? t2) = true -> in_range (today + DAY) = true) ->
  time_to_update_interval out s w =
    let fire := if today <? t2 then today + DAY else today in
    Returns (fire - t3, fire) (ticked (ticked (ticked w))).
Proof.
  intros Hs Hh Hm t1 t2 t3 today Hin.
  unfold time_to_update_interval, bind, lift, now. rewrite Hs. simpl.
  fold t1. unfold replace_hm.
  assert (Hok : (0 <=? Z.of_nat h) && (Z.of_nat h <? 24)
                && (0 <=? Z.of_nat m) && (Z.of_nat m <? 60) = true).
  { rewrite !andb_true_iff, !Z.leb_le, !Z.ltb_lt. lia. }
  rewrite Hok. unfold ok, ret. cbn [ticked clock_reads]. fold t2. fold today.
  destruct (today <? t2).
  - unfold dt_add. rewrite (Hin eq_refl). unfold ok. cbn [ticked clock_reads].
    reflexivity.
  - cbn [ticked clock_reads]. reflexivity.
Qed.

(** The fire time has the hour and the minute asked for, whatever the two
    readings are. *)
Lemma occurrence_time_of_day t1 t2 h m :
  (h < 24)%nat -> (m < 60)%nat ->
  hour (occurrence t1 t2 h m) = Z.of_nat h
  /\ minute (occurrence t1 t2 h m) = Z.of_nat m.
Proof.
  intros Hh Hm. unfold occurrence.
  assert (H24 : 0 <= Z.of_nat h < 24) by lia.
  assert (H60 : 0 <= Z.of_nat m < 60) by lia.
  destruct (_ <? t2).
  - replace (midnight t1 + Z.of_nat h * HOUR + Z.of_nat m * MINUTE + DAY)
      with ((t1 / DAY + 1) * DAY + Z.of_nat h * HOUR + Z.of_nat m * MINUTE)
      by (unfold midnight; lia).
    now apply time_of_day.
  - unfold midnight. now apply time_of_day.
Qed.

(** Where the fire time lies when the clock has not gone back between
    the two readings, and when no midnight has passed between them. *)
Lemma occurrence_bounds t1 t2 h m :
  (h < 24)%nat -> (m < 60)%nat ->
  (t1 <= t2 -> t1 <= occurrence t1 t2 h m < t2 + DAY)
  /\ (midnight t2 = midnight t1 ->
      occurrence t1 t2 h m = next_occurrence t2 h m
      /\ t2 <= occurrence t1 t2 h m < t2 + DAY).
Proof.
  intros Hh Hm.
  pose proof (midnight_bounds t1) as Hb1. pose proof (midnight_bounds t2) as Hb2.
  assert (Htoday : midnight t1
                   <= midnight t1 + Z.of_nat h * HOUR + Z.of_nat m * MINUTE
                   < midnight t1 + DAY)
    by (rewrite DAY_val, HOUR_val, MINUTE_val in *; lia).
  split.
  - intros Hle. unfold occurrence.
    destruct (Z.ltb_spec (midnight t1 + Z.of_nat h * HOUR + Z.of_nat m * MINUTE) t2);
      lia.
  - intros Hday. unfold next_occurrence, occurrence. rewrite Hday. split; [reflexivity|].
    destruct (Z.ltb_spec (midnight t1 + Z.of_nat h * HOUR + Z.of_nat m * MINUTE) t2);
      lia.
Qed.

(** A first reading before the last day of [datetime] keeps the fire time
    within its range. *)
Lemma occurrence_in_range t1 h m :
  (h < 24)%nat -> (m < 60)%nat ->
  0 <= t1 < DATETIME_END - DAY ->
  in_range (midnight t1 + Z.of_nat h * HOUR + Z.of_nat m * MINUTE + DAY) = true.
Proof.
  intros Hh Hm Hrange. unfold in_range, midnight.
  assert (Hd : 0 <= t1 / DAY <= 3652057).
  { rewrite DAY_val, DATETIME_END_val in *. split.
    - apply Z.div_pos; lia.
    - apply Z.lt_succ_r. apply Z.div_lt_upper_bound; lia. }
  rewrite andb_true_iff, Z.leb_le, Z.ltb_lt.
  rewrite DAY_val, HOUR_val, MINUTE_val, DATETIME_END_val in *. lia.
Qed.

(** [time_to_update_interval] whatever the clock reads. *)
Lemma time_to_update_interval_any_clock {G : Type} (w : World G) s h m :
  hrs_mins s = ok (Z.of_nat h, Z.of_nat m) ->
  (h < 24)%nat -> (m < 60)%nat ->
  0 <= clock out (clock_reads w) < DATETIME_END - DAY ->
  time_to_update_interval out s w =
    let fire := occurrence (clock out (clock_reads w))
                           (clock out (S (clock_reads w))) h m in
    Returns (fire - clock out (S (S (clock_reads w))), fire)
            (ticked (ticked (ticked w))).
Proof.
  intros Hs Hh Hm Hrange.
  rewrite (time_to_update_interval_readings w s h m Hs Hh Hm);
    [reflexivity | intros _; now apply occurrence_in_range].
Qed.

(** What [schedule_covid_updates] does with a valid wall-clock time,
    whatever the clock reads. *)
Lemma cdh_schedule_wall_clock (w : World cdh.globals) s h m name repeat :
  wall_clock s h m ->
  0 <= clock out (clock_reads w) < DATETIME_END - DAY ->
  let fire := occurrence (clock out (clock_reads w))
                         (clock out (S (clock_reads w))) h m in
  let delay := fire - clock out (S (S (clock_reads w))) in
  exists w',
    cdh.schedule_covid_updates out (a_str s) name repeat w = Returns tt w'
    /\ (dict_in name (cdh.scheduled_updates (globals_of w)) = true ->
        globals_of w' = globals_of w)
    /\ (dict_in name (cdh.scheduled_updates (globals_of w)) = false ->
        let ev := mkEvent (clock out (3 + clock_reads w) + delay) 1 (sequence w)
                          call_sch_update_covid_data (fire, name, repeat) in
        cdh.scheduled_updates (globals_of w') =
          dict_set (cdh.scheduled_updates (globals_of w)) name
                   (mkUpdate ev fire repeat)
        /\ cdh.scheduler (globals_of w') = (cdh.scheduler (globals_of w) ++ [ev])%list).
Proof.
  intros Hs Hrange fire delay.
  destruct (wall_clock_hrs_mins s h m Hs) as [Hmatch Hparse].
  unfold cdh.schedule_covid_updates, bind. simpl. rewrite Hmatch.
  unfold bind, cdh.time_to_update_interval.
  rewrite (time_to_update_interval_any_clock w s h m Hparse
             (proj1 Hs) (proj1 (proj2 Hs)) Hrange).
  cbv zeta. fold fire. fold delay. simpl.
  unfold bind, get_globals. simpl.
  destruct (dict_in name (cdh.scheduled_updates (globals_of w))) eqn:Hin; simpl.
  - eexists. split; [reflexivity|]. split; [reflexivity | discriminate].
  - eexists. split; [reflexivity|]. split; [discriminate|].
    intros _. simpl. split; reflexivity.
Qed.

(** C2, as the code has it: for every valid wall-clock time and whatever
    the clock reads, [schedule_covid_updates] returns without raising.
    The call reads the clock three times, [t1], [t2] and [t3].  The fire
    time is that time of day on the day of [t1], moved to the next day
    when it is before [t2]; with a clock that has not gone back it is not
    before [t1] and less than a day after [t2].  When [t1] and [t2] are
    of one day, it is the next occurrence of the time of day at or after
    [t2], today's if it is not before [t2] and tomorrow's otherwise, and
    the delay [fire - t3] is not below [t2 - t3], hence not negative when
    the clock has not advanced between the second reading and the third.
    In every case the delay is negative exactly when the third reading is
    after the fire time.  Under an unused name the update is registered
    with that fire time and queued with that delay.  The first reading is
    on a day before the last one [datetime] can hold. *)
Theorem hhmm_fire_time (w : World cdh.globals) s h m name repeat :
  wall_clock s h m ->
  let t1 := clock out (clock_reads w) in
  let t2 := clock out (S (clock_reads w)) in
  let t3 := clock out (S (S (clock_reads w))) in
  0 <= t1 < DATETIME_END - DAY ->
  let fire := occurrence t1 t2 h m in
  let delay := fire - t3 in
  hour fire = Z.of_nat h /\ minute fire = Z.of_nat m
  /\ (t1 <= t2 -> t1 <= fire < t2 + DAY)
  /\ (midnight t2 = midnight t1 ->
      fire = next_occurrence t2 h m
      /\ t2 <= fire < t2 + DAY
      /\ t2 - t3 <= delay < t2 - t3 + DAY)
  /\ (delay < 0 <-> fire < t3)
  /\ exists w',
      cdh.schedule_covid_updates out (a_str s) name repeat w = Returns tt w'
      /\ (dict_in name (cdh.scheduled_updates (globals_of w)) = true ->
          globals_of w' = globals_of w)
      /\ (dict_in name (cdh.scheduled_updates (globals_of w)) = false ->
          let ev := mkEvent (clock out (3 + clock_reads w) + delay) 1 (sequence w)
                            call_sch_update_covid_data (fire, name, repeat) in
          cdh.scheduled_updates (globals_of w') =
            dict_set (cdh.scheduled_updates (globals_of w)) name
                     (mkUpdate ev fire repeat)
          /\ cdh.scheduler (globals_of w') = (cdh.scheduler (globals_of w) ++ [ev])%list).
Proof.
  intros Hs t1 t2 t3 Hrange fire delay.
  destruct (occurrence_time_of_day t1 t2 h m (proj1 Hs) (proj1 (proj2 Hs)))
    as [Hhour Hminute].
  destruct (occurrence_bounds t1 t2 h m (proj1 Hs) (proj1 (proj2 Hs)))
    as [Hmonotone Hday].
  split; [exact Hhour|]. split; [exact Hminute|]. split; [exact Hmonotone|].
  split.
  { intros Hsame. destruct (Hday Hsame) as [Hnext Hfire].
    split; [exact Hnext|]. split; [exact Hfire|]. subst delay. fold fire in Hfire. lia. }
  split; [subst delay; lia|].
  exact (cdh_schedule_wall_clock w s h m name repeat Hs Hrange).
Qed.
End WallClock.

(** ** Relations kept by a computation *)

Section Preservation.
Import py notions.
Context {G : Type} (R : G -> G -> Prop) {R_pre : PreOrder R}.

Lemma quiet_preserves {A : Type} (m : M G A) : quiet m -> preserves R m.
Proof. intros H w. destruct (H w) as (_ & _ & ->). reflexivity. Qed.

Lemma preserves_ret {A : Type} (a : A) : preserves R (ret a).
Proof. intros w. reflexivity. Qed.

Lemma preserves_lift {A : Type} (r : result A) : preserves R (lift r).
Proof. intros w. destruct r; reflexivity. Qed.

Lemma preserves_get : preserves R get_globals.
Proof. intros w. reflexivity. Qed.

Lemma preserves_next_api_call : preserves R next_api_call.
Proof. intros w. reflexivity. Qed.

Lemma preserves_bind {A B : Type} (m : M G A) (k : A -> M G B) :
  preserves R m -> (forall a, preserves R (k a)) -> preserves R (bind m k).
Proof.
  intros Hm Hk w. unfold bind. specialize (Hm w).
  destruct (m w) as [a w'|e w']; simpl in *; [|exact Hm].
  transitivity (globals_of w'); [exact Hm | apply Hk].
Qed.

Lemma preserves_if {A : Type} (b : bool) (m1 m2 : M G A) :
  preserves R m1 -> preserves R m2 -> preserves R (if b then m1 else m2).
Proof. now destruct b. Qed.

(** An update of the globals in place. *)
Lemma preserves_update (f : G -> G) :
  (forall g, R g (f g)) ->
  preserves R (bind get_globals (fun g => set_globals (f g))).
Proof. intros H w. apply H. Qed.

(** An update in place, and then more. *)
Lemma preserves_update_then {B : Type} (f : G -> G) (k : unit -> M G B) :
  (forall g, R g (f g)) ->
  preserves R (k tt) ->
  preserves R (bind get_globals (fun g => bind (set_globals (f g)) k)).
Proof.
  intros Hf Hk w. unfold bind, get_globals, set_globals.
  transitivity (f (globals_of w)); [apply Hf|].
  apply (Hk (with_globals w (f (globals_of w)))).
Qed.

(** After a computation, whatever its outcome, and some more calls. *)
Lemma preserves_world_of {A : Type} (m : M G A) (w : World G) (g : G) :
  preserves R m -> R g (globals_of w) -> R g (globals_of (world_of (m w))).
Proof. intros Hm Hg. transitivity (globals_of w); [exact Hg | apply Hm]. Qed.
End Preservation.

#[local] Instance elsewhere_preorder {G : Type}
    (reg : G -> py.dict ScheduledUpdate) (name : string) :
  PreOrder (notions.elsewhere reg name).
Proof.
  split.
  - now intros g x _.
  - intros g1 g2 g3 H12 H23 x Hx. now rewrite H23, H12.
Qed.

#[local] Instance removed_grows_preorder : PreOrder notions.removed_grows.
Proof.
  split.
  - now intros g t.
  - intros g1 g2 g3 H12 H23 t Ht. auto.
Qed.

Create HintDb preserves.
#[local] Hint Resolve preserves_ret preserves_lift preserves_get
  preserves_next_api_call preserves_bind preserves_if : preserves.
#[local] Hint Extern 3 (notions.preserves _ _) =>
  apply quiet_preserves; [typeclasses eauto | solve [auto 8 with quiet]] : preserves.
#[local] Hint Extern 1 (PreOrder _) => typeclasses eauto : preserves.

Ltac pres_bind := apply preserves_bind; [typeclasses eauto | | ].
Ltac pres_quiet := apply quiet_preserves; [typeclasses eauto | ].
Ltac pres_ret := apply preserves_ret; typeclasses eauto.

(** ** The callback of the data module *)

Section CovidCallback.
Import py intervals notions cdh.
Variable out : Outside.
Variable get_json : nat -> list string -> fetch.
Implicit Types (w : World globals).

Lemma cdh_register_elsewhere times name r :
  preserves (elsewhere scheduled_updates name) (register out times name r).
Proof.
  intros w x Hx. destruct times as [[delay fire]|]; simpl; [|reflexivity].
  unfold bind, get_globals.
  destruct (dict_in name (scheduled_updates (globals_of w))); simpl; [reflexivity|].
  now apply dict_get_set_other.
Qed.

Lemma cdh_schedule_elsewhere ui name r :
  preserves (elsewhere scheduled_updates name)
            (schedule_covid_updates out ui name r).
Proof.
  unfold schedule_covid_updates. pres_bind.
  - pres_quiet. apply cdh_parse_str_quiet.
  - intros [[ui' times]|]; [|pres_ret].
    pose proof cdh_register_elsewhere. auto with preserves.
Qed.

Lemma cdh_request_elsewhere location location_type :
  preserves (elsewhere scheduled_updates "API Retry")
            (covid_API_request out get_json location location_type).
Proof.
  unfold covid_API_request. pres_bind; [auto with preserves|].
  intros k. pose proof cdh_schedule_elsewhere.
  destruct (get_json k _); auto with preserves.
Qed.

Lemma cdh_refresh_elsewhere :
  preserves (elsewhere scheduled_updates "API Retry") (refresh out get_json).
Proof.
  pose proof cdh_request_elsewhere as Hreq.
  unfold refresh. pres_bind; [auto with preserves|]. intros g.
  pres_bind; [auto 6 with preserves|]. intros api_response.
  pres_bind; [auto with preserves|]. intros national_api_response.
  pres_bind; [|intros _];
    (apply preserves_if; [|pres_ret];
     apply preserves_update; intros g0 x _; reflexivity).
Qed.


End CovidCallback.

(** ** The news list *)

Section NewsFacts.
Import py intervals notions cnh.
Variable out : Outside.
Variable requests_get : nat -> string -> fetch.
Implicit Types (w : World globals) (l : list Article) (t : string).

Lemma keep_articles_eq l w :
  keep_articles l w =
    Returns tt
      (with_globals w
         (with_news (globals_of w)
            (news (globals_of w) ++ kept (removed_articles (globals_of w)) l))).
Proof.
  revert w. induction l as [|article rest IH]; intros [c a s g]; simpl.
  - unfold ret, with_globals, with_news. simpl. rewrite app_nil_r. now destruct g.
  - unfold bind at 1. unfold get_globals at 1. cbv beta iota. simpl globals_of.
    destruct (title_in (title article) (removed_articles g)); simpl negb;
      cbv beta iota; unfold bind at 1.
    + unfold ret at 1. cbv beta iota. rewrite IH. reflexivity.
    + unfold set_globals at 1. cbv beta iota. rewrite IH.
      unfold with_globals, with_news. simpl. now rewrite <- app_assoc.
Qed.

Lemma format_all_returns l : forall w entries,
  format_list l = ok entries ->
  format_all l w =
    Returns tt
      (with_globals w
         (with_formatted_news (globals_of w)
            (formatted_news (globals_of w) ++ entries))).
Proof.
  induction l as [|article rest IH]; intros [c a s g] entries H; simpl in *.
  - injection H as <-. unfold ret, with_globals, with_formatted_news. simpl.
    rewrite app_nil_r. now destruct g.
  - unfold bind at 1. unfold rbind in H.
    destruct (format_article article) as [e|entry]; [discriminate|].
    destruct (format_list rest) as [e|entries'] eqn:Hrest; [discriminate|].
    injection H as <-. simpl.
    unfold bind, get_globals, set_globals. cbv beta iota.
    rewrite (IH _ entries' eq_refl).
    unfold with_globals, with_formatted_news. simpl. now rewrite <- app_assoc.
Qed.

(** Whatever its outcome, the loop of [news_formatter] changes only
    [formatted_news]. *)
Lemma format_all_world l : forall w,
  exists entries,
    world_of (format_all l w) =
      with_globals w (with_formatted_news (globals_of w) entries).
Proof.
  induction l as [|article rest IH]; intros [c a s g]; simpl.
  - exists (formatted_news g). now destruct g.
  - unfold bind at 1.
    destruct (format_article article) as [e|entry]; simpl.
    + exists (formatted_news g). now destruct g.
    + unfold bind, get_globals, set_globals. cbv beta iota.
      cbn [globals_of].
      destruct (IH (with_globals (mkWorld c a s g)
                      (with_formatted_news g (formatted_news g ++ [entry]))))
        as [entries Hw].
      exists entries. rewrite Hw. reflexivity.
Qed.

Lemma first_five l :
  (if Nat.leb 5 (List.length l) then firstn 5 l else l) = firstn 5 l.
Proof.
  destruct (Nat.leb_spec 5 (List.length l)); [reflexivity|].
  symmetry. apply firstn_all2. lia.
Qed.

(** [news_formatter] puts the entries of the first five articles in
    place of the display list. *)
Lemma news_formatter_returns w entries :
  format_list (firstn 5 (news (globals_of w))) = ok entries ->
  news_formatter w =
    Returns tt (with_globals w (with_formatted_news (globals_of w) entries)).
Proof.
  intros H. unfold news_formatter, bind, get_globals, set_globals.
  cbv beta iota. rewrite first_five.
  rewrite (format_all_returns _ _ entries) by exact H. reflexivity.
Qed.

Lemma news_formatter_world w :
  exists entries,
    world_of (news_formatter w) =
      with_globals w (with_formatted_news (globals_of w) entries).
Proof.
  unfold news_formatter, bind, get_globals, set_globals. cbv beta iota.
  match goal with
  | |- context [format_all ?l ?w'] =>
      destruct (format_all_world l w') as [entries Hw]
  end.
  exists entries. rewrite Hw. reflexivity.
Qed.
End NewsFacts.

(** ** The callback of the news module *)

Section NewsRelations.
Import py intervals notions cnh.
Variable out : Outside.
Variable requests_get : nat -> string -> fetch.
Implicit Types (w : World globals) (l : list Article) (t : string).

(** What a relation between globals has to allow for the refresh of the
    news to keep it. *)
Variable R : globals -> globals -> Prop.
Context {R_pre : PreOrder R}.
Hypothesis R_news : forall g l, R g (with_news g l).
Hypothesis R_formatted_news : forall g entries, R g (with_formatted_news g entries).
Hypothesis R_retry :
  preserves R (schedule_news_updates out (an_int 30) "API Retry" false).

Lemma keep_articles_preserves l : preserves R (keep_articles l).
Proof. intros w. rewrite keep_articles_eq. apply R_news. Qed.

Lemma news_formatter_preserves : preserves R news_formatter.
Proof.
  intros w. destruct (news_formatter_world w) as [entries ->].
  apply R_formatted_news.
Qed.

Lemma news_API_request_preserves terms :
  preserves R (news_API_request out requests_get terms).
Proof.
  unfold news_API_request. pres_bind; [auto with preserves|]. intros g.
  pres_bind; [auto with preserves|]. intros k.
  destruct (requests_get k _); auto with preserves.
Qed.

Lemma update_news_preserves terms :
  preserves R (update_news out requests_get terms).
Proof.
  unfold update_news. pres_bind; [apply news_API_request_preserves|].
  intros api_response.
  apply (preserves_update_then R (fun g => with_news g []));
    [intros g; apply R_news|].
  destruct api_response as [response|]; [|pres_ret].
  destruct (negb (status response =? "error")%string); [|pres_ret].
  pres_bind; [apply keep_articles_preserves|]. intros _.
  apply news_formatter_preserves.
Qed.
End NewsRelations.

Section NewsCallback.
Import py intervals notions cnh.
Variable out : Outside.
Variable requests_get : nat -> string -> fetch.
Implicit Types (w : World globals) (l : list Article) (t : string).





End NewsCallback.


(** ** Removed articles *)

Section Removed.
Import py intervals notions cnh.
Variable out : Outside.
Variable requests_get : nat -> string -> fetch.
Implicit Types (w : World globals) (l : list Article) (t : string).

Lemma add_removed_article_eq t w :
  add_removed_article t w =
    news_formatter
      (with_globals w
         (with_news
            (with_removed_articles (globals_of w)
               (removed_articles (globals_of w) ++ [t]))
            (without_first t (globals_of w)))).
Proof.
  unfold add_removed_article, without_first, titles, bind, get_globals, set_globals.
  cbv beta iota. cbn [globals_of with_globals news with_removed_articles].
  destruct (title_in t (map title (news (globals_of w)))); reflexivity.
Qed.

(** The globals after [add_removed_article t], whatever its outcome. *)
Lemma add_removed_article_world t w :
  exists entries,
    globals_of (world_of (add_removed_article t w)) =
      with_formatted_news
        (with_news
           (with_removed_articles (globals_of w)
              (removed_articles (globals_of w) ++ [t]))
           (without_first t (globals_of w)))
        entries.
Proof.
  rewrite add_removed_article_eq.
  match goal with
  | |- context [news_formatter ?w'] =>
      destruct (news_formatter_world w') as [entries ->]
  end.
  exists entries. reflexivity.
Qed.

Lemma title_in_In t (l : list string) : title_in t l = true <-> In t l.
Proof.
  unfold title_in. rewrite existsb_exists. split.
  - intros [y [Hy Heq]]. apply String.eqb_eq in Heq. now subst.
  - intros H. exists t. split; [exact H | apply String.eqb_refl].
Qed.

(** Deleting at the index of the first article titled [t] takes one
    article titled [t] away. *)
Lemma del_at_index_count t l :
  In t (map title l) ->
  count_occ string_dec (map title (del_at l (index_of t (map title l)))) t
  = pred (count_occ string_dec (map title l) t).
Proof.
  induction l as [|article rest IH]; simpl; [tauto|].
  intros Hin. destruct (String.eqb_spec t (title article)) as [Heq|Hne].
  - destruct (string_dec (title article) t); [reflexivity | congruence].
  - simpl. destruct (string_dec (title article) t); [congruence|].
    apply IH. destruct Hin; [congruence | assumption].
Qed.

Lemma without_first_count t g :
  count_occ string_dec (map title (without_first t g)) t
  = pred (count_occ string_dec (titles g) t).
Proof.
  unfold without_first. destruct (title_in t (titles g)) eqn:Hin.
  - apply del_at_index_count. now apply title_in_In.
  - assert (Hnot : ~ In t (titles g)).
    { intros H. apply title_in_In in H. congruence. }
    apply (count_occ_not_In string_dec) in Hnot. unfold titles in *.
    now rewrite Hnot.
Qed.

(** No function of the module takes a title off the list of removed
    titles. *)
Lemma cnh_schedule_grows ui name r :
  preserves removed_grows (schedule_news_updates out ui name r).
Proof.
  assert (Hreg : forall times, preserves removed_grows (register out times name r)).
  { intros times w t Ht. destruct times as [[delay fire]|]; simpl; [|exact Ht].
    unfold bind, get_globals.
    now destruct (dict_in name (scheduled_updates (globals_of w))). }
  unfold schedule_news_updates. pres_bind.
  - pres_quiet. apply cnh_parse_str_quiet.
  - intros [[ui' times]|]; [|pres_ret]. auto with preserves.
Qed.

Lemma update_news_grows terms :
  preserves removed_grows (update_news out requests_get terms).
Proof.
  apply update_news_preserves.
  - typeclasses eauto.
  - now intros g l t.
  - now intros g entries t.
  - apply cnh_schedule_grows.
Qed.

Lemma add_removed_article_grows t :
  preserves removed_grows (add_removed_article t).
Proof.
  intros w t' Ht'. destruct (add_removed_article_world t w) as [entries ->].
  simpl. apply in_or_app. now left.
Qed.

Lemma sch_update_news_grows u name r :
  preserves removed_grows (sch_update_news out requests_get u name r).
Proof.
  unfold sch_update_news. pres_bind.
  - intros w t Ht. unfold forget, bind, get_globals.
    now destruct (dict_del (scheduled_updates (globals_of w)) name).
  - intros _. pres_bind; [apply update_news_grows|]. intros _.
    unfold rearm. pose proof cnh_schedule_grows. destruct r; auto with preserves.
Qed.

Lemma run_call_grows c : preserves removed_grows (run_call out requests_get c).
Proof.
  destruct c; simpl.
  - apply update_news_grows.
  - apply news_formatter_preserves. now intros g entries t.
  - apply add_removed_article_grows.
  - apply cnh_schedule_grows.
  - apply sch_update_news_grows.
Qed.

Lemma run_calls_grows calls w :
  removed_grows (globals_of w) (globals_of (run_calls out requests_get calls w)).
Proof.
  revert w. induction calls as [|c calls IH]; intros w; simpl; [reflexivity|].
  transitivity (globals_of (world_of (run_call out requests_get c w)));
    [apply run_call_grows | apply IH].
Qed.

(** The live list after a fetch that succeeded. *)
Lemma update_news_fetched terms response w :
  requests_get (api_calls w) (request_url (globals_of w) terms) = Fetched response ->
  exists entries,
    globals_of (world_of (update_news out requests_get terms w)) =
      with_formatted_news
        (with_news (globals_of w)
           (if (status response =? "error")%string then []
            else kept (removed_articles (globals_of w)) (articles response)))
        entries.
Proof.
  intros H. unfold update_news, news_API_request, bind, get_globals, next_api_call.
  cbv beta iota. rewrite H. unfold ret at 1, set_globals at 1. cbv beta iota.
  destruct (status response =? "error")%string; cbn [negb]; cbv beta iota.
  - exists (formatted_news (globals_of w)). simpl. now destruct (globals_of w).
  - rewrite keep_articles_eq.
    match goal with
    | |- context [news_formatter ?w'] =>
        destruct (news_formatter_world w') as [entries ->]
    end.
    exists entries. reflexivity.
Qed.

Lemma kept_titles removed l t :
  In t removed -> ~ In t (map title (kept removed l)).
Proof.
  intros Hrem Hin. apply in_map_iff in Hin. destruct Hin as [article [<- Hk]].
  apply filter_In in Hk. destruct Hk as [_ Hk].
  apply negb_true_iff in Hk. apply title_in_In in Hrem. congruence.
Qed.
End Removed.

(** What a removal does in general: [add_removed_article t] records [t]
    as removed, deletes the first article titled [t] from the live list,
    which leaves no such article only when there was at most one, and puts
    the entries of the first five articles of that list in place of the
    display list whenever they can be formatted.  After any later calls of
    the module, a call of [update_news] whose fetch succeeds leaves no
    article titled [t] in the live list, whatever the response holds. *)
Lemma removed_article_stays_away :
  forall out requests_get (w : py.World cnh.globals) t,
    let w1 := py.world_of (cnh.add_removed_article t w) in
    cnh.removed_articles (py.globals_of w1)
      = (cnh.removed_articles (py.globals_of w) ++ [t])%list
    /\ count_occ string_dec (notions.titles (py.globals_of w1)) t
       = pred (count_occ string_dec (notions.titles (py.globals_of w)) t)
    /\ ((count_occ string_dec (notions.titles (py.globals_of w)) t <= 1)%nat ->
        ~ In t (notions.titles (py.globals_of w1)))
    /\ (forall entries,
           notions.format_list (firstn 5 (cnh.news (py.globals_of w1))) = py.ok entries ->
           cnh.add_removed_article t w = py.Returns tt w1
           /\ cnh.formatted_news (py.globals_of w1) = entries)
    /\ (forall calls terms response,
           let w2 := notions.run_calls out requests_get calls w1 in
           requests_get (py.api_calls w2) (cnh.request_url (py.globals_of w2) terms)
             = cnh.Fetched response ->
           ~ In t (notions.titles
                     (py.globals_of
                        (py.world_of (cnh.update_news out requests_get terms w2))))).
Proof.
  intros out requests_get w t w1.
  destruct (add_removed_article_world t w) as [entries0 Hw1]. fold w1 in Hw1.
  assert (Hcount : count_occ string_dec (notions.titles (py.globals_of w1)) t
                   = pred (count_occ string_dec (notions.titles (py.globals_of w)) t)).
  { rewrite Hw1. unfold notions.titles at 1. simpl. apply without_first_count. }
  split; [now rewrite Hw1|]. split; [exact Hcount|]. split; [|split].
  - intros Hle. apply (count_occ_not_In string_dec). rewrite Hcount. lia.
  - intros entries Hfmt. subst w1. rewrite add_removed_article_eq in *.
    rewrite (news_formatter_returns _ entries).
    + split; reflexivity.
    + match type of Hfmt with
      | context [cnh.news_formatter ?w'] =>
          destruct (news_formatter_world w') as [entries' Hw']
      end.
      rewrite Hw' in Hfmt. exact Hfmt.
  - intros calls terms response w2 Hfetch.
    assert (Hrem : In t (cnh.removed_articles (py.globals_of w2))).
    { apply (run_calls_grows out requests_get calls w1).
      rewrite Hw1. simpl. apply in_or_app. right. now left. }
    destruct (update_news_fetched out requests_get terms response w2 Hfetch)
      as [entries ->].
    unfold notions.titles. simpl.
    destruct (cnh.status response =? "error")%string; [tauto|].
    now apply kept_titles.
Qed.

(** ** A fetch that fails *)

Section FailedFetch.
Import py intervals notions.

(** With the COVID API out of reach, a request that returns returns
    [{"data": None}], and the refresh puts it in place of both snapshots. *)
Lemma cdh_request_api_down out get_json location location_type
    (w : World cdh.globals) data w' :
  (forall k filters d, get_json k filters <> cdh.Fetched d) ->
  cdh.covid_API_request out get_json location location_type w = Returns data w' ->
  data = cdh.no_data.
Proof.
  intros Hdown. unfold cdh.covid_API_request, bind, next_api_call.
  match goal with
  | |- context [get_json ?k ?f] => destruct (get_json k f) as [d| | |error] eqn:Hk
  end.
  - now apply Hdown in Hk.
  - destruct (cdh.schedule_covid_updates out (an_int 30) "API Retry" false _);
      [|discriminate].
    unfold ret. congruence.
  - destruct (cdh.schedule_covid_updates out (an_int 30) "API Retry" false _);
      [|discriminate].
    unfold ret. congruence.
  - discriminate.
Qed.

Lemma cdh_refresh_api_down out get_json (w w' : World cdh.globals) :
  (forall k filters d, get_json k filters <> cdh.Fetched d) ->
  cdh.refresh out get_json w = Returns tt w' ->
  cdh.covid_data (globals_of w') = cdh.no_data
  /\ cdh.national_covid_data (globals_of w') = cdh.no_data.
Proof.
  intros Hdown. unfold cdh.refresh. unfold bind at 1. unfold get_globals at 1.
  cbv beta iota. unfold bind at 1.
  match goal with
  | |- context [match ?m w with _ => _ end] => destruct (m w) as [d1 w1|e1 w1] eqn:H1
  end; [|discriminate].
  assert (Hd1 : d1 = cdh.no_data).
  { destruct (cdh.nonempty (cdh.config_covid_location (globals_of w))).
    - unfold bind, lift in H1.
      destruct (dict_item _ "area_type") as [|ty]; [discriminate|].
      destruct (dict_item _ "area_name") as [|loc]; [discriminate|].
      simpl in H1. eapply cdh_request_api_down; eassumption.
    - eapply cdh_request_api_down; eassumption. }
  subst d1. unfold bind at 1.
  destruct (cdh.covid_API_request out get_json "Exeter" "overview" w1)
    as [d2 w2|e2 w2] eqn:H2; [|discriminate].
  apply (cdh_request_api_down _ _ _ _ _ _ _ Hdown) in H2. subst d2.
  unfold bind, get_globals, set_globals. simpl.
  intros [= <-]. split; reflexivity.
Qed.

(** With the news API out of reach, [update_news] leaves the live list
    empty. *)
Lemma cnh_update_news_api_down out requests_get terms (w w' : World cnh.globals) :
  (forall k url response, requests_get k url <> cnh.Fetched response) ->
  cnh.update_news out requests_get terms w = Returns tt w' ->
  cnh.news (globals_of w') = [].
Proof.
  intros Hdown. unfold cnh.update_news, cnh.news_API_request.
  unfold bind, get_globals, next_api_call.
  match goal with
  | |- context [requests_get ?k ?u] => destruct (requests_get k u) as [d| | |error] eqn:Hk
  end.
  - now apply Hdown in Hk.
  - destruct (cnh.schedule_news_updates out (an_int 30) "API Retry" false _);
      [|discriminate].
    unfold ret, set_globals. intros [= <-]. reflexivity.
  - destruct (cnh.schedule_news_updates out (an_int 30) "API Retry" false _);
      [|discriminate].
    unfold ret, set_globals. intros [= <-]. reflexivity.
  - discriminate.
Qed.
End FailedFetch.

(** * The properties on concrete worlds *)

Section Scenes.
Import py intervals notions scenes.

(** C1 does not hold of the code.  With the COVID API out of reach the
    callback of the data module returns, and both snapshots, which held
    records, are the answer [{"data": None}] of the failed request; with
    the news API out of reach [update_news] returns and the live news
    list, which held an article, is empty, while the display list still
    shows the article. *)
Theorem failed_fetch_replaces_snapshot :
  let o := cdh.sch_update_covid_data (frozen noon_34) covid_api_down
             noon_34 "daily" false covid_world in
  let o' := cnh.update_news (frozen noon_34) news_api_down
              "Covid COVID-19 coronavirus" news_world in
  raised o = false
  /\ cdh.covid_data (globals_of covid_world)
     = [("data", cdh.Records [a_record (VInt 5)])]
  /\ cdh.covid_data (globals_of (world_of o)) = [("data", cdh.Null)]
  /\ cdh.national_covid_data (globals_of covid_world)
     = [("data", cdh.Records [a_record (VInt 6)])]
  /\ cdh.national_covid_data (globals_of (world_of o)) = [("data", cdh.Null)]
  /\ raised o' = false
  /\ cnh.news (globals_of news_world) = [first_article]
  /\ cnh.news (globals_of (world_of o')) = []
  /\ cnh.formatted_news (globals_of (world_of o'))
     = cnh.formatted_news (globals_of news_world).
Proof. vm_compute. repeat split. Qed.

(** C3 does not hold of the code.  For "54:43", which is no time of day
    and not made of digits, [schedule_news_updates] raises ValueError,
    where [schedule_covid_updates] returns and leaves the world as it
    is. *)
Theorem news_bad_time_raises :
  cnh.schedule_news_updates (frozen noon_34) (a_str "54:43") "bad_HH:MM" false
                            news_world
  = Raises ValueError news_world
  /\ cdh.schedule_covid_updates (frozen noon_34) (a_str "54:43") "bad_HH:MM" false
                                covid_world
     = Returns tt covid_world.
Proof. vm_compute. split; reflexivity. Qed.

(** C4 does not hold of the code.  Scheduled at 12:34:00 with -19, the
    update is recorded with the fire time 12:33:41, 19 seconds before
    now; scheduled with 19, with the fire time 12:34:19; so in both
    modules. *)
Theorem negative_seconds_fire_before_now :
  let fire_time (updates : dict ScheduledUpdate) :=
    option_map update_time (dict_get updates "negative_int") in
  let covid n :=
    fire_time (cdh.scheduled_updates (globals_of (world_of
      (cdh.schedule_covid_updates (frozen noon_34) (an_int n) "negative_int" false
                                  covid_world)))) in
  let news n :=
    fire_time (cnh.scheduled_updates (globals_of (world_of
      (cnh.schedule_news_updates (frozen noon_34) (an_int n) "negative_int" false
                                 news_world)))) in
  covid (-19) = Some (noon_34 - 19 * SECOND)
  /\ covid 19 = Some (noon_34 + 19 * SECOND)
  /\ news (-19) = Some (noon_34 - 19 * SECOND)
  /\ news 19 = Some (noon_34 + 19 * SECOND).
Proof. vm_compute. repeat split. Qed.

(** Against C2 as stated: at 12:34:00 sharp "12:34" is scheduled for
    12:34:00 of the same day, which is now and not after now; when the
    clock passes 12:34:00 between the second reading and the third, the
    update is queued with the delay of minus one microsecond, and its
    event is due before the time at which it is entered; and
    [schedule_news_updates] raises ValueError for "12:34". *)
Lemma hhmm_fire_time_not_after_now :
  (exists w' u,
      cdh.schedule_covid_updates (frozen noon_34) (a_str "12:34") "lunch" false
                                 covid_world = Returns tt w'
      /\ dict_get (cdh.scheduled_updates (globals_of w')) "lunch" = Some u
      /\ ~ noon_34 < update_time u)
  /\ (exists w' u,
      cdh.schedule_covid_updates creeping (a_str "12:34") "lunch" false
                                 covid_world = Returns tt w'
      /\ dict_get (cdh.scheduled_updates (globals_of w')) "lunch" = Some u
      /\ update_time u - clock creeping 2 = -1
      /\ ev_time (event u) = clock creeping 3 + -1)
  /\ cnh.schedule_news_updates (frozen noon_34) (a_str "12:34") "lunch" false
                               news_world
     = Raises ValueError news_world.
Proof.
  split; [|split].
  - do 2 eexists. split; [vm_compute; reflexivity|].
    split; [vm_compute; reflexivity|]. vm_compute. discriminate.
  - do 2 eexists. split; [vm_compute; reflexivity|].
    split; [vm_compute; reflexivity|]. split; vm_compute; reflexivity.
  - vm_compute. reflexivity.
Qed.


(** C6 does not hold of the code.  With two articles titled "Cases fall"
    in the live list, [add_removed_article "Cases fall"] returns and
    records the title, but deletes the first of the two only: the second
    is still in the live list and is shown in the display list.  The next
    [update_news], answered with the same two articles and a third, keeps
    neither of them. *)
Theorem second_article_survives_removal :
  let o := cnh.add_removed_article "Cases fall" twice_world in
  let o' := cnh.update_news (frozen noon_34) news_api_twice
              "Covid COVID-19 coronavirus" (world_of o) in
  titles (globals_of twice_world) = ["Cases fall"; "Cases fall"]
  /\ raised o = false
  /\ cnh.removed_articles (globals_of (world_of o)) = ["Cases fall"]
  /\ cnh.news (globals_of (world_of o)) = [second_article]
  /\ titles (globals_of (world_of o)) = ["Cases fall"]
  /\ map cnh.formatted_title (cnh.formatted_news (globals_of (world_of o)))
     = ["Cases fall"]
  /\ raised o' = false
  /\ cnh.news (globals_of (world_of o')) = [third_article]
  /\ map cnh.formatted_title (cnh.formatted_news (globals_of (world_of o')))
     = ["Vaccines"].
Proof. vm_compute. repeat split. Qed.

(** Against C8 as stated: scheduling under the name "daily", which is in
    use, raises OverflowError in the data module for a number of seconds
    that leads beyond the last day of [datetime], and ValueError in the
    news module for "12:34". *)
Lemma duplicate_name_call_raises :
  dict_in "daily" (cdh.scheduled_updates (globals_of covid_world)) = true
  /\ (exists w',
        cdh.schedule_covid_updates (frozen noon_34) (an_int 10000000000000)
                                   "daily" false covid_world
        = Raises OverflowError w')
  /\ dict_in "daily" (cnh.scheduled_updates (globals_of news_world)) = true
  /\ cnh.schedule_news_updates (frozen noon_34) (a_str "12:34") "daily" false
                               news_world
     = Raises ValueError news_world.
Proof.
  split; [reflexivity|]. split; [eexists; vm_compute; reflexivity|].
  split; [reflexivity|]. vm_compute. reflexivity.
Qed.

(** Against C9 as stated: no record reports hospital cases, yet the call
    raises TypeError, for the second record reports no new cases; and a
    record that lacks the statistics raises KeyError. *)
Lemma unreported_statistic_raises :
  all_empty "hospital_cases" gap_records = true
  /\ cdh.process_covid_csv_data gap_records = throw TypeError
  /\ cdh.process_covid_csv_data bare_records = throw KeyError.
Proof. vm_compute. repeat split. Qed.
End Scenes.

(** * The theorems at work *)

Section Witnesses.
Import py intervals notions scenes.

(** With a clock that passes 12:34:00 during the call, "12:34" is
    scheduled for today. *)
Lemma hhmm_fire_time_witness :
  wall_clock "12:34" 12 34
  /\ 0 <= clock creeping 0 < DATETIME_END - DAY
  /\ hour (occurrence (clock creeping 0) (clock creeping 1) 12 34) = 12
  /\ exists w',
      cdh.schedule_covid_updates creeping (a_str "12:34") "lunch"
                                 false covid_world = Returns tt w'.
Proof.
  assert (H : wall_clock "12:34" 12 34).
  { split; [lia|]. split; [lia|]. left. reflexivity. }
  assert (Hrange : 0 <= clock creeping 0 < DATETIME_END - DAY).
  { split; [apply Z.leb_le | apply Z.ltb_lt]; reflexivity. }
  split; [exact H|]. split; [exact Hrange|].
  destruct (hhmm_fire_time creeping covid_world "12:34" 12 34 "lunch" false H Hrange)
    as (Hhour & _ & _ & _ & _ & w' & Hw' & _).
  split; [exact Hhour|]. exists w'. exact Hw'.
Defined.


(** The one article shown is removed; the API returns it again, first
    in a fetch that the scheduler triggers and then in one more, and it
    stays away. *)
Lemma removed_article_stays_away_witness :
  let w1 := world_of (cnh.add_removed_article "Cases fall" news_world) in
  let w2 := run_calls (frozen noon_34) news_api_up
              [do_sch_update_news noon_34 "daily" true] w1 in
  ~ In "Cases fall" (titles (globals_of w1))
  /\ ~ In "Cases fall"
       (titles (globals_of (world_of
          (cnh.update_news (frozen noon_34) news_api_up "Covid" w2)))).
Proof.
  intros w1 w2.
  destruct (removed_article_stays_away (frozen noon_34) news_api_up news_world
              "Cases fall") as (_ & _ & Hgone & _ & Hlater).
  split.
  - apply Hgone. vm_compute. auto.
  - apply (Hlater [do_sch_update_news noon_34 "daily" true] "Covid"
                  (cnh.mkJson "ok" [first_article; third_article])).
    reflexivity.
Defined.

(** Scheduling once more under the name "daily" changes nothing and
    returns. *)
Lemma duplicate_name_registers_nothing_witness :
  (dict_in "daily" (cdh.scheduled_updates (globals_of covid_world)) = true
   /\ globals_of (world_of (cdh.schedule_covid_updates (frozen noon_34) (an_int 60)
                              "daily" false covid_world))
      = globals_of covid_world
   /\ raised (cdh.schedule_covid_updates (frozen noon_34) (an_int 60)
                "daily" false covid_world) = false)
  /\ (dict_in "daily" (cnh.scheduled_updates (globals_of news_world)) = true
   /\ globals_of (world_of (cnh.schedule_news_updates (frozen noon_34) (an_int 60)
                              "daily" false news_world))
      = globals_of news_world
   /\ raised (cnh.schedule_news_updates (frozen noon_34) (an_int 60)
                "daily" false news_world) = false).
Proof.
  split.
  - destruct (proj1 duplicate_name_registers_nothing (frozen noon_34) covid_world
                (an_int 60) "daily" false eq_refl) as ((_ & _ & Hg) & _ & Hr).
    split; [reflexivity|]. split; [exact Hg|].
    apply (Hr 60); reflexivity.
  - destruct (proj2 duplicate_name_registers_nothing (frozen noon_34) news_world
                (an_int 60) "daily" false eq_refl) as ((_ & _ & Hg) & _ & Hr).
    split; [reflexivity|]. split; [exact Hg|].
    apply (Hr 60); reflexivity.
Defined.

(** A record that reports none of the three statistics. *)
Lemma missing_statistic_is_NA_witness :
  all_empty "new_cases" [a_record VNone] = true
  /\ all_empty "hospital_cases" [a_record VNone] = true
  /\ all_empty "cum_deaths" [a_record VNone] = true
  /\ cdh.process_covid_csv_data [a_record VNone] = ok (cdh.NA, cdh.NA, cdh.NA)
  /\ cdh.process_covid_csv_data [a_record (VInt 5); a_record (VInt 6)]
     = ok (VInt 6, cdh.NA, cdh.NA).
Proof.
  split; [reflexivity|]. split; [reflexivity|]. split; [reflexivity|]. split.
  - apply (proj2 (proj2 (proj2 (missing_statistic_is_NA [a_record VNone]))));
      reflexivity.
  - rewrite (proj1 (proj2 (missing_statistic_is_NA
                             [a_record (VInt 5); a_record (VInt 6)])) eq_refl).
    reflexivity.
Defined.

(** The name "A" of both registries is shown with the time and the
    repeat flag of the data registry. *)
Lemma collate_prefers_covid_entry_witness :
  dict_get data_registry "A" = Some data_A
  /\ dict_get news_registry "A" = Some news_A
  /\ exists m,
      dashboard.collate_update_lists data_registry news_registry = ok m
      /\ dict_get m "A" = Some (dashboard.mkMerged true true (10 * HOUR) false).
Proof.
  split; [reflexivity|]. split; [reflexivity|].
  apply (collate_prefers_covid_entry data_registry news_registry "A" data_A news_A);
    reflexivity.
Defined.
End Witnesses.


(** * More of the two modules *)

(** ** Queues *)

Section QueueFacts.
Import py notions.
Implicit Types (e : Event) (q : list Event).

Lemma action_eqb_eq a b : action_eqb a b = true <-> a = b.
Proof. destruct a, b; simpl; split; congruence. Qed.

Lemma argument_eqb_eq a b : argument_eqb a b = true <-> a = b.
Proof.
  destruct a as [[t n] r], b as [[t' n'] r']. unfold argument_eqb.
  rewrite !andb_true_iff, Z.eqb_eq, String.eqb_eq, Bool.eqb_true_iff.
  split; [intros [[-> ->] ->]; reflexivity | intros [= -> -> ->]; auto].
Qed.

Lemma event_eqb_eq e e' : event_eqb e e' = true <-> e = e'.
Proof.
  unfold event_eqb.
  rewrite !andb_true_iff, !Z.eqb_eq, Nat.eqb_eq, action_eqb_eq, argument_eqb_eq.
  destruct e, e'; simpl. split.
  - intros [[[[-> ->] ->] ->] ->]. reflexivity.
  - intros [= -> -> -> -> ->]. auto.
Qed.

Lemma event_eqb_refl e : event_eqb e e = true.
Proof. now apply event_eqb_eq. Qed.

Lemma existsb_event_In e q : existsb (event_eqb e) q = true <-> In e q.
Proof.
  rewrite existsb_exists. split.
  - intros [x [Hx Heq]]. apply event_eqb_eq in Heq. now subst.
  - intros H. exists e. split; [exact H | apply event_eqb_refl].
Qed.

Lemma queue_without_incl e q x : In x (queue_without e q) -> In x q.
Proof.
  induction q as [|e' q IH]; simpl; [tauto|].
  destruct (event_eqb e e'); simpl; tauto.
Qed.

Lemma queue_without_other e q x : In x q -> x <> e -> In x (queue_without e q).
Proof.
  induction q as [|e' q IH]; simpl; [tauto|].
  intros [->|Hin] Hne.
  - destruct (event_eqb e x) eqn:Heq; [|now left].
    apply event_eqb_eq in Heq. congruence.
  - destruct (event_eqb e e'); [exact Hin | right; auto].
Qed.

Lemma queue_without_NoDup e q :
  NoDup (map ev_sequence q) -> NoDup (map ev_sequence (queue_without e q)).
Proof.
  induction q as [|e' q IH]; simpl; [auto|].
  intros H. inversion H as [|? ? Hnot Hq]; subst.
  destruct (event_eqb e e'); [exact Hq|]. simpl. constructor; [|auto].
  intros Hin. apply Hnot. apply in_map_iff in Hin. destruct Hin as [x [Hx Hin]].
  apply in_map_iff. exists x. split; [exact Hx|].
  eapply queue_without_incl; eassumption.
Qed.

(** With different sequence numbers, the event taken out is gone. *)
Lemma queue_without_gone e q :
  NoDup (map ev_sequence q) -> ~ In e (queue_without e q).
Proof.
  induction q as [|e' q IH]; simpl; [tauto|].
  intros H. inversion H as [|? ? Hnot Hq]; subst.
  destruct (event_eqb e e') eqn:Heq.
  - apply event_eqb_eq in Heq. subst e'. intros Hin. apply Hnot.
    now apply in_map.
  - simpl. intros [Hsame|Hin]; [|now apply IH].
    subst e'. rewrite event_eqb_refl in Heq. discriminate.
Qed.

Lemma queue_without_length e q :
  In e q -> S (List.length (queue_without e q)) = List.length q.
Proof.
  induction q as [|e' q IH]; simpl; [tauto|].
  intros Hin. destruct (event_eqb e e') eqn:Heq; [reflexivity|].
  simpl. f_equal. apply IH. destruct Hin as [->|Hin]; [|exact Hin].
  rewrite event_eqb_refl in Heq. discriminate.
Qed.

Lemma least_In q e : least q = Some e -> In e q.
Proof.
  revert e. induction q as [|e' q IH]; simpl; [discriminate|].
  intros e. destruct (least q) as [m|].
  - destruct (event_lt m e'); intros [= <-]; [right; now apply IH | now left].
  - intros [= <-]. now left.
Qed.

Lemma least_None q : least q = None <-> q = [].
Proof.
  destruct q as [|e q]; simpl; [tauto|].
  destruct (least q) as [m|]; [destruct (event_lt m e)|]; split; discriminate.
Qed.
End QueueFacts.

(** ** A registry and a queue that agree *)

Section Agreement.
Import py notions.
Implicit Types (updates : dict ScheduledUpdate) (queue : list Event).

Lemma agree_empty counter : agree [] [] counter.
Proof.
  split; [intros name u; discriminate|].
  split; [intros e []|]. split; [constructor | intros e []].
Qed.

Lemma agree_counter updates queue c c' :
  (c <= c')%nat -> agree updates queue c -> agree updates queue c'.
Proof.
  intros Hle (H1 & H2 & H3 & H4).
  split; [exact H1|]. split; [exact H2|]. split; [exact H3|].
  intros e He. specialize (H4 e He). lia.
Qed.

(** Registering under an unused name, with an event numbered by the
    counter. *)
Lemma agree_register updates queue c name t p act u r :
  agree updates queue c ->
  dict_in name updates = false ->
  let ev := mkEvent t p c act (u, name, r) in
  agree (dict_set updates name (mkUpdate ev u r)) (queue ++ [ev]) (S c).
Proof.
  intros (H1 & H2 & H3 & H4) Hfresh ev. apply dict_in_false in Hfresh.
  split; [|split; [|split]].
  - intros name' u'. rewrite dict_get_set.
    destruct (String.eqb_spec name' name) as [->|Hne].
    + intros [= <-]. simpl. split; [|reflexivity].
      apply in_or_app. right. now left.
    + intros Hget. destruct (H1 _ _ Hget) as [Hin Harg].
      split; [apply in_or_app; now left | exact Harg].
  - intros e He. apply in_app_or in He. destruct He as [He|[<-|[]]].
    + destruct (H2 e He) as [u' [Hget Hev]]. exists u'. split; [|exact Hev].
      rewrite dict_get_set_other; [exact Hget|].
      intros Heq. rewrite Heq in Hget. congruence.
    + exists (mkUpdate ev u r). split; [|reflexivity].
      unfold name_of. simpl. apply dict_get_set_same.
  - rewrite map_app. simpl. apply NoDup_app; [exact H3 | repeat constructor; simpl; tauto|].
    intros x Hx [<-|[]]. apply in_map_iff in Hx. destruct Hx as [e [Hseq He]].
    specialize (H4 e He). lia.
  - intros e He. apply in_app_or in He. destruct He as [He|[<-|[]]].
    + specialize (H4 e He). lia.
    + simpl. lia.
Qed.

(** Taking an entry and its event away. *)
Lemma agree_remove updates queue c name u :
  agree updates queue c ->
  dict_get updates name = Some u ->
  agree (dict_remove updates name) (queue_without (event u) queue) c.
Proof.
  intros (H1 & H2 & H3 & H4) Hget.
  destruct (H1 _ _ Hget) as [Hin Harg].
  split; [|split; [|split]].
  - intros name' u'. rewrite dict_get_remove.
    destruct (String.eqb_spec name' name) as [->|Hne]; [discriminate|].
    intros Hget'. destruct (H1 _ _ Hget') as [Hin' Harg'].
    split; [|exact Harg']. apply queue_without_other; [exact Hin'|].
    intros Heq. rewrite Heq, Harg in Harg'. congruence.
  - intros e He. pose proof (queue_without_incl _ _ _ He) as Hq.
    destruct (H2 e Hq) as [u' [Hget' Hev]]. exists u'. split; [|exact Hev].
    rewrite dict_get_remove.
    destruct (String.eqb_spec (name_of e) name) as [Heq|Hne]; [|exact Hget'].
    rewrite Heq, Hget in Hget'. injection Hget' as <-. subst e.
    exfalso. revert He. now apply queue_without_gone.
  - now apply queue_without_NoDup.
  - intros e He. apply H4. eapply queue_without_incl; eassumption.
Qed.

(** The event of an entry is in the queue, and the entry under the name
    of an event of the queue holds that event. *)
Lemma agree_event_in updates queue c name u :
  agree updates queue c -> dict_get updates name = Some u ->
  existsb (event_eqb (event u)) queue = true.
Proof.
  intros (H1 & _) Hget. apply existsb_event_In. now apply (H1 name u).
Qed.

Lemma agree_entry_of updates queue c e :
  agree updates queue c -> In e queue ->
  exists u, dict_get updates (name_of e) = Some u /\ event u = e
            /\ ev_argument e = (update_time u, name_of e, repeat u).
Proof.
  intros (H1 & H2 & _) He. destruct (H2 e He) as [u [Hget Hev]].
  exists u. split; [exact Hget|]. split; [exact Hev|].
  destruct (H1 _ _ Hget) as [_ Harg]. now rewrite Hev in Harg.
Qed.
End Agreement.

(** ** Properties kept by a computation *)

Section Keeping.
Import py notions.
Context {G : Type} (I : World G -> Prop).

Lemma keeps_ret {A : Type} (a : A) : keeps I (ret a).
Proof. intros w Hw. exact Hw. Qed.

Lemma keeps_raise {A : Type} (e : exn) : keeps I (raise (A := A) e).
Proof. intros w Hw. exact Hw. Qed.

Lemma keeps_lift {A : Type} (r : result A) : keeps I (lift r).
Proof. intros w Hw. destruct r; exact Hw. Qed.

Lemma keeps_get : keeps I get_globals.
Proof. intros w Hw. exact Hw. Qed.

Lemma keeps_bind {A B : Type} (m : M G A) (k : A -> M G B) :
  keeps I m -> (forall a, keeps I (k a)) -> keeps I (bind m k).
Proof.
  intros Hm Hk w Hw. unfold bind. specialize (Hm w Hw).
  destruct (m w) as [a w'|e w']; simpl in *; [now apply Hk | exact Hm].
Qed.

Lemma keeps_if {A : Type} (b : bool) (m1 m2 : M G A) :
  keeps I m1 -> keeps I m2 -> keeps I (if b then m1 else m2).
Proof. now destruct b. Qed.

(** A property that does not look at the count of clock observations is
    kept by what only observes the clock. *)
Lemma keeps_quiet {A : Type} (m : M G A) :
  (forall w w', same_but_clock w w' -> I w -> I w') ->
  quiet m -> keeps I m.
Proof. intros HI Hm w Hw. exact (HI _ _ (Hm w) Hw). Qed.

Lemma keeps_update_then {B : Type} (f : G -> G) (k : unit -> M G B) :
  (forall w, I w -> I (with_globals w (f (globals_of w)))) ->
  keeps I (k tt) ->
  keeps I (bind get_globals (fun g => bind (set_globals (f g)) k)).
Proof.
  intros Hf Hk w Hw. unfold bind, get_globals, set_globals.
  apply Hk, Hf, Hw.
Qed.

Lemma keeps_update (f : G -> G) :
  (forall w, I w -> I (with_globals w (f (globals_of w)))) ->
  keeps I (bind get_globals (fun g => set_globals (f g))).
Proof. intros Hf w Hw. apply Hf, Hw. Qed.
End Keeping.

Create HintDb keeps.
#[local] Hint Resolve keeps_ret keeps_raise keeps_lift keeps_get keeps_bind keeps_if
  : keeps.

(** ** The data module's registry and queue *)

Section CovidAgreement.
Import py intervals notions cdh.
Variable out : Outside.
Variable get_json : nat -> list string -> fetch.
Implicit Types (w : World globals).

Lemma cdh_consistent_clock w w' :
  same_but_clock w w' -> cdh_consistent w -> cdh_consistent w'.
Proof. intros (_ & Hs & Hg). unfold cdh_consistent. now rewrite Hs, Hg. Qed.

Lemma cdh_quiet_keeps {A : Type} (m : M globals A) :
  quiet m -> keeps cdh_consistent m.
Proof. apply keeps_quiet. exact cdh_consistent_clock. Qed.

Lemma cdh_register_keeps times name r :
  keeps cdh_consistent (register out times name r).
Proof.
  intros w Hw. destruct times as [[delay fire]|]; simpl; [|exact Hw].
  unfold bind, get_globals.
  destruct (dict_in name (scheduled_updates (globals_of w))) eqn:Hin; simpl;
    [exact Hw|].
  unfold cdh_consistent. simpl. now apply agree_register.
Qed.

Lemma cdh_schedule_keeps ui name r :
  keeps cdh_consistent (schedule_covid_updates out ui name r).
Proof.
  unfold schedule_covid_updates. apply keeps_bind.
  - apply cdh_quiet_keeps, cdh_parse_str_quiet.
  - intros [[ui' times]|]; [|apply keeps_ret].
    apply keeps_bind; [apply cdh_quiet_keeps, parse_datetime_quiet|]. intros times1.
    apply keeps_bind; [apply cdh_quiet_keeps, parse_int_quiet|]. intros times2.
    apply cdh_register_keeps.
Qed.

Lemma cdh_request_keeps location location_type :
  keeps cdh_consistent (covid_API_request out get_json location location_type).
Proof.
  unfold covid_API_request. apply keeps_bind.
  - intros w Hw. exact Hw.
  - intros k. pose proof cdh_schedule_keeps.
    destruct (get_json k _); auto with keeps.
Qed.

Lemma cdh_refresh_keeps : keeps cdh_consistent (refresh out get_json).
Proof.
  pose proof cdh_request_keeps as Hreq.
  unfold refresh. apply keeps_bind; [apply keeps_get|]. intros g.
  apply keeps_bind; [auto 6 with keeps|]. intros api_response.
  apply keeps_bind; [auto with keeps|]. intros national_api_response.
  apply keeps_bind; [|intros _];
    (apply keeps_if; [|apply keeps_ret]; apply keeps_update; intros w Hw; exact Hw).
Qed.

Lemma cdh_rearm_keeps u name r : keeps cdh_consistent (rearm out u name r).
Proof.
  unfold rearm. pose proof cdh_schedule_keeps. destruct r; auto with keeps.
Qed.

(** While the registry and the queue agree, cancelling does not raise, and
    they agree afterwards. *)
Lemma cdh_cancel_keeps name w :
  cdh_consistent w ->
  raised (cancel_scheduled_update name w) = false
  /\ cdh_consistent (world_of (cancel_scheduled_update name w)).
Proof.
  intros Hw. unfold cancel_scheduled_update, bind, get_globals.
  unfold dict_in, dict_item.
  destruct (dict_get (scheduled_updates (globals_of w)) name) as [u|] eqn:Hget;
    [|split; [reflexivity | exact Hw]].
  simpl. unfold queue_remove.
  rewrite (agree_event_in _ _ _ _ _ Hw Hget). simpl.
  unfold dict_del, dict_in. simpl. rewrite Hget. simpl.
  split; [reflexivity|]. unfold cdh_consistent. simpl.
  now apply agree_remove.
Qed.

(** Taking the event of a round of [scheduler.run] off the queue and
    calling the callback with its arguments. *)
Lemma cdh_fire_keeps e w :
  cdh_consistent w ->
  In e (scheduler (globals_of w)) ->
  cdh_consistent
    (world_of
       ((let '(update_time, update_name, repeat) := ev_argument e in
         sch_update_covid_data out get_json update_time update_name repeat)
          (with_globals w
             (with_scheduler (globals_of w)
                (queue_without e (scheduler (globals_of w))))))).
Proof.
  intros Hw He.
  destruct (agree_entry_of _ _ _ _ Hw He) as (u & Hget & Hev & Harg).
  rewrite Harg. unfold sch_update_covid_data. unfold bind at 1.
  unfold forget, bind, get_globals, dict_del, dict_in. simpl. rewrite Hget. simpl.
  match goal with
  | |- cdh_consistent (world_of (match ?m ?w1 with _ => _ end)) =>
      assert (H1 : cdh_consistent w1)
  end.
  { unfold cdh_consistent. simpl. subst e. now apply agree_remove. }
  pose proof (cdh_refresh_keeps _ H1) as H2.
  destruct (refresh out get_json _) as [[] w2|e2 w2]; simpl in *; [|exact H2].
  now apply cdh_rearm_keeps.
Qed.

Lemma cdh_run_keeps rounds : keeps cdh_consistent (scheduler_run out get_json rounds).
Proof.
  induction rounds as [|rounds IH]; intros w Hw; simpl; [exact Hw|].
  unfold bind at 1. unfold get_globals at 1. cbv beta iota.
  destruct (least (scheduler (globals_of w))) as [first|] eqn:Hleast; [|exact Hw].
  apply least_In in Hleast. unfold bind at 1. unfold now at 1. cbv beta iota.
  destruct (ev_time first >? clock out (clock_reads w)).
  - now apply (cdh_consistent_clock w); [apply same_but_clock_ticked|].
  - unfold bind at 1. unfold set_globals at 1. cbv beta iota.
    unfold bind at 1.
    assert (Hticked : cdh_consistent (ticked w))
      by (now apply (cdh_consistent_clock w); [apply same_but_clock_ticked|]).
    pose proof (cdh_fire_keeps first (ticked w) Hticked Hleast) as Hfire.
    match goal with
    | |- context [match ?m with Returns _ _ => _ | Raises _ _ => _ end] =>
        change (cdh_consistent (world_of m)) in Hfire;
        destruct m as [[] w1|e1 w1]
    end; simpl in Hfire.
    + apply IH. exact Hfire.
    + exact Hfire.
Qed.

Lemma cdh_serve_keeps r w :
  cdh_consistent w -> cdh_consistent (serve_covid out get_json r w).
Proof.
  intros Hw. destruct r; simpl.
  - now apply cdh_schedule_keeps.
  - now apply cdh_cancel_keeps.
  - now apply cdh_run_keeps.
  - now apply cdh_request_keeps.
Qed.

Lemma cdh_serve_all_keeps requests w :
  cdh_consistent w -> cdh_consistent (serve_covid_all out get_json requests w).
Proof.
  revert w. induction requests as [|r requests IH]; intros w Hw; [exact Hw|].
  apply IH. now apply cdh_serve_keeps.
Qed.

Lemma cdh_start_consistent w :
  scheduled_updates (globals_of w) = [] -> scheduler (globals_of w) = [] ->
  cdh_consistent w.
Proof. intros Hu Hq. unfold cdh_consistent. rewrite Hu, Hq. apply agree_empty. Qed.
End CovidAgreement.

(** ** The news module's registry and queue *)

Section NewsAgreement.
Import py intervals notions cnh.
Variable out : Outside.
Variable requests_get : nat -> string -> fetch.
Implicit Types (w : World globals).

(** The agreement looks at the registry, the queue and the counter only. *)
Lemma cnh_consistent_same w w' :
  sequence w' = sequence w ->
  scheduler (globals_of w') = scheduler (globals_of w) ->
  scheduled_updates (globals_of w') = scheduled_updates (globals_of w) ->
  cnh_consistent w -> cnh_consistent w'.
Proof. intros Hs Hq Hu. unfold cnh_consistent. now rewrite Hs, Hq, Hu. Qed.

Lemma cnh_consistent_clock w w' :
  same_but_clock w w' -> cnh_consistent w -> cnh_consistent w'.
Proof. intros (_ & Hs & Hg). unfold cnh_consistent. now rewrite Hs, Hg. Qed.

Lemma cnh_quiet_keeps {A : Type} (m : M globals A) :
  quiet m -> keeps cnh_consistent m.
Proof. apply keeps_quiet. exact cnh_consistent_clock. Qed.

Lemma cnh_register_keeps times name r :
  keeps cnh_consistent (register out times name r).
Proof.
  intros w Hw. destruct times as [[delay fire]|]; simpl; [|exact Hw].
  unfold bind, get_globals.
  destruct (dict_in name (scheduled_updates (globals_of w))) eqn:Hin; simpl;
    [exact Hw|].
  unfold cnh_consistent. simpl. now apply agree_register.
Qed.

Lemma cnh_schedule_keeps ui name r :
  keeps cnh_consistent (schedule_news_updates out ui name r).
Proof.
  unfold schedule_news_updates. apply keeps_bind.
  - apply cnh_quiet_keeps, cnh_parse_str_quiet.
  - intros [[ui' times]|]; [|apply keeps_ret].
    apply keeps_bind; [apply cnh_quiet_keeps, parse_datetime_quiet|]. intros times1.
    apply keeps_bind; [apply cnh_quiet_keeps, parse_int_quiet|]. intros times2.
    apply cnh_register_keeps.
Qed.

Lemma cnh_request_keeps terms :
  keeps cnh_consistent (news_API_request out requests_get terms).
Proof.
  unfold news_API_request. apply keeps_bind; [apply keeps_get|]. intros g.
  apply keeps_bind.
  - intros w Hw. exact Hw.
  - intros k. pose proof cnh_schedule_keeps.
    destruct (requests_get k _); auto with keeps.
Qed.

Lemma cnh_keep_articles_keeps l : keeps cnh_consistent (keep_articles l).
Proof.
  induction l as [|article rest IH]; intros w Hw; simpl; [exact Hw|].
  unfold bind at 1. unfold get_globals at 1. cbv beta iota.
  unfold bind. destruct (negb _); simpl; apply IH; [|exact Hw].
  now apply (cnh_consistent_same w).
Qed.

Lemma cnh_format_all_keeps l : keeps cnh_consistent (format_all l).
Proof.
  induction l as [|article rest IH]; intros w Hw; simpl; [exact Hw|].
  unfold bind at 1. destruct (format_article article) as [e|entry]; simpl; [exact Hw|].
  unfold bind, get_globals, set_globals. apply IH.
  now apply (cnh_consistent_same w).
Qed.

Lemma cnh_news_formatter_keeps : keeps cnh_consistent news_formatter.
Proof.
  intros w Hw. unfold news_formatter, bind, get_globals, set_globals.
  apply cnh_format_all_keeps. now apply (cnh_consistent_same w).
Qed.

Lemma cnh_update_news_keeps terms :
  keeps cnh_consistent (update_news out requests_get terms).
Proof.
  unfold update_news. apply keeps_bind; [apply cnh_request_keeps|].
  intros api_response. apply keeps_update_then.
  - intros w Hw. now apply (cnh_consistent_same w).
  - pose proof cnh_keep_articles_keeps. pose proof cnh_news_formatter_keeps.
    destruct api_response as [response|]; [|apply keeps_ret].
    destruct (negb _); auto with keeps.
Qed.

Lemma cnh_add_removed_article_keeps t :
  keeps cnh_consistent (add_removed_article t).
Proof.
  intros w Hw. unfold add_removed_article, bind, get_globals, set_globals.
  destruct (title_in t _); simpl; apply cnh_news_formatter_keeps;
    now apply (cnh_consistent_same w).
Qed.

Lemma cnh_rearm_keeps u name r : keeps cnh_consistent (rearm out u name r).
Proof.
  unfold rearm. pose proof cnh_schedule_keeps. destruct r; auto with keeps.
Qed.

(** While the registry and the queue agree, cancelling does not raise, and
    they agree afterwards. *)
Lemma cnh_cancel_keeps name w :
  cnh_consistent w ->
  raised (cancel_scheduled_update name w) = false
  /\ cnh_consistent (world_of (cancel_scheduled_update name w)).
Proof.
  intros Hw. unfold cancel_scheduled_update, bind, get_globals.
  unfold dict_in, dict_item.
  destruct (dict_get (scheduled_updates (globals_of w)) name) as [u|] eqn:Hget;
    [|split; [reflexivity | exact Hw]].
  simpl. unfold queue_remove.
  rewrite (agree_event_in _ _ _ _ _ Hw Hget). simpl.
  unfold dict_del, dict_in. simpl. rewrite Hget. simpl.
  split; [reflexivity|]. unfold cnh_consistent. simpl.
  now apply agree_remove.
Qed.

Lemma cnh_fire_keeps e w :
  cnh_consistent w ->
  In e (scheduler (globals_of w)) ->
  cnh_consistent
    (world_of
       ((let '(update_time, update_name, repeat) := ev_argument e in
         sch_update_news out requests_get update_time update_name repeat)
          (with_globals w
             (with_scheduler (globals_of w)
                (queue_without e (scheduler (globals_of w))))))).
Proof.
  intros Hw He.
  destruct (agree_entry_of _ _ _ _ Hw He) as (u & Hget & Hev & Harg).
  rewrite Harg. unfold sch_update_news. unfold bind at 1.
  unfold forget, bind, get_globals, dict_del, dict_in. simpl. rewrite Hget. simpl.
  match goal with
  | |- cnh_consistent (world_of (match ?m ?w1 with _ => _ end)) =>
      assert (H1 : cnh_consistent w1)
  end.
  { unfold cnh_consistent. simpl. subst e. now apply agree_remove. }
  pose proof (cnh_update_news_keeps "Covid COVID-19 coronavirus" _ H1) as H2.
  destruct (update_news out requests_get _ _) as [[] w2|e2 w2]; simpl in *; [|exact H2].
  now apply cnh_rearm_keeps.
Qed.

Lemma cnh_run_keeps rounds :
  keeps cnh_consistent (scheduler_run out requests_get rounds).
Proof.
  induction rounds as [|rounds IH]; intros w Hw; simpl; [exact Hw|].
  unfold bind at 1. unfold get_globals at 1. cbv beta iota.
  destruct (least (scheduler (globals_of w))) as [first|] eqn:Hleast; [|exact Hw].
  apply least_In in Hleast. unfold bind at 1. unfold now at 1. cbv beta iota.
  destruct (ev_time first >? clock out (clock_reads w)).
  - now apply (cnh_consistent_clock w); [apply same_but_clock_ticked|].
  - unfold bind at 1. unfold set_globals at 1. cbv beta iota.
    unfold bind at 1.
    assert (Hticked : cnh_consistent (ticked w))
      by (now apply (cnh_consistent_clock w); [apply same_but_clock_ticked|]).
    pose proof (cnh_fire_keeps first (ticked w) Hticked Hleast) as Hfire.
    match goal with
    | |- context [match ?m with Returns _ _ => _ | Raises _ _ => _ end] =>
        change (cnh_consistent (world_of m)) in Hfire;
        destruct m as [[] w1|e1 w1]
    end; simpl in Hfire.
    + apply IH. exact Hfire.
    + exact Hfire.
Qed.

Lemma cnh_serve_keeps r w :
  cnh_consistent w -> cnh_consistent (serve_news out requests_get r w).
Proof.
  intros Hw. destruct r; simpl.
  - now apply cnh_schedule_keeps.
  - now apply cnh_cancel_keeps.
  - now apply cnh_run_keeps.
  - now apply cnh_add_removed_article_keeps.
  - now apply cnh_update_news_keeps.
Qed.

Lemma cnh_serve_all_keeps requests w :
  cnh_consistent w -> cnh_consistent (serve_news_all out requests_get requests w).
Proof.
  revert w. induction requests as [|r requests IH]; intros w Hw; [exact Hw|].
  apply IH. now apply cnh_serve_keeps.
Qed.

Lemma cnh_start_consistent w :
  scheduled_updates (globals_of w) = [] -> scheduler (globals_of w) = [] ->
  cnh_consistent w.
Proof. intros Hu Hq. unfold cnh_consistent. rewrite Hu, Hq. apply agree_empty. Qed.
End NewsAgreement.

(** ** Scheduling, cancelling and polling in the data module *)

Section CovidScheduler.
Import py intervals notions cdh.
Variable out : Outside.
Variable get_json : nat -> list string -> fetch.
Implicit Types (w : World globals).

Lemma queue_without_last e (q : list Event) :
  ~ In e q -> queue_without e (q ++ [e]) = q.
Proof.
  induction q as [|e' q IH]; simpl; intros Hnot.
  - now rewrite event_eqb_refl.
  - destruct (event_eqb e e') eqn:Heq.
    + apply event_eqb_eq in Heq. exfalso. apply Hnot. now left.
    + f_equal. apply IH. intros Hin. apply Hnot. now right.
Qed.

Lemma dict_remove_fresh {V : Type} (d : dict V) k :
  dict_in k d = false -> dict_remove d k = d.
Proof.
  unfold dict_in, dict_remove. induction d as [|[k' v'] d IH]; simpl; [reflexivity|].
  destruct (String.eqb k k'); simpl; [discriminate|]. intros H. f_equal. now apply IH.
Qed.

Lemma dict_remove_set_fresh {V : Type} (d : dict V) k v :
  dict_in k d = false -> dict_remove (dict_set d k v) k = d.
Proof.
  unfold dict_in, dict_remove. induction d as [|[k' v'] d IH]; simpl.
  - now rewrite String.eqb_refl.
  - destruct (String.eqb k k') eqn:Hk; simpl; [discriminate|].
    rewrite Hk. simpl. intros H. f_equal. now apply IH.
Qed.

(** What cancelling does while the registry and the queue agree. *)
Lemma cdh_cancel_eq name w :
  cdh_consistent w ->
  cancel_scheduled_update name w =
    Returns tt
      match dict_get (scheduled_updates (globals_of w)) name with
      | Some u =>
          with_globals w
            (with_scheduled_updates
               (with_scheduler (globals_of w)
                  (queue_without (event u) (scheduler (globals_of w))))
               (dict_remove (scheduled_updates (globals_of w)) name))
      | None => w
      end.
Proof.
  intros Hw. unfold cancel_scheduled_update, bind, get_globals.
  unfold dict_in, dict_item.
  destruct (dict_get (scheduled_updates (globals_of w)) name) as [u|] eqn:Hget;
    [|reflexivity].
  simpl. unfold queue_remove.
  rewrite (agree_event_in _ _ _ _ _ Hw Hget). simpl.
  unfold dict_del, dict_in. simpl. rewrite Hget. reflexivity.
Qed.

(** What a call of [schedule_covid_updates] that returns has done under
    an unused name: nothing, or it has added one entry and its event,
    numbered by the counter. *)
Lemma cdh_schedule_outcome ui name r w w1 :
  dict_in name (scheduled_updates (globals_of w)) = false ->
  schedule_covid_updates out ui name r w = Returns tt w1 ->
  globals_of w1 = globals_of w
  \/ exists ev fire,
       ev_sequence ev = sequence w
       /\ ev_argument ev = (fire, name, r)
       /\ globals_of w1 =
            with_scheduled_updates
              (with_scheduler (globals_of w) (scheduler (globals_of w) ++ [ev]))
              (dict_set (scheduled_updates (globals_of w)) name (mkUpdate ev fire r)).
Proof.
  intros Hfresh. unfold schedule_covid_updates. unfold bind at 1.
  pose proof (cdh_parse_str_quiet out ui w) as Hq1.
  destruct (parse_str out ui w) as [[[ui' times]|] wa|e wa]; simpl in Hq1;
    [| intros [= <-]; left; apply Hq1 | discriminate].
  unfold bind at 1.
  pose proof (parse_datetime_quiet out ui' times wa) as Hq2.
  destruct (parse_datetime out ui' times wa) as [times1 wb|e wb]; simpl in Hq2;
    [|discriminate].
  unfold bind at 1.
  pose proof (parse_int_quiet out ui' times1 wb) as Hq3.
  destruct (parse_int out ui' times1 wb) as [times2 wc|e wc]; simpl in Hq3;
    [|discriminate].
  pose proof (same_but_clock_trans _ _ _ Hq1 (same_but_clock_trans _ _ _ Hq2 Hq3))
    as (_ & Hs & Hg).
  destruct times2 as [[delay fire]|]; [|discriminate].
  rewrite cdh_register_fresh by (now rewrite Hg).
  intros [= <-]. right. simpl. rewrite Hs, Hg. do 2 eexists.
  split; [|split]; [| |reflexivity]; reflexivity.
Qed.

(** The least event is not due after any event of the queue. *)
Lemma least_earliest (q : list Event) m e :
  least q = Some m -> In e q -> ev_time m <= ev_time e.
Proof.
  revert m. induction q as [|e' q IH]; simpl; [discriminate|].
  intros m Hm He.
  destruct (least q) as [m'|] eqn:Hq.
  - assert (Hm' : In e q -> ev_time m' <= ev_time e) by (intros H; now apply IH).
    unfold event_lt in Hm.
    destruct (Z.ltb_spec (ev_time m') (ev_time e')) as [Hlt|Hge];
      destruct (Z.eqb_spec (ev_time m') (ev_time e')) as [Heq|Hne];
      simpl in Hm;
      try (destruct ((ev_priority m' <? ev_priority e')
                     || (ev_priority m' =? ev_priority e')
                        && Nat.ltb (ev_sequence m') (ev_sequence e'))%bool);
      injection Hm as <-; destruct He as [<-|He]; try lia;
      specialize (Hm' He); lia.
  - injection Hm as <-. apply least_None in Hq. subst q.
    destruct He as [<-|[]]. lia.
Qed.

(** X1: From the data module as it is when imported, with no update
    registered and an empty scheduler queue, whatever the dashboard asks of
    it and in whatever order (scheduling, cancelling, polling the scheduler
    with the callbacks it runs, requesting data), with any clock and any
    answers of the API, the registry and the queue agree afterwards: every
    registered update holds an event of the queue that carries its name,
    fire time and repeat flag; every queued event is held by the entry
    under its name; and no two queued events have the same number. *)
Theorem covid_registry_matches_queue requests w :
  scheduled_updates (globals_of w) = [] ->
  scheduler (globals_of w) = [] ->
  let w' := serve_covid_all out get_json requests w in
  let updates := scheduled_updates (globals_of w') in
  let queue := scheduler (globals_of w') in
  (forall name u,
      dict_get updates name = Some u ->
      In (event u) queue /\ ev_argument (event u) = (update_time u, name, repeat u))
  /\ (forall e, In e queue ->
        exists u, dict_get updates (name_of e) = Some u /\ event u = e)
  /\ NoDup (map ev_sequence queue).
Proof.
  intros Hu Hq w' updates queue.
  destruct (cdh_serve_all_keeps out get_json requests w (cdh_start_consistent w Hu Hq))
    as (H1 & H2 & H3 & _).
  split; [exact H1|]. split; [exact H2 | exact H3].
Qed.

(** X2: After any such sequence of requests, [cancel_scheduled_update]
    returns for every name, without the ValueError of [scheduler.cancel]
    or the KeyError of [del]; afterwards the name is not registered, no
    queued event carries it, and the entries under the other names are as
    before. *)
Theorem covid_cancel_takes_update_away requests name w :
  scheduled_updates (globals_of w) = [] ->
  scheduler (globals_of w) = [] ->
  let w1 := serve_covid_all out get_json requests w in
  exists w2,
    cancel_scheduled_update name w1 = Returns tt w2
    /\ dict_in name (scheduled_updates (globals_of w2)) = false
    /\ (forall e, In e (scheduler (globals_of w2)) -> name_of e <> name)
    /\ (forall x, x <> name ->
          dict_get (scheduled_updates (globals_of w2)) x
          = dict_get (scheduled_updates (globals_of w1)) x).
Proof.
  intros Hu Hq w1.
  pose proof (cdh_serve_all_keeps out get_json requests w (cdh_start_consistent w Hu Hq))
    as Hw1. fold w1 in Hw1.
  pose proof (cdh_cancel_keeps name w1 Hw1) as [_ Hw2].
  rewrite (cdh_cancel_eq name w1 Hw1) in *. simpl in Hw2.
  eexists. split; [reflexivity|].
  assert (Hgone : dict_in name
            (scheduled_updates (globals_of
               match dict_get (scheduled_updates (globals_of w1)) name with
               | Some u =>
                   with_globals w1
                     (with_scheduled_updates
                        (with_scheduler (globals_of w1)
                           (queue_without (event u) (scheduler (globals_of w1))))
                        (dict_remove (scheduled_updates (globals_of w1)) name))
               | None => w1
               end)) = false).
  { destruct (dict_get (scheduled_updates (globals_of w1)) name) eqn:Hget; simpl.
    - apply dict_in_remove_same.
    - now apply dict_in_false. }
  split; [exact Hgone|]. split.
  - intros e He Hname. destruct Hw2 as (_ & H2 & _).
    destruct (H2 e He) as [u [Hget _]]. rewrite Hname in Hget.
    apply dict_in_false in Hgone. congruence.
  - intros x Hx.
    destruct (dict_get (scheduled_updates (globals_of w1)) name); simpl; [|reflexivity].
    rewrite dict_get_remove. destruct (String.eqb_spec x name); [contradiction|].
    reflexivity.
Qed.

(** X3: Scheduling an update under an unused name and cancelling it again
    leaves the globals of the module as they were, the registry and the
    queue included, for every kind of interval; the cancellation does not
    raise.  This holds in any state in which the registry and the queue
    agree. *)
Theorem covid_schedule_then_cancel ui name r w w1 :
  cdh_consistent w ->
  dict_in name (scheduled_updates (globals_of w)) = false ->
  schedule_covid_updates out ui name r w = Returns tt w1 ->
  exists w2,
    cancel_scheduled_update name w1 = Returns tt w2
    /\ globals_of w2 = globals_of w.
Proof.
  intros Hw Hfresh Hsch.
  pose proof (cdh_schedule_keeps out ui name r w Hw) as Hw1.
  rewrite Hsch in Hw1. simpl in Hw1.
  rewrite (cdh_cancel_eq name w1 Hw1). eexists. split; [reflexivity|].
  destruct (cdh_schedule_outcome ui name r w w1 Hfresh Hsch)
    as [Hsame|(ev & fire & Hseq & Harg & Hg)].
  - rewrite Hsame. apply dict_in_false in Hfresh. now rewrite Hfresh.
  - rewrite Hg. simpl. rewrite dict_get_set_same. simpl.
    rewrite queue_without_last, dict_remove_set_fresh by
      (try exact Hfresh;
       intros Hin; destruct Hw as (_ & _ & _ & H4); specialize (H4 ev Hin); lia).
    now destruct (globals_of w).
Qed.

(** X4: What a poll of the scheduler answers.  When [scheduler.run]
    returns [None] the queue is empty.  When it returns a delay, the delay
    is positive, no event of the queue is due earlier than that delay after
    the clock reading the poll made last, and one event of the queue is due
    exactly then: nothing that is due is left waiting. *)
Theorem covid_poll_answer rounds w :
  match scheduler_run out get_json rounds w with
  | Returns queue_empty w' => scheduler (globals_of w') = []
  | Returns (next_in delay) w' =>
      0 < delay
      /\ (exists e, In e (scheduler (globals_of w'))
                    /\ ev_time e = last_reading out w' + delay)
      /\ (forall e, In e (scheduler (globals_of w')) ->
                    last_reading out w' + delay <= ev_time e)
  | Returns rounds_used_up _ => True
  | Raises _ _ => True
  end.
Proof.
  revert w. induction rounds as [|rounds IH]; intros w; simpl; [exact I|].
  unfold bind at 1. unfold get_globals at 1. cbv beta iota.
  destruct (least (scheduler (globals_of w))) as [first|] eqn:Hleast.
  - unfold bind at 1. unfold now at 1. cbv beta iota.
    destruct (Z.gtb_spec (ev_time first) (clock out (clock_reads w))) as [Hgt|Hle].
    + unfold ret, last_reading. simpl. split; [lia|]. split.
      * exists first. split; [now apply least_In | lia].
      * intros e He. pose proof (least_earliest _ _ _ Hleast He). lia.
    + unfold bind at 1. unfold set_globals at 1. cbv beta iota.
      unfold bind at 1.
      match goal with
      | |- match (match ?m with Returns _ _ => _ | Raises _ _ => _ end) with
           | Returns _ _ => _ | Raises _ _ => _ end =>
          destruct m as [[] w1|e1 w1]
      end; [apply IH | exact I].
  - unfold ret. now apply least_None.
Qed.

(** X5: An update that does not repeat is forgotten by its callback:
    whatever the callback's outcome, and whatever the API answers, no
    entry is registered under its name afterwards, unless the name is the
    one the module uses for its own retries. *)
Theorem one_off_covid_update_is_forgotten t name w :
  name <> "API Retry" ->
  dict_in name
    (scheduled_updates
       (globals_of (world_of (sch_update_covid_data out get_json t name false w))))
  = false.
Proof.
  intros Hname. unfold sch_update_covid_data. unfold bind at 1.
  unfold forget, bind at 1, get_globals at 1, dict_del, dict_in. cbv beta iota.
  destruct (dict_get (scheduled_updates (globals_of w)) name) as [u|] eqn:Hget;
    simpl; [|now rewrite Hget].
  unfold bind at 1.
  match goal with
  | |- context [refresh out get_json ?w1] =>
      pose proof (cdh_refresh_elsewhere out get_json w1 name Hname) as Hrefresh;
      destruct (refresh out get_json w1) as [[] w2|e2 w2]
  end; simpl in *; rewrite Hrefresh, dict_get_remove, String.eqb_refl; reflexivity.
Qed.

(** X6: A request that the API fails, with FailedRequestError or
    ConnectionError, returns [{"data": None}] and leaves a retry armed.  If no update is registered as "API Retry", one is
    registered that does not repeat, with the fire time 30 seconds after
    the clock reading of the call and an event due 30 seconds after the
    next reading; if there is one already, the globals stay as they are. *)
Theorem failed_covid_request_arms_a_retry location location_type w :
  (forall filters, covid_failure (get_json (api_calls w) filters) = true) ->
  in_range (clock out (clock_reads w) + 30 * SECOND) = true ->
  exists w',
    covid_API_request out get_json location location_type w = Returns no_data w'
    /\ globals_of w' =
       match dict_get (scheduled_updates (globals_of w)) "API Retry" with
       | Some _ => globals_of w
       | None =>
           let fire := clock out (clock_reads w) + 30 * SECOND in
           let ev := mkEvent (clock out (S (clock_reads w)) + 30 * SECOND) 1
                             (sequence w) call_sch_update_covid_data
                             (fire, "API Retry", false) in
           with_scheduled_updates
             (with_scheduler (globals_of w) (scheduler (globals_of w) ++ [ev]))
             (dict_set (scheduled_updates (globals_of w)) "API Retry"
                       (mkUpdate ev fire false))
       end.
Proof.
  intros Hdown Hrange.
  assert (Hsch : forall w0,
    clock_reads w0 = clock_reads w -> sequence w0 = sequence w ->
    globals_of w0 = globals_of w ->
    exists w',
      schedule_covid_updates out (an_int 30) "API Retry" false w0 = Returns tt w'
      /\ globals_of w' =
         match dict_get (scheduled_updates (globals_of w)) "API Retry" with
         | Some _ => globals_of w
         | None =>
             let fire := clock out (clock_reads w) + 30 * SECOND in
             let ev := mkEvent (clock out (S (clock_reads w)) + 30 * SECOND) 1
                               (sequence w) call_sch_update_covid_data
                               (fire, "API Retry", false) in
             with_scheduled_updates
               (with_scheduler (globals_of w) (scheduler (globals_of w) ++ [ev]))
               (dict_set (scheduled_updates (globals_of w)) "API Retry"
                         (mkUpdate ev fire false))
         end).
  { intros w0 Hc Hs Hg. unfold schedule_covid_updates, bind at 1. simpl parse_str.
    unfold ret at 1. cbv beta iota. unfold bind at 1. simpl parse_datetime.
    unfold ret at 1. cbv beta iota. unfold bind at 1.
    rewrite parse_int_eq. cbv zeta. rewrite Hc, Hrange.
    destruct (dict_get (scheduled_updates (globals_of w)) "API Retry") as [u|] eqn:Hget.
    - unfold register, bind, get_globals, dict_in. cbn [ticked globals_of].
      rewrite Hg, Hget. simpl. eexists. split; [reflexivity|]. simpl. exact Hg.
    - rewrite cdh_register_fresh
        by (cbn [ticked globals_of]; rewrite Hg; now apply dict_in_false).
      eexists. split; [reflexivity|]. cbn [ticked globals_of clock_reads sequence].
      now rewrite Hc, Hs, Hg. }
  unfold covid_API_request, bind at 1, next_api_call at 1. cbv beta iota.
  match goal with
  | |- context [get_json ?k ?f] =>
      pose proof (Hdown f) as Hk; destruct (get_json k f) as [d| | |error]
  end; [discriminate Hk | | | discriminate Hk];
    (unfold bind at 1;
     match goal with
     | |- context [schedule_covid_updates out _ _ _ ?w0] =>
         destruct (Hsch w0 eq_refl eq_refl eq_refl) as (w' & Hw' & Hg')
     end;
     rewrite Hw'; exists w'; split; [reflexivity | exact Hg']).
Qed.
End CovidScheduler.

(** ** Scheduling, cancelling and polling in the news module *)

Section NewsScheduler.
Import py intervals notions cnh.
Variable out : Outside.
Variable requests_get : nat -> string -> fetch.
Implicit Types (w : World globals).

Lemma cnh_cancel_eq name w :
  cnh_consistent w ->
  cancel_scheduled_update name w =
    Returns tt
      match dict_get (scheduled_updates (globals_of w)) name with
      | Some u =>
          with_globals w
            (with_scheduled_updates
               (with_scheduler (globals_of w)
                  (queue_without (event u) (scheduler (globals_of w))))
               (dict_remove (scheduled_updates (globals_of w)) name))
      | None => w
      end.
Proof.
  intros Hw. unfold cancel_scheduled_update, bind, get_globals.
  unfold dict_in, dict_item.
  destruct (dict_get (scheduled_updates (globals_of w)) name) as [u|] eqn:Hget;
    [|reflexivity].
  simpl. unfold queue_remove.
  rewrite (agree_event_in _ _ _ _ _ Hw Hget). simpl.
  unfold dict_del, dict_in. simpl. rewrite Hget. reflexivity.
Qed.

(** The retry [news_API_request] schedules when the request fails. *)
Lemma cnh_retry_eq w0 w :
  clock_reads w0 = clock_reads w -> sequence w0 = sequence w ->
  globals_of w0 = globals_of w ->
  in_range (clock out (clock_reads w) + 30 * SECOND) = true ->
  exists w',
    schedule_news_updates out (an_int 30) "API Retry" false w0 = Returns tt w'
    /\ globals_of w' =
       match dict_get (scheduled_updates (globals_of w)) "API Retry" with
       | Some _ => globals_of w
       | None =>
           let fire := clock out (clock_reads w) + 30 * SECOND in
           let ev := mkEvent (clock out (S (clock_reads w)) + 30 * SECOND) 1
                             (sequence w) call_sch_update_news
                             (fire, "API Retry", false) in
           with_scheduled_updates
             (with_scheduler (globals_of w) (scheduler (globals_of w) ++ [ev]))
             (dict_set (scheduled_updates (globals_of w)) "API Retry"
                       (mkUpdate ev fire false))
       end.
Proof.
  intros Hc Hs Hg Hrange. unfold schedule_news_updates, bind at 1. simpl parse_str.
  unfold ret at 1. cbv beta iota. unfold bind at 1. simpl parse_datetime.
  unfold ret at 1. cbv beta iota. unfold bind at 1.
  rewrite parse_int_eq. cbv zeta. rewrite Hc, Hrange.
  destruct (dict_get (scheduled_updates (globals_of w)) "API Retry") as [u|] eqn:Hget.
  - unfold register, bind, get_globals, dict_in. cbn [ticked globals_of].
    rewrite Hg, Hget. simpl. eexists. split; [reflexivity|]. simpl. exact Hg.
  - rewrite cnh_register_fresh
      by (cbn [ticked globals_of]; rewrite Hg; now apply dict_in_false).
    eexists. split; [reflexivity|]. cbn [ticked globals_of clock_reads sequence].
    now rewrite Hc, Hs, Hg.
Qed.

(** X7: From the news module as it is when imported, with no update
    registered and an empty scheduler queue, whatever the dashboard asks of
    it and in whatever order (scheduling, cancelling, polling the scheduler
    with the callbacks it runs, removing articles, updating the news), with
    any clock and any answers of the API, the registry and the queue agree
    afterwards: every registered update holds an event of the queue that
    carries its name, fire time and repeat flag; every queued event is held
    by the entry under its name; and no two queued events have the same
    number. *)
Theorem news_registry_matches_queue requests w :
  scheduled_updates (globals_of w) = [] ->
  scheduler (globals_of w) = [] ->
  let w' := serve_news_all out requests_get requests w in
  let updates := scheduled_updates (globals_of w') in
  let queue := scheduler (globals_of w') in
  (forall name u,
      dict_get updates name = Some u ->
      In (event u) queue /\ ev_argument (event u) = (update_time u, name, repeat u))
  /\ (forall e, In e queue ->
        exists u, dict_get updates (name_of e) = Some u /\ event u = e)
  /\ NoDup (map ev_sequence queue).
Proof.
  intros Hu Hq w' updates queue.
  destruct (cnh_serve_all_keeps out requests_get requests w
              (cnh_start_consistent w Hu Hq)) as (H1 & H2 & H3 & _).
  split; [exact H1|]. split; [exact H2 | exact H3].
Qed.

(** X8: After any such sequence of requests, [cancel_scheduled_update] of
    the news module returns for every name, without the ValueError of
    [scheduler.cancel] or the KeyError of [del]; afterwards the name is not
    registered, no queued event carries it, and the news lists and the
    entries under the other names are as before. *)
Theorem news_cancel_takes_update_away requests name w :
  scheduled_updates (globals_of w) = [] ->
  scheduler (globals_of w) = [] ->
  let w1 := serve_news_all out requests_get requests w in
  exists w2,
    cancel_scheduled_update name w1 = Returns tt w2
    /\ dict_in name (scheduled_updates (globals_of w2)) = false
    /\ (forall e, In e (scheduler (globals_of w2)) -> name_of e <> name)
    /\ (forall x, x <> name ->
          dict_get (scheduled_updates (globals_of w2)) x
          = dict_get (scheduled_updates (globals_of w1)) x)
    /\ news (globals_of w2) = news (globals_of w1)
    /\ formatted_news (globals_of w2) = formatted_news (globals_of w1)
    /\ removed_articles (globals_of w2) = removed_articles (globals_of w1).
Proof.
  intros Hu Hq w1.
  pose proof (cnh_serve_all_keeps out requests_get requests w
                (cnh_start_consistent w Hu Hq)) as Hw1. fold w1 in Hw1.
  pose proof (cnh_cancel_keeps name w1 Hw1) as [_ Hw2].
  rewrite (cnh_cancel_eq name w1 Hw1) in *. simpl in Hw2.
  eexists. split; [reflexivity|].
  assert (Hgone : dict_in name
            (scheduled_updates (globals_of
               match dict_get (scheduled_updates (globals_of w1)) name with
               | Some u =>
                   with_globals w1
                     (with_scheduled_updates
                        (with_scheduler (globals_of w1)
                           (queue_without (event u) (scheduler (globals_of w1))))
                        (dict_remove (scheduled_updates (globals_of w1)) name))
               | None => w1
               end)) = false).
  { destruct (dict_get (scheduled_updates (globals_of w1)) name) eqn:Hget; simpl.
    - apply dict_in_remove_same.
    - now apply dict_in_false. }
  split; [exact Hgone|]. split; [|split].
  - intros e He Hname. destruct Hw2 as (_ & H2 & _).
    destruct (H2 e He) as [u [Hget _]]. rewrite Hname in Hget.
    apply dict_in_false in Hgone. congruence.
  - intros x Hx.
    destruct (dict_get (scheduled_updates (globals_of w1)) name); simpl; [|reflexivity].
    rewrite dict_get_remove. destruct (String.eqb_spec x name); [contradiction|].
    reflexivity.
  - destruct (dict_get (scheduled_updates (globals_of w1)) name); simpl;
      repeat split; reflexivity.
Qed.

(** X9: An update of the news that the API fails, with ConnectionError or
    Timeout, returns, and for every state of the module it leaves the live
    list empty while the display list keeps the entries it had; the
    removed titles stay, and a retry is registered as "API Retry". *)
Theorem failed_news_update_empties_the_list terms w :
  (forall url, news_failure (requests_get (api_calls w) url) = true) ->
  in_range (clock out (clock_reads w) + 30 * SECOND) = true ->
  exists w',
    update_news out requests_get terms w = Returns tt w'
    /\ news (globals_of w') = []
    /\ formatted_news (globals_of w') = formatted_news (globals_of w)
    /\ removed_articles (globals_of w') = removed_articles (globals_of w)
    /\ dict_in "API Retry" (scheduled_updates (globals_of w')) = true.
Proof.
  intros Hdown Hrange.
  unfold update_news, bind at 1, news_API_request, bind at 1, get_globals at 1.
  cbv beta iota zeta. unfold bind at 1, next_api_call at 1. cbv beta iota.
  match goal with
  | |- context [requests_get ?k ?f] =>
      pose proof (Hdown f) as Hk; destruct (requests_get k f) as [d| | |error]
  end; [discriminate Hk | | | discriminate Hk];
    (unfold bind at 1;
     match goal with
     | |- context [schedule_news_updates out _ _ _ ?w0] =>
         destruct (cnh_retry_eq w0 w eq_refl eq_refl eq_refl Hrange) as (w' & Hw' & Hg')
     end;
     rewrite Hw'; unfold ret at 1; cbv beta iota;
     unfold bind, get_globals, set_globals, ret; eexists; split; [reflexivity|];
     simpl; rewrite Hg';
     destruct (dict_get (scheduled_updates (globals_of w)) "API Retry") eqn:Hget;
     simpl; repeat split; unfold dict_in;
     [now rewrite Hget | now rewrite dict_get_set_same]).
Qed.
End NewsScheduler.

(** ** The scheduler theorems at work *)

Section SchedulerWitnesses.
Import py intervals notions scenes.

Lemma covid_registry_matches_queue_witness :
  let w' := serve_covid_all ticking covid_api_down covid_visit covid_start in
  let updates := cdh.scheduled_updates (globals_of w') in
  let queue := cdh.scheduler (globals_of w') in
  (forall name u,
      dict_get updates name = Some u ->
      In (event u) queue /\ ev_argument (event u) = (update_time u, name, repeat u))
  /\ (forall e, In e queue ->
        exists u, dict_get updates (name_of e) = Some u /\ event u = e)
  /\ NoDup (map ev_sequence queue).
Proof.
  exact (covid_registry_matches_queue ticking covid_api_down covid_visit covid_start
           eq_refl eq_refl).
Defined.

Lemma covid_cancel_takes_update_away_witness :
  let w1 := serve_covid_all ticking covid_api_down covid_visit covid_start in
  exists w2,
    cdh.cancel_scheduled_update "API Retry" w1 = Returns tt w2
    /\ dict_in "API Retry" (cdh.scheduled_updates (globals_of w2)) = false
    /\ (forall e, In e (cdh.scheduler (globals_of w2)) -> name_of e <> "API Retry")
    /\ (forall x, x <> "API Retry" ->
          dict_get (cdh.scheduled_updates (globals_of w2)) x
          = dict_get (cdh.scheduled_updates (globals_of w1)) x).
Proof.
  exact (covid_cancel_takes_update_away ticking covid_api_down covid_visit "API Retry"
           covid_start eq_refl eq_refl).
Defined.

Lemma covid_schedule_then_cancel_witness :
  let w1 := world_of (cdh.schedule_covid_updates ticking (a_str "12:35") "first" true
                        covid_start) in
  cdh_consistent covid_start
  /\ dict_in "first" (cdh.scheduled_updates (globals_of w1)) = true
  /\ exists w2,
       cdh.cancel_scheduled_update "first" w1 = Returns tt w2
       /\ globals_of w2 = globals_of covid_start.
Proof.
  intros w1.
  assert (H : cdh_consistent covid_start) by apply agree_empty.
  split; [exact H|]. split; [reflexivity|].
  apply (covid_schedule_then_cancel ticking (a_str "12:35") "first" true
           covid_start w1 H); reflexivity.
Defined.

Lemma one_off_covid_update_is_forgotten_witness :
  let w := world_of (cdh.schedule_covid_updates ticking (an_int 1) "second" false
                       covid_start) in
  dict_in "second" (cdh.scheduled_updates (globals_of w)) = true
  /\ dict_in "second"
       (cdh.scheduled_updates
          (globals_of (world_of
             (cdh.sch_update_covid_data ticking covid_api_up
                (noon_34 + SECOND) "second" false w))))
     = false.
Proof.
  split; [reflexivity|].
  apply one_off_covid_update_is_forgotten. discriminate.
Defined.

Lemma failed_covid_request_arms_a_retry_witness :
  exists w',
    cdh.covid_API_request ticking covid_api_down "Exeter" "ltla" covid_start
    = Returns cdh.no_data w'
    /\ globals_of w' =
       (let fire := noon_34 + 30 * SECOND in
        let ev := mkEvent (noon_34 + SECOND + 30 * SECOND) 1 0
                          call_sch_update_covid_data (fire, "API Retry", false) in
        cdh.mkGlobals [] [] [("API Retry", mkUpdate ev fire false)] [ev] []).
Proof.
  destruct (failed_covid_request_arms_a_retry ticking covid_api_down "Exeter" "ltla"
              covid_start) as (w' & H1 & H2).
  - reflexivity.
  - reflexivity.
  - exists w'. split; [exact H1|]. rewrite H2. reflexivity.
Defined.

Lemma news_registry_matches_queue_witness :
  let w' := serve_news_all ticking news_api_up news_visit news_start in
  let updates := cnh.scheduled_updates (globals_of w') in
  let queue := cnh.scheduler (globals_of w') in
  (forall name u,
      dict_get updates name = Some u ->
      In (event u) queue /\ ev_argument (event u) = (update_time u, name, repeat u))
  /\ (forall e, In e queue ->
        exists u, dict_get updates (name_of e) = Some u /\ event u = e)
  /\ NoDup (map ev_sequence queue).
Proof.
  exact (news_registry_matches_queue ticking news_api_up news_visit news_start
           eq_refl eq_refl).
Defined.

Lemma news_cancel_takes_update_away_witness :
  let w1 := serve_news_all ticking news_api_up (firstn 4 news_visit) news_start in
  dict_in "first" (cnh.scheduled_updates (globals_of w1)) = true
  /\ exists w2,
      cnh.cancel_scheduled_update "first" w1 = Returns tt w2
      /\ dict_in "first" (cnh.scheduled_updates (globals_of w2)) = false
      /\ (forall e, In e (cnh.scheduler (globals_of w2)) -> name_of e <> "first")
      /\ (forall x, x <> "first" ->
            dict_get (cnh.scheduled_updates (globals_of w2)) x
            = dict_get (cnh.scheduled_updates (globals_of w1)) x)
      /\ cnh.news (globals_of w2) = cnh.news (globals_of w1)
      /\ cnh.formatted_news (globals_of w2) = cnh.formatted_news (globals_of w1)
      /\ cnh.removed_articles (globals_of w2) = cnh.removed_articles (globals_of w1).
Proof.
  split; [reflexivity|].
  exact (news_cancel_takes_update_away ticking news_api_up (firstn 4 news_visit)
           "first" news_start eq_refl eq_refl).
Defined.

Lemma failed_news_update_empties_the_list_witness :
  cnh.news (globals_of news_world) = [first_article]
  /\ exists w',
      cnh.update_news ticking news_api_down "Covid COVID-19 coronavirus" news_world
      = Returns tt w'
      /\ cnh.news (globals_of w') = []
      /\ cnh.formatted_news (globals_of w') = cnh.formatted_news (globals_of news_world)
      /\ cnh.removed_articles (globals_of w') = cnh.removed_articles (globals_of news_world)
      /\ dict_in "API Retry" (cnh.scheduled_updates (globals_of w')) = true.
Proof.
  split; [reflexivity|].
  apply (failed_news_update_empties_the_list ticking news_api_down).
  - reflexivity.
  - reflexivity.
Defined.
End SchedulerWitnesses.

(** ** The exceptions of a computation *)

Section Throwing.
Import py notions.
Context {G : Type} (I : World G -> Prop) (allowed : exn -> Prop).

Lemma throws_ret {A : Type} (a : A) : throws_only_from I allowed (ret a).
Proof. intros w _. exact Logic.I. Qed.

Lemma throws_lift {A : Type} (r : result A) :
  (forall e, r = inl e -> allowed e) -> throws_only_from I allowed (lift r).
Proof. intros H w _. destruct r as [e|a]; simpl; [now apply H | exact Logic.I]. Qed.

Lemma throws_now (out : Outside) : throws_only_from I allowed (now out).
Proof. intros w _. exact Logic.I. Qed.

Lemma throws_get : throws_only_from I allowed get_globals.
Proof. intros w _. exact Logic.I. Qed.

Lemma throws_set (g : G) : throws_only_from I allowed (set_globals g).
Proof. intros w _. exact Logic.I. Qed.

Lemma throws_next_api_call : throws_only_from I allowed next_api_call.
Proof. intros w _. exact Logic.I. Qed.

Lemma throws_enter (out : Outside) delay priority act argument :
  throws_only_from I allowed (enter out delay priority act argument).
Proof. intros w _. exact Logic.I. Qed.

Lemma throws_bind {A B : Type} (m : M G A) (k : A -> M G B) :
  keeps I m -> throws_only_from I allowed m ->
  (forall a, throws_only_from I allowed (k a)) ->
  throws_only_from I allowed (bind m k).
Proof.
  intros Hkeep Hm Hk w Hw. unfold bind.
  specialize (Hkeep w Hw). specialize (Hm w Hw).
  destruct (m w) as [a w'|e w']; [now apply Hk | exact Hm].
Qed.

Lemma throws_bind_ok {A B : Type} (a : A) (k : A -> M G B) :
  throws_only_from I allowed (k a) ->
  throws_only_from I allowed (bind (lift (ok a)) k).
Proof. intros H. exact H. Qed.

Lemma throws_if {A : Type} (b : bool) (m1 m2 : M G A) :
  throws_only_from I allowed m1 -> throws_only_from I allowed m2 ->
  throws_only_from I allowed (if b then m1 else m2).
Proof. now destruct b. Qed.
End Throwing.

Section Overflow.
Import py intervals notions.
Variable out : Outside.
Context {G : Type} (I : World G -> Prop).
Hypothesis I_clock : forall w w' : World G, same_but_clock w w' -> I w -> I w'.

Lemma quiet_keeps_I {A : Type} (m : M G A) : quiet m -> keeps I m.
Proof. apply keeps_quiet. exact I_clock. Qed.

Lemma throws_dt_add t delta :
  throws_only_from I (eq OverflowError) (lift (dt_add t delta)).
Proof.
  apply throws_lift. unfold dt_add. intros e.
  destruct (in_range (t + delta)); [discriminate | now intros [= <-]].
Qed.

Lemma hour_bounds t : 0 <= hour t < 24.
Proof.
  unfold hour. rewrite DAY_val, HOUR_val.
  pose proof (Z.mod_pos_bound t 86400000000).
  split; [apply Z.div_pos; lia | apply Z.div_lt_upper_bound; lia].
Qed.

Lemma minute_bounds t : 0 <= minute t < 60.
Proof.
  unfold minute. rewrite HOUR_val, MINUTE_val.
  pose proof (Z.mod_pos_bound t 3600000000).
  split; [apply Z.div_pos; lia | apply Z.div_lt_upper_bound; lia].
Qed.

Lemma replace_hm_ok t h m :
  0 <= h < 24 -> 0 <= m < 60 ->
  replace_hm t h m = ok (midnight t + h * HOUR + m * MINUTE).
Proof.
  intros Hh Hm. unfold replace_hm.
  replace ((0 <=? h) && (h <? 24) && (0 <=? m) && (m <? 60)) with true; [reflexivity|].
  symmetry. rewrite !andb_true_iff, !Z.leb_le, !Z.ltb_lt. lia.
Qed.

(** With a string that is read as a time of day, [time_to_update_interval]
    raises nothing but OverflowError. *)
Lemma time_to_update_interval_throws s :
  reads_a_time s = true ->
  throws_only_from I (eq OverflowError) (time_to_update_interval out s).
Proof.
  unfold reads_a_time. intros Hs.
  destruct (hrs_mins s) as [e|[hrs mins]] eqn:Hparse; [discriminate|].
  rewrite !andb_true_iff, !Z.leb_le, !Z.ltb_lt in Hs.
  unfold time_to_update_interval. rewrite Hparse.
  apply throws_bind_ok. cbv beta iota.
  apply throws_bind; [apply quiet_keeps_I; auto with quiet | apply throws_now |].
  intros t1. rewrite replace_hm_ok by lia. apply throws_bind_ok.
  apply throws_bind; [apply quiet_keeps_I; auto with quiet | apply throws_now |].
  intros t2.
  apply throws_bind;
    [ apply quiet_keeps_I; auto with quiet
    | apply throws_if; [apply throws_dt_add | apply throws_ret] |].
  intros fire.
  apply throws_bind; [apply quiet_keeps_I; auto with quiet | apply throws_now |].
  intros t3. apply throws_ret.
Qed.

(** The [datetime] block and the [int] block raise nothing but
    OverflowError. *)
Lemma parse_datetime_throws ui times :
  throws_only_from I (eq OverflowError) (parse_datetime out ui times).
Proof.
  destruct ui as [n|s|t]; simpl; try apply throws_ret.
  apply throws_bind; [apply quiet_keeps_I; auto with quiet | apply throws_now |].
  intros t1.
  apply throws_bind.
  - apply quiet_keeps_I. apply quiet_if; [|auto with quiet].
    repeat (apply quiet_bind; [auto with quiet|]; intros ?). auto with quiet.
  - apply throws_if; [|apply throws_ret].
    apply throws_bind; [apply quiet_keeps_I; auto with quiet | apply throws_now |].
    intros t2.
    rewrite replace_hm_ok by (apply hour_bounds || apply minute_bounds).
    apply throws_bind_ok.
    apply throws_bind; [apply quiet_keeps_I; auto with quiet | apply throws_now |].
    intros t3. apply throws_if; [apply throws_dt_add | apply throws_ret].
  - intros fire.
    apply throws_bind; [apply quiet_keeps_I; auto with quiet | apply throws_now |].
    intros t4. apply throws_ret.
Qed.

Lemma parse_int_throws ui times :
  throws_only_from I (eq OverflowError) (parse_int out ui times).
Proof.
  destruct ui as [n|s|t]; simpl; try apply throws_ret.
  apply throws_bind; [apply quiet_keeps_I; auto with quiet | apply throws_now |].
  intros t1.
  apply throws_bind;
    [apply quiet_keeps_I; auto with quiet | apply throws_dt_add |].
  intros fire. apply throws_ret.
Qed.
End Overflow.

(** * The strings the schedulers accept *)

(** ** Matching by derivatives *)

Section RegexFacts.
Import py.
Implicit Types (r a b : regex) (s : string) (p : ascii -> bool).

Ltac by_cases_of_accepts :=
  repeat match goal with
         | |- context [accepts ?r ?s] => destruct (accepts r s)
         | |- context [nullable ?r] => destruct (nullable r)
         end;
  reflexivity.

Lemma accepts_Never s : accepts Never s = false.
Proof. induction s as [|c s IH]; [reflexivity | exact IH]. Qed.

Lemma accepts_Alt a b s : accepts (Alt a b) s = accepts a s || accepts b s.
Proof.
  revert a b. induction s as [|c s IH]; intros a b; [reflexivity|].
  simpl. apply IH.
Qed.

Lemma accepts_Seq_Never r s : accepts (Seq Never r) s = false.
Proof. induction s as [|c s IH]; [reflexivity | exact IH]. Qed.

Lemma accepts_Eps_cons c s : accepts Eps (String c s) = false.
Proof. simpl. apply accepts_Never. Qed.

Lemma accepts_Seq_Eps r s : accepts (Seq Eps r) s = accepts r s.
Proof.
  destruct s as [|c s]; [reflexivity|].
  simpl. now rewrite accepts_Alt, accepts_Seq_Never.
Qed.

Lemma accepts_Seq_Class_nil p r : accepts (Seq (Class p) r) "" = false.
Proof. reflexivity. Qed.

Lemma accepts_Seq_Class_cons p r c s :
  accepts (Seq (Class p) r) (String c s) = p c && accepts r s.
Proof.
  simpl. destruct (p c); [apply accepts_Seq_Eps | apply accepts_Seq_Never].
Qed.

Lemma accepts_Class_cons p c s :
  accepts (Class p) (String c s) = p c && match s with "" => true | _ => false end.
Proof.
  simpl. destruct (p c); simpl.
  - destruct s; [reflexivity | apply accepts_Eps_cons].
  - apply accepts_Never.
Qed.

Lemma accepts_Seq_Alt a b r s :
  accepts (Seq (Alt a b) r) s = accepts (Seq a r) s || accepts (Seq b r) s.
Proof.
  revert a b. induction s as [|c s IH]; intros a b; simpl.
  - by_cases_of_accepts.
  - destruct (nullable a), (nullable b); simpl;
      rewrite ?accepts_Alt, ?IH; by_cases_of_accepts.
Qed.

Lemma accepts_Seq_assoc a b r s :
  accepts (Seq (Seq a b) r) s = accepts (Seq a (Seq b r)) s.
Proof.
  revert a b. induction s as [|c s IH]; intros a b; simpl.
  - by_cases_of_accepts.
  - destruct (nullable a), (nullable b); simpl;
      rewrite ?accepts_Alt, ?accepts_Seq_Alt, ?accepts_Alt, ?IH; by_cases_of_accepts.
Qed.

(** A class that is a range of code points holds the characters of
    [chars]. *)
Lemma between_chars lo hi c :
  between (code lo) (code hi) (code c) = true -> In c (notions.chars lo hi).
Proof.
  unfold between, notions.chars. intros H. apply andb_prop in H. destruct H as [H1 H2].
  apply Nat.leb_le in H1, H2. apply in_map_iff. exists (code c). split.
  - apply ascii_nat_embedding.
  - apply in_seq. lia.
Qed.
End RegexFacts.

(** ** Strings and [int()] *)

Section StrFacts.
Import py notions.

Lemma int_of_str_error s e : int_of_str s = inl e -> e = ValueError.
Proof.
  unfold int_of_str.
  match goal with |- context [match ?x with Some _ => _ | None => _ end] => destruct x end;
    [discriminate | now intros [= <-]].
Qed.

Lemma lstrip_app_nonspace l a :
  int_space a = false -> lstrip (l ++ [a]) = (lstrip l ++ [a])%list.
Proof.
  intros Ha. induction l as [|c l IH]; simpl; [now rewrite Ha|].
  now destruct (int_space c).
Qed.

Lemma rstrip_cons_nonspace a l :
  int_space a = false ->
  rev (lstrip (rev (a :: l))) = a :: rev (lstrip (rev l)).
Proof.
  intros Ha. simpl rev. rewrite lstrip_app_nonspace by exact Ha.
  now rewrite rev_app_distr.
Qed.

Lemma strip_cons_nonspace a l :
  int_space a = false -> strip (a :: l) = a :: rev (lstrip (rev l)).
Proof.
  intros Ha. unfold strip. simpl lstrip. rewrite Ha.
  now apply rstrip_cons_nonspace.
Qed.

Lemma split_from_cons_other sep cur c l :
  Ascii.eqb c sep = false -> split_from sep cur (c :: l) = split_from sep (c :: cur) l.
Proof. intros H. simpl. now rewrite H. Qed.

Lemma split_from_cons_sep sep cur l :
  split_from sep cur (sep :: l) = string_of_list_ascii (rev cur) :: split_from sep [] l.
Proof. simpl. now rewrite Ascii.eqb_refl. Qed.

Lemma split_from_shape sep l : forall cur,
  exists p ps, split_from sep cur l = string_of_list_ascii (rev cur ++ p) :: ps.
Proof.
  induction l as [|c l IH]; intros cur; simpl.
  - exists [], []. now rewrite app_nil_r.
  - destruct (Ascii.eqb c sep).
    + exists [], (split_from sep [] l). now rewrite app_nil_r.
    + destruct (IH (c :: cur)) as (p & ps & H). exists (c :: p), ps.
      rewrite H. simpl. now rewrite <- app_assoc.
Qed.

Lemma digit_facts_all :
  forallb (fun c => negb (Ascii.eqb c ":") && negb (int_space c) && is_09 c
                    && negb (Ascii.eqb c "-") && negb (Ascii.eqb c "+"))
          (chars "0" "9") = true.
Proof. vm_compute. reflexivity. Qed.

Lemma digit_facts c :
  between (code "0") (code "9") (code c) = true ->
  Ascii.eqb c ":" = false /\ int_space c = false /\ is_09 c = true
  /\ Ascii.eqb c "-" = false /\ Ascii.eqb c "+" = false.
Proof.
  intros H. apply between_chars in H.
  pose proof digit_facts_all as Hall. rewrite forallb_forall in Hall.
  specialize (Hall c H). rewrite !andb_true_iff, !negb_true_iff in Hall. tauto.
Qed.

(** [int()] refuses what starts with a digit and a brace. *)
Lemma int_of_str_digit_brace c l :
  between (code "0") (code "9") (code c) = true ->
  int_of_str (string_of_list_ascii (c :: "{"%char :: l)) = throw ValueError.
Proof.
  intros Hc. destruct (digit_facts c Hc) as (_ & Hspace & Hdigit & Hminus & Hplus).
  unfold int_of_str. rewrite list_ascii_of_string_of_list_ascii.
  rewrite strip_cons_nonspace by exact Hspace.
  rewrite rstrip_cons_nonspace by reflexivity.
  rewrite Hminus, Hplus. simpl digits_value. rewrite Hdigit. reflexivity.
Qed.

Lemma lstrip_nonspace l :
  (forall c, In c l -> int_space c = false) -> lstrip l = l.
Proof.
  destruct l as [|c l]; [reflexivity|]. intros H. simpl.
  now rewrite (H c (or_introl eq_refl)).
Qed.

Lemma strip_nonspace l :
  (forall c, In c l -> int_space c = false) -> strip l = l.
Proof.
  intros H. unfold strip. rewrite (lstrip_nonspace l H).
  rewrite lstrip_nonspace; [apply rev_involutive|].
  intros c Hc. apply H. now apply in_rev.
Qed.

(** The characters [isdigit()] accepts below 256. *)
Lemma char_isdigit_chars c :
  char_isdigit c = true ->
  In c (chars "0" "9" ++ map ascii_of_nat [178; 179; 185]%nat).
Proof.
  unfold char_isdigit. rewrite !orb_true_iff, !Nat.eqb_eq. intros H.
  apply in_or_app.
  destruct H as [[[H|H]|H]|H]; [left; now apply between_chars | | |];
    right; rewrite <- (ascii_nat_embedding c); fold (code c); rewrite H;
    simpl; tauto.
Qed.

Lemma char_isdigit_facts_all :
  forallb (fun c => negb (int_space c) && negb (Ascii.eqb c "-")
                    && negb (Ascii.eqb c "+") && negb (Ascii.eqb c "_"))
          (chars "0" "9" ++ map ascii_of_nat [178; 179; 185]%nat) = true.
Proof. vm_compute. reflexivity. Qed.

Lemma char_isdigit_facts c :
  char_isdigit c = true ->
  int_space c = false /\ Ascii.eqb c "-" = false /\ Ascii.eqb c "+" = false
  /\ Ascii.eqb c "_" = false.
Proof.
  intros H. apply char_isdigit_chars in H.
  pose proof char_isdigit_facts_all as Hall. rewrite forallb_forall in Hall.
  specialize (Hall c H). rewrite !andb_true_iff, !negb_true_iff in Hall. tauto.
Qed.

(** The value of a string of ASCII digits. *)
Lemma digits_value_decimal l : forall acc after_digit,
  forallb is_09 l = true ->
  (l <> [] \/ after_digit = true) ->
  digits_value acc after_digit l
  = Some (fold_left (fun n c => n * 10 + digit_val c) l acc).
Proof.
  induction l as [|c l IH]; intros acc after_digit Hall Hne; simpl.
  - destruct Hne as [Hne | ->]; [congruence | reflexivity].
  - simpl in Hall. apply andb_prop in Hall. destruct Hall as [Hc Hl].
    rewrite Hc. apply IH; [exact Hl | now right].
Qed.

(** A digit that is no ASCII digit stops [int()]. *)
Lemma digits_value_superscript l : forall acc after_digit,
  forallb char_isdigit l = true ->
  forallb is_09 l = false ->
  digits_value acc after_digit l = None.
Proof.
  induction l as [|c l IH]; intros acc after_digit Hall Hsome; simpl in *;
    [discriminate|].
  apply andb_prop in Hall. destruct Hall as [Hc Hl].
  destruct (is_09 c); simpl in Hsome; [now apply IH|].
  destruct (char_isdigit_facts c Hc) as (_ & _ & _ & Hunder). now rewrite Hunder.
Qed.

Lemma isdigit_chars s :
  isdigit s = true ->
  s <> "" /\ forallb char_isdigit (list_ascii_of_string s) = true.
Proof. destruct s; [discriminate|]. intros H. split; [discriminate | exact H]. Qed.

(** [int()] of a string [isdigit()] accepts: its decimal value when all
    its characters are ASCII digits, ValueError otherwise. *)
Lemma int_of_str_isdigit s :
  isdigit s = true ->
  int_of_str s =
    if forallb is_09 (list_ascii_of_string s) then ok (decimal s)
    else throw ValueError.
Proof.
  intros H. apply isdigit_chars in H. destruct H as [Hne Hall].
  unfold int_of_str, decimal.
  assert (Hl : list_ascii_of_string s <> []) by (destruct s; [congruence | discriminate]).
  rewrite forallb_forall in Hall.
  rewrite strip_nonspace by (intros c Hc; apply char_isdigit_facts; now apply Hall).
  destruct (list_ascii_of_string s) as [|c l] eqn:Hs; [congruence|].
  destruct (char_isdigit_facts c (Hall c (or_introl eq_refl)))
    as (_ & Hminus & Hplus & _).
  rewrite Hminus, Hplus.
  destruct (forallb is_09 (c :: l)) eqn:H09.
  - rewrite digits_value_decimal; [reflexivity | exact H09 | left; discriminate].
  - rewrite digits_value_superscript; [reflexivity | | exact H09].
    now apply forallb_forall.
Qed.
End StrFacts.

(** ** The time of day in the data module *)

Section CovidTimeOfDay.
Import py intervals notions cdh.
Variable out : Outside.

Ltac peel H s c Hc :=
  rewrite ?accepts_Seq_assoc in H;
  destruct s as [|c s];
  [rewrite accepts_Seq_Class_nil in H; discriminate|];
  rewrite accepts_Seq_Class_cons in H;
  apply andb_prop in H; destruct H as [Hc H]; cbv beta in Hc.

Ltac last_chars H s c Hc :=
  peel H s c Hc; rewrite accepts_Alt in H;
  destruct s as [|nl s];
  [| rewrite accepts_Class_cons, accepts_Eps_cons, orb_false_r in H;
     apply andb_prop in H; destruct H as [Hnl H];
     apply Ascii.eqb_eq in Hnl; subst nl;
     destruct s; [|discriminate] ].

Ltac in_minutes :=
  apply in_flat_map; eexists; split;
  [eassumption | apply (in_map (fun c => String _ (String c ""))); assumption].

(** The strings the pattern lets through are those of [times_written]. *)
Lemma HH_MM_language s : re_match_dollar HH_MM s = true <-> In s times_written.
Proof.
  split.
  - unfold re_match_dollar, HH_MM, Opt, Range, Lit. intros H.
    repeat (rewrite accepts_Seq_assoc in H || rewrite accepts_Seq_Alt in H
            || rewrite accepts_Seq_Eps in H).
    apply orb_prop in H. destruct H as [H|H]; [apply orb_prop in H; destruct H as [H|H]|].
    + peel H s c1 H1. peel H s c2 H2. peel H s c3 H3. peel H s c4 H4.
      last_chars H s c5 H5;
        apply Ascii.eqb_eq in H3; subst c3;
        apply between_chars in H1, H2, H4, H5;
        unfold times_written; apply in_flat_map;
        exists (String c1 (String c2 "")); (split;
          [ apply in_or_app; left; in_minutes
          | apply in_flat_map; exists (String c4 (String c5 "")); split;
            [in_minutes | simpl; tauto] ]).
    + peel H s c2 H2. peel H s c3 H3. peel H s c4 H4.
      last_chars H s c5 H5;
        apply Ascii.eqb_eq in H3; subst c3;
        apply between_chars in H2, H4, H5;
        unfold times_written; apply in_flat_map;
        exists (String c2 ""); (split;
          [ apply in_or_app; right; apply in_or_app; left;
            apply (in_map (fun c => String c "")); assumption
          | apply in_flat_map; exists (String c4 (String c5 "")); split;
            [in_minutes | simpl; tauto] ]).
    + peel H s c1 H1. peel H s c2 H2. peel H s c3 H3. peel H s c4 H4.
      last_chars H s c5 H5;
        apply Ascii.eqb_eq in H1, H3; subst c1 c3;
        apply between_chars in H2, H4, H5;
        unfold times_written; apply in_flat_map;
        exists (String "2" (String c2 "")); (split;
          [ apply in_or_app; right; apply in_or_app; right;
            apply (in_map (fun c => String "2" (String c ""))); assumption
          | apply in_flat_map; exists (String c4 (String c5 "")); split;
            [in_minutes | simpl; tauto] ]).
  - revert s. apply forallb_forall. vm_compute. reflexivity.
Qed.

Lemma times_written_read : forallb reads_a_time times_written = true.
Proof. vm_compute. reflexivity. Qed.

Lemma keeps_anywhere {A : Type} (m : M globals A) : keeps anywhere m.
Proof. intros w _. exact I. Qed.

Lemma anywhere_clock (w w' : World globals) :
  same_but_clock w w' -> anywhere w -> anywhere w'.
Proof. intros _ _. exact I. Qed.

Lemma cdh_register_throws (allowed : exn -> Prop) delay fire name r :
  throws_only_from anywhere allowed (register out (Some (delay, fire)) name r).
Proof.
  intros w _. simpl. unfold bind, get_globals.
  now destruct (negb (dict_in name (scheduled_updates (globals_of w)))).
Qed.

(** X10: Every string that the data module's pattern for a time of day
    lets through, also one that ends in a newline, is read by
    [time_to_update_interval] as an hour below 24 and a minute below 60:
    neither [int()] nor [replace()] raises ValueError for it, and
    scheduling with it raises nothing but the OverflowError of a fire time
    after the last day of [datetime]. *)
Theorem matched_time_is_read s name r (w : World globals) :
  re_match_dollar HH_MM s = true ->
  (exists hrs mins,
      hrs_mins s = ok (hrs, mins) /\ 0 <= hrs < 24 /\ 0 <= mins < 60)
  /\ match schedule_covid_updates out (a_str s) name r w with
     | Returns _ _ => True
     | Raises e _ => e = OverflowError
     end.
Proof.
  intros Hmatch.
  assert (Hread : reads_a_time s = true).
  { pose proof times_written_read as H. rewrite forallb_forall in H.
    now apply H, HH_MM_language. }
  split.
  - unfold reads_a_time in Hread.
    destruct (hrs_mins s) as [e|[hrs mins]]; [discriminate|].
    rewrite !andb_true_iff, !Z.leb_le, !Z.ltb_lt in Hread.
    exists hrs, mins. split; [reflexivity | lia].
  - unfold schedule_covid_updates. simpl parse_str. rewrite Hmatch.
    unfold bind at 1. unfold bind at 1.
    pose proof (time_to_update_interval_throws out anywhere anywhere_clock s Hread w I)
      as Ht.
    unfold time_to_update_interval.
    destruct (intervals.time_to_update_interval out s w) as [[delay fire] w1|e w1];
      [|now symmetry].
    unfold ret at 1. cbv beta iota. simpl parse_datetime. simpl parse_int.
    unfold bind at 1. unfold ret at 1. cbv beta iota.
    unfold bind at 1. unfold ret at 1. cbv beta iota.
    pose proof (cdh_register_throws (eq OverflowError) delay fire name r w1 I) as Hr.
    destruct (register out (Some (delay, fire)) name r w1); [exact I | now symmetry].
Qed.
End CovidTimeOfDay.

(** ** The time of day in the news module *)

Section NewsTimeOfDay.
Import py intervals notions cnh.
Variable out : Outside.

Ltac peel H s c Hc :=
  rewrite ?accepts_Seq_assoc in H;
  destruct s as [|c s];
  [rewrite accepts_Seq_Class_nil in H; discriminate|];
  rewrite accepts_Seq_Class_cons in H;
  apply andb_prop in H; destruct H as [Hc H]; cbv beta in Hc.

(** The strings the pattern of the news module takes for a time of day
    are not read by [time_to_update_interval]. *)
Lemma news_HH_MM_not_read s : re_match HH_MM s = true -> hrs_mins s = throw ValueError.
Proof.
  unfold re_match, HH_MM, Range, Lit. intros H.
  peel H s c1 H1. peel H s c2 H2. peel H s c3 H3. peel H s c4 H4.
  peel H s c5 H5. peel H s c6 H6. peel H s c7 H7.
  apply Ascii.eqb_eq in H3, H5, H6, H7. subst c3 c5 c6 c7.
  destruct (digit_facts c1 H1) as (Hc1 & _).
  destruct (digit_facts c2 H2) as (Hc2 & _).
  destruct (digit_facts c4 H4) as (Hc4 & _).
  unfold hrs_mins, split. simpl list_ascii_of_string.
  rewrite (split_from_cons_other _ _ c1), (split_from_cons_other _ _ c2) by assumption.
  rewrite split_from_cons_sep.
  rewrite (split_from_cons_other _ _ c4) by assumption.
  rewrite !split_from_cons_other by reflexivity.
  destruct (split_from_shape ":" (list_ascii_of_string s) ["2"; "}"; "{"; c4]%char)
    as (p & ps & Hsplit).
  rewrite Hsplit. simpl rev. simpl app.
  destruct ps as [|x ps]; [|reflexivity].
  rewrite (int_of_str_digit_brace c4 _ H4).
  destruct (int_of_str _) as [e|n] eqn:Ha; [|reflexivity].
  apply int_of_str_error in Ha. now subst e.
Qed.

(** X11: Whatever the news module's pattern ["[0-9]{2}:[0-9]{}2"] takes
    for a time of day, [time_to_update_interval] cannot read: for every
    string the pattern matches, [schedule_news_updates] raises ValueError
    and leaves the world as it is. *)
Theorem news_time_of_day_always_raises s name r (w : World globals) :
  re_match HH_MM s = true ->
  schedule_news_updates out (a_str s) name r w = Raises ValueError w.
Proof.
  intros H. unfold schedule_news_updates, bind at 1. simpl parse_str. rewrite H.
  unfold time_to_update_interval, intervals.time_to_update_interval, bind, lift.
  now rewrite (news_HH_MM_not_read s H).
Qed.
End NewsTimeOfDay.

(** ** Seconds written as a string *)

Section SecondsWritten.
Import py intervals notions.
Variable out : Outside.

Lemma times_written_not_digits :
  forallb (fun s => negb (isdigit s)) times_written = true.
Proof. vm_compute. reflexivity. Qed.

Lemma isdigit_no_time s : isdigit s = true -> re_match_dollar cdh.HH_MM s = false.
Proof.
  intros H. destruct (re_match_dollar cdh.HH_MM s) eqn:Hmatch; [|reflexivity].
  apply HH_MM_language in Hmatch.
  pose proof times_written_not_digits as Hall. rewrite forallb_forall in Hall.
  specialize (Hall s Hmatch). now rewrite H in Hall.
Qed.

Lemma is_09_isdigit s :
  s <> "" -> forallb is_09 (list_ascii_of_string s) = true -> isdigit s = true.
Proof.
  destruct s as [|c s]; [congruence|]. intros _ H. unfold isdigit.
  rewrite forallb_forall in *. intros x Hx. unfold char_isdigit.
  now rewrite (H x Hx).
Qed.

(** What the data module does with a string [isdigit()] accepts. *)
Lemma cdh_schedule_isdigit s name r (w : World cdh.globals) :
  isdigit s = true ->
  cdh.schedule_covid_updates out (a_str s) name r w =
    match int_of_str s with
    | inr n => cdh.schedule_covid_updates out (an_int n) name r w
    | inl e => Raises e w
    end.
Proof.
  intros H. unfold cdh.schedule_covid_updates, bind at 1. simpl cdh.parse_str.
  rewrite (isdigit_no_time s H), H. unfold bind at 1, lift.
  destruct (int_of_str s) as [e|n]; reflexivity.
Qed.

(** X12: A string of at most 4300 ASCII digits, which [int()] converts
    under every interpreter, is scheduled by the data module as the
    number of seconds it writes, exactly as the [int] of that value is. *)
Theorem digit_string_is_seconds s name r (w : World cdh.globals) :
  s <> "" ->
  (String.length s <= max_str_digits)%nat ->
  forallb is_09 (list_ascii_of_string s) = true ->
  cdh.schedule_covid_updates out (a_str s) name r w
  = cdh.schedule_covid_updates out (an_int (decimal s)) name r w.
Proof.
  intros Hne _ H09. pose proof (is_09_isdigit s Hne H09) as Hdigit.
  rewrite (cdh_schedule_isdigit s name r w Hdigit).
  now rewrite (int_of_str_isdigit s Hdigit), H09.
Qed.

Lemma superscript_is_digit c : is_superscript c = true -> char_isdigit c = true.
Proof.
  unfold is_superscript, char_isdigit. intros H.
  destruct (is_09 c); [reflexivity | exact H].
Qed.

Lemma superscript_not_09 c : is_superscript c = true -> is_09 c = false.
Proof.
  unfold is_superscript, is_09, between. intros H.
  apply orb_true_iff in H. destruct H as [H|H];
    [apply orb_true_iff in H; destruct H as [H|H]|];
    apply Nat.eqb_eq in H; rewrite H; reflexivity.
Qed.

(** X13: A string made of ASCII digits and of the superscript digits
    U+00B2, U+00B3 and U+00B9, with at least one superscript, gets past
    the [isdigit()] check of the data module and makes [int()] raise:
    [schedule_covid_updates] raises ValueError and leaves the world as it
    is. *)
Theorem superscript_digits_raise s name r (w : World cdh.globals) :
  forallb (fun c => is_09 c || is_superscript c) (list_ascii_of_string s) = true ->
  existsb is_superscript (list_ascii_of_string s) = true ->
  cdh.schedule_covid_updates out (a_str s) name r w = Raises ValueError w.
Proof.
  intros Hall Hsome.
  assert (Hdigit : isdigit s = true).
  { destruct s as [|c s]; [discriminate|]. unfold isdigit.
    rewrite forallb_forall in *. intros x Hx. specialize (Hall x Hx).
    apply orb_true_iff in Hall. destruct Hall as [H|H].
    - unfold char_isdigit. now rewrite H.
    - now apply superscript_is_digit. }
  assert (H09 : forallb is_09 (list_ascii_of_string s) = false).
  { apply existsb_exists in Hsome. destruct Hsome as (c & Hc & Hsuper).
    destruct (forallb is_09 (list_ascii_of_string s)) eqn:H; [|reflexivity].
    rewrite forallb_forall in H. specialize (H c Hc).
    now rewrite (superscript_not_09 c Hsuper) in H. }
  rewrite (cdh_schedule_isdigit s name r w Hdigit).
  now rewrite (int_of_str_isdigit s Hdigit), H09.
Qed.

Lemma accepts_Anything s : accepts Anything s = true.
Proof.
  induction s as [|c s IH]; [reflexivity|].
  unfold Anything in *. simpl. now rewrite accepts_Seq_Eps.
Qed.

Lemma accepts_Seq_Star_Anything r s : accepts (Seq (Star r) Anything) s = true.
Proof.
  destruct s as [|c s]; [reflexivity|].
  simpl. rewrite accepts_Alt.
  fold Anything. rewrite (accepts_Seq_Eps Anything), accepts_Anything.
  apply orb_true_r.
Qed.

(** The pattern ["[0-9]+"] of the news module matches what starts with a
    digit. *)
Lemma news_digits_language s : re_match cnh.digits s = starts_with_digit s.
Proof.
  unfold re_match, cnh.digits, Plus, Range. rewrite accepts_Seq_assoc.
  destruct s as [|c s]; [reflexivity|].
  rewrite accepts_Seq_Class_cons, accepts_Seq_Star_Anything. apply andb_true_r.
Qed.

(** X14: For a string that the news module does not take for a time of
    day, only the first character decides whether it is read: if it is an
    ASCII digit the whole string goes to [int()], so that the string is
    scheduled as that many seconds or, when [int()] refuses it,
    [schedule_news_updates] raises ValueError; if it is not, the call
    returns and leaves the world as it is. *)
Theorem news_string_is_read_by_its_first_character s name r
    (w : World cnh.globals) :
  re_match cnh.HH_MM s = false ->
  cnh.schedule_news_updates out (a_str s) name r w =
    if starts_with_digit s then
      match int_of_str s with
      | inr n => cnh.schedule_news_updates out (an_int n) name r w
      | inl _ => Raises ValueError w
      end
    else Returns tt w.
Proof.
  intros H. unfold cnh.schedule_news_updates, bind at 1. simpl cnh.parse_str.
  rewrite H, news_digits_language.
  destruct (starts_with_digit s); [|reflexivity].
  unfold bind at 1, lift.
  destruct (int_of_str s) as [e|n] eqn:Hint; [|reflexivity].
  apply int_of_str_error in Hint. now subst e.
Qed.
End SecondsWritten.

(** ** The theorems about strings at work *)

Section StringWitnesses.
Import py intervals notions scenes.

Lemma matched_time_is_read_witness :
  let s := ("7:05" ++ String "010" "")%string in
  re_match_dollar cdh.HH_MM s = true
  /\ (exists hrs mins,
        hrs_mins s = ok (hrs, mins) /\ 0 <= hrs < 24 /\ 0 <= mins < 60)
  /\ match cdh.schedule_covid_updates ticking (a_str s) "first" false covid_start with
     | Returns _ _ => True
     | Raises e _ => e = OverflowError
     end.
Proof.
  split; [reflexivity|].
  apply (matched_time_is_read ticking). reflexivity.
Defined.

Lemma news_time_of_day_always_raises_witness :
  cnh.schedule_news_updates ticking (a_str "12:3{}2") "first" false news_start
  = Raises ValueError news_start.
Proof. apply news_time_of_day_always_raises. reflexivity. Defined.

Lemma digit_string_is_seconds_witness :
  cdh.schedule_covid_updates ticking (a_str "0090") "first" false covid_start
  = cdh.schedule_covid_updates ticking (an_int 90) "first" false covid_start.
Proof.
  apply (digit_string_is_seconds ticking "0090");
    [discriminate | apply Nat.leb_le; reflexivity | reflexivity].
Defined.

Lemma superscript_digits_raise_witness :
  let s := String "1" (String (ascii_of_nat 178) "") in
  cdh.schedule_covid_updates ticking (a_str s) "first" false covid_start
  = Raises ValueError covid_start.
Proof. apply superscript_digits_raise; reflexivity. Defined.

Lemma news_string_is_read_by_its_first_character_witness :
  cnh.schedule_news_updates ticking (a_str "5 minutes") "first" false news_start
  = Raises ValueError news_start
  /\ cnh.schedule_news_updates ticking (a_str "in 5 minutes") "first" false news_start
     = Returns tt news_start.
Proof.
  split.
  - apply (news_string_is_read_by_its_first_character ticking "5 minutes"). reflexivity.
  - apply (news_string_is_read_by_its_first_character ticking "in 5 minutes").
    reflexivity.
Defined.
End StringWitnesses.

(** ** A [datetime] that has passed *)

Section PastDatetime.
Import py intervals notions.
Variable out : Outside.

(** The [datetime] block for a time in the past, when the clock does not
    move during the call. *)
Lemma parse_datetime_past {G : Type} (w : World G) t times now_ :
  t < now_ ->
  clock out (clock_reads w) = now_ ->
  clock out (S (clock_reads w)) = now_ ->
  clock out (S (S (clock_reads w))) = now_ ->
  clock out (S (S (S (clock_reads w)))) = now_ ->
  0 <= now_ < DATETIME_END - DAY ->
  let fire := next_occurrence now_ (Z.to_nat (hour t)) (Z.to_nat (minute t)) in
  parse_datetime out (a_datetime t) times w =
    Returns (Some (fire - now_, fire)) (ticked (ticked (ticked (ticked w)))).
Proof.
  intros Hpast H1 H2 H3 H4 Hrange fire.
  pose proof (hour_bounds t) as Hh. pose proof (minute_bounds t) as Hm.
  unfold parse_datetime, bind, now. rewrite H1.
  replace (t <? now_) with true by (symmetry; apply Z.ltb_lt; exact Hpast).
  cbn [ticked clock_reads]. rewrite H2.
  rewrite replace_hm_ok by assumption. unfold lift at 1, ok at 1, ret at 1.
  cbn [ticked clock_reads]. rewrite H3.
  subst fire. unfold next_occurrence. rewrite !Z2Nat.id by lia.
  set (today := midnight now_ + hour t * HOUR + minute t * MINUTE).
  destruct (today <? now_) eqn:Hlt.
  - unfold dt_add, in_range.
    replace ((0 <=? today + DAY) && (today + DAY <? DATETIME_END)) with true.
    + unfold lift, ok, ret. cbn [ticked clock_reads]. now rewrite H4.
    + symmetry. pose proof (midnight_bounds now_) as Hb.
      rewrite andb_true_iff, Z.leb_le, Z.ltb_lt. subst today.
      rewrite DAY_val, HOUR_val, MINUTE_val, DATETIME_END_val in *. lia.
  - unfold ret. cbn [ticked clock_reads]. now rewrite H4.
Qed.

(** X15: A [datetime] that has passed is scheduled by the data module for
    the next occurrence of its hour and minute: today's if that is not
    before now, tomorrow's otherwise.  Its date, seconds and microseconds
    are dropped, the fire time is less than a day away whatever the age of
    the [datetime], and the call does not raise.  Here now is what the
    clock reads during the call, on a day before the last one [datetime]
    can hold. *)
Theorem past_datetime_fires_at_next_occurrence (w : World cdh.globals) t name r now_ :
  t < now_ ->
  clock out (clock_reads w) = now_ ->
  clock out (S (clock_reads w)) = now_ ->
  clock out (S (S (clock_reads w))) = now_ ->
  clock out (S (S (S (clock_reads w)))) = now_ ->
  0 <= now_ < DATETIME_END - DAY ->
  let fire := next_occurrence now_ (Z.to_nat (hour t)) (Z.to_nat (minute t)) in
  now_ <= fire < now_ + DAY
  /\ hour fire = hour t /\ minute fire = minute t
  /\ fire mod MINUTE = 0
  /\ exists w',
      cdh.schedule_covid_updates out (a_datetime t) name r w = Returns tt w'
      /\ (dict_in name (cdh.scheduled_updates (globals_of w)) = false ->
          let ev := mkEvent (clock out (4 + clock_reads w) + (fire - now_)) 1
                            (sequence w) call_sch_update_covid_data (fire, name, r) in
          cdh.scheduled_updates (globals_of w') =
            dict_set (cdh.scheduled_updates (globals_of w)) name (mkUpdate ev fire r)
          /\ cdh.scheduler (globals_of w') = (cdh.scheduler (globals_of w) ++ [ev])%list).
Proof.
  intros Hpast H1 H2 H3 H4 Hrange fire.
  pose proof (hour_bounds t) as Hh. pose proof (minute_bounds t) as Hm.
  destruct (next_occurrence_spec now_ (Z.to_nat (hour t)) (Z.to_nat (minute t)))
    as (Hfire & Hhour & Hminute); [lia | lia |].
  rewrite !Z2Nat.id in Hhour, Hminute by lia.
  split; [exact Hfire|]. split; [exact Hhour|]. split; [exact Hminute|]. split.
  - subst fire. unfold next_occurrence, midnight. rewrite !Z2Nat.id by lia.
    rewrite DAY_val, HOUR_val, MINUTE_val.
    destruct (_ <? now_).
    + replace (now_ / 86400000000 * 86400000000 + hour t * 3600000000
               + minute t * 60000000 + 86400000000)
        with ((now_ / 86400000000 * 1440 + hour t * 60 + minute t + 1440) * 60000000)
        by lia.
      apply Z.mod_mul. lia.
    + replace (now_ / 86400000000 * 86400000000 + hour t * 3600000000
               + minute t * 60000000)
        with ((now_ / 86400000000 * 1440 + hour t * 60 + minute t) * 60000000)
        by lia.
      apply Z.mod_mul. lia.
  - unfold cdh.schedule_covid_updates, bind at 1. simpl cdh.parse_str.
    unfold ret at 1. cbv beta iota. unfold bind at 1.
    rewrite (parse_datetime_past w t None now_ Hpast H1 H2 H3 H4 Hrange).
    fold fire. cbv beta iota. unfold bind at 1. simpl parse_int.
    unfold ret at 1. cbv beta iota.
    destruct (dict_in name (cdh.scheduled_updates (globals_of w))) eqn:Hin.
    + unfold cdh.register, bind, get_globals. cbn [ticked globals_of].
      rewrite Hin. simpl. eexists. split; [reflexivity | discriminate].
    + rewrite cdh_register_fresh by exact Hin.
      eexists. split; [reflexivity|]. intros _. simpl. split; reflexivity.
Qed.
End PastDatetime.

(** * The key statistics of fetched records *)

Section KeyStatistics.
Import py notions cdh.
Implicit Types (l : list (dict value)) (vs : list value) (ns : list Z).

Lemma column_length key l vs : column key l vs -> List.length l = List.length vs.
Proof. induction 1; simpl; congruence. Qed.

Lemma column_nth key l vs k v :
  column key l vs -> nth_error vs k = Some v ->
  exists item, nth_error l k = Some item /\ dict_get item key = Some v.
Proof.
  intros H. revert k. induction H as [|item v' l vs Hitem _ IH]; intros k.
  - destruct k; discriminate.
  - destruct k as [|k]; simpl.
    + intros [= <-]. now exists item.
    + apply IH.
Qed.

Lemma first_with_column key l vs :
  column key l vs ->
  forall i, first_with key l i
            = ok (option_map (fun k => (i + k)%nat) (first_truthy vs)).
Proof.
  induction 1 as [|item v l vs Hitem _ IH]; intros i; simpl; [reflexivity|].
  unfold dict_item. rewrite Hitem. simpl. destruct (truthy v); simpl.
  - now rewrite Nat.add_0_r.
  - rewrite IH. destruct (first_truthy vs); simpl; [|reflexivity].
    now rewrite Nat.add_succ_r.
Qed.

Lemma first_truthy_find vs :
  match first_truthy vs with
  | Some i => exists v, nth_error vs i = Some v /\ find truthy vs = Some v
  | None => find truthy vs = None
  end.
Proof.
  induction vs as [|v vs IH]; simpl; [reflexivity|].
  destruct (truthy v); [now exists v|].
  destruct (first_truthy vs); simpl; exact IH.
Qed.

Lemma skipn_nth {A : Type} (xs : list A) k x :
  nth_error xs k = Some x -> skipn k xs = x :: skipn (S k) xs.
Proof.
  revert k. induction xs as [|y xs IH]; intros k; [destruct k; discriminate|].
  destruct k as [|k]; simpl; [now intros [= ->] | apply IH].
Qed.

(** The loop that adds the cases of [d] days from the day [f + a] on. *)
Lemma add_cases_total l ns f :
  column "new_cases" l (map VInt ns) ->
  forall d a acc,
    (f + a + d <= List.length ns)%nat ->
    add_cases l f (seq a d) acc
    = ok (acc + total (firstn d (skipn (f + a) ns))).
Proof.
  intros Hcol. induction d as [|d IH]; intros a acc Hlen; simpl.
  - f_equal. lia.
  - destruct (nth_error ns (f + a)) as [n|] eqn:Hn;
      [|apply nth_error_None in Hn; lia].
    destruct (column_nth _ _ _ (f + a)%nat (VInt n) Hcol) as (item & Hitem & Hget);
      [now rewrite nth_error_map, Hn|].
    unfold list_item, dict_item. rewrite Hitem. simpl. rewrite Hget. simpl.
    rewrite IH by lia. rewrite (skipn_nth ns _ n Hn), Nat.add_succ_r.
    unfold total. cbn [firstn fold_right]. f_equal. lia.
Qed.

(** X16: When every record holds an [int] as its new cases, the first
    statistic is the sum of the new cases of the seven records that follow
    the first record whose cases are not 0, or of as many as follow it
    when they are fewer, and "N/A" when all cases are 0; the record found
    first is left out of the sum, and nothing is raised. *)
Theorem week_total_skips_the_first_day l ns :
  column "new_cases" l (map VInt ns) ->
  total_cases_last_7_days l =
    ok match first_truthy (map VInt ns) with
       | Some i => VInt (total (firstn 7 (skipn (S i) ns)))
       | None => NA
       end.
Proof.
  intros Hcol. unfold total_cases_last_7_days.
  rewrite (first_with_column _ _ _ Hcol). unfold rbind at 1, ok at 1.
  pose proof (first_truthy_find (map VInt ns)) as Hfind.
  destruct (first_truthy (map VInt ns)) as [i|]; cbn [option_map Nat.add];
    [|reflexivity].
  destruct Hfind as (v & Hv & _).
  assert (Hi : (i < List.length ns)%nat).
  { rewrite <- (length_map VInt). apply nth_error_Some. congruence. }
  pose proof (column_length _ _ _ Hcol) as Hlen. rewrite length_map in Hlen.
  rewrite Hlen.
  rewrite (add_cases_total l ns (S i) Hcol)
    by (destruct (Nat.ltb_spec 7 (List.length ns - S i)); lia).
  unfold rbind, ok. rewrite Nat.add_0_r, Z.add_0_l. do 3 f_equal.
  destruct (Nat.ltb_spec 7 (List.length ns - S i)) as [Hlt|Hge]; [reflexivity|].
  rewrite (firstn_all2 (n := 7)) by (rewrite length_skipn; lia).
  apply firstn_all2. rewrite length_skipn. lia.
Qed.

(** X17: The second and third statistic are [int()] of the first value
    that is not empty, in the order of the records; a 0 counts as empty,
    as [None] and the empty string do, and is passed over.  Without such a
    value the statistic is "N/A". *)
Theorem most_recent_is_first_value key l vs :
  column key l vs ->
  most_recent key l =
    match find truthy vs with
    | Some v => rbind (int_of v) (fun n => ok (VInt n))
    | None => ok NA
    end.
Proof.
  intros Hcol. unfold most_recent.
  rewrite (first_with_column _ _ _ Hcol). simpl.
  pose proof (first_truthy_find vs) as Hfind.
  destruct (first_truthy vs) as [i|]; simpl; [|now rewrite Hfind].
  destruct Hfind as (v & Hv & ->).
  destruct (column_nth _ _ _ i v Hcol Hv) as (item & Hitem & Hget).
  unfold list_item, dict_item. rewrite Hitem. simpl. now rewrite Hget.
Qed.
End KeyStatistics.

(** * Records read from a CSV file *)

Section CsvRecords.
Import py notions cdh.
Implicit Types (x : dict string) (ks : list (string * dict string)).

Lemma fill_get header : forall covid_data_headers row_data data,
  dict_get (fill data covid_data_headers row_data) header =
    match cell_under header covid_data_headers row_data with
    | Some cell => Some cell
    | None => dict_get data header
    end.
Proof.
  induction covid_data_headers as [|h hs IH]; intros cells data; [reflexivity|].
  destruct cells as [|c cells]; [reflexivity|]. simpl. rewrite IH.
  destruct (cell_under header hs cells); [reflexivity|].
  rewrite dict_get_set. now destruct (String.eqb header h).
Qed.

Lemma as_values_get x key :
  dict_get (as_values x) key = option_map VStr (dict_get x key).
Proof.
  induction x as [|[k v] x IH]; simpl; [reflexivity|].
  now destruct (String.eqb key k).
Qed.

Lemma date_of_as_values x key :
  dict_get x "date" = Some key -> date_of (as_values x) = key.
Proof. intros H. unfold date_of. now rewrite as_values_get, H. Qed.

(** X19: A record made of a CSV row maps a header to the cell under it,
    as a [str]; when a header occurs more than once the cell under its
    last occurrence is the one kept; a header that the row has no cell for
    is not a key of the record, and cells beyond the last header are
    dropped. *)
Theorem record_holds_the_cell_under_a_header covid_data_headers row header :
  dict_get (as_values (fill [] covid_data_headers (split "," row))) header
  = option_map VStr (cell_under header covid_data_headers (split "," row)).
Proof.
  rewrite as_values_get, fill_get.
  now destruct (cell_under header covid_data_headers (split "," row)).
Qed.

Lemma keyed_ok l : forall ks,
  keyed l = ok ks ->
  map snd ks = l
  /\ Forall (fun entry => dict_get (snd entry) "date" = Some (fst entry)) ks.
Proof.
  induction l as [|x l IH]; simpl; intros ks.
  - intros [= <-]. split; [reflexivity | constructor].
  - unfold dict_item. destruct (dict_get x "date") as [key|] eqn:Hkey; [|discriminate].
    simpl. destruct (keyed l) as [e|rest]; [discriminate|]. simpl.
    intros [= <-]. destruct (IH rest eq_refl) as [Hmap Hall].
    split; [simpl; now rewrite Hmap | constructor; [exact Hkey | exact Hall]].
Qed.

Lemma keyed_error l e :
  keyed l = inl e ->
  e = KeyError /\ exists x, In x l /\ dict_get x "date" = None.
Proof.
  induction l as [|x l IH]; simpl; [discriminate|].
  unfold dict_item. destruct (dict_get x "date") as [key|] eqn:Hkey; simpl.
  - destruct (keyed l) as [e'|rest]; [|discriminate]. simpl. intros [= <-].
    destruct (IH eq_refl) as [He (y & Hy & Hnone)].
    split; [exact He|]. exists y. split; [now right | exact Hnone].
  - intros [= <-]. split; [reflexivity|]. exists x. split; [now left | exact Hkey].
Qed.

Lemma insert_desc_perm (entry : string * dict string) ks :
  Permutation (insert_desc entry ks) (entry :: ks).
Proof.
  induction ks as [|y ks IH]; simpl; [reflexivity|].
  destruct (String.ltb (fst entry) (fst y)); [|reflexivity].
  rewrite IH. apply perm_swap.
Qed.

Lemma sort_desc_perm ks : Permutation (sort_desc ks) ks.
Proof.
  induction ks as [|entry ks IH]; simpl; [reflexivity|].
  rewrite insert_desc_perm. now constructor.
Qed.

Lemma ltb_leb a b : String.ltb a b = true -> String.leb a b = true.
Proof.
  unfold String.ltb, String.leb. now destruct (String.compare a b).
Qed.

Lemma not_ltb_leb a b : String.ltb a b = false -> String.leb b a = true.
Proof.
  unfold String.ltb, String.leb. rewrite (String.compare_antisym a b).
  now destruct (String.compare b a).
Qed.

Lemma ltb_neq a b : String.ltb a b = true -> String.eqb a b = false.
Proof.
  intros H. destruct (String.eqb_spec a b) as [->|]; [|reflexivity].
  unfold String.ltb in H.
  assert (Hrefl : String.compare b b = Eq).
  { pose proof (String.compare_antisym b b) as Ha.
    destruct (String.compare b b); [reflexivity | discriminate | discriminate]. }
  now rewrite Hrefl in H.
Qed.

Lemma insert_desc_sorted (entry : string * dict string) ks :
  Sorted keys_descend ks -> Sorted keys_descend (insert_desc entry ks).
Proof.
  induction ks as [|y ks IH]; simpl; intros Hs; [repeat constructor|].
  destruct (String.ltb (fst entry) (fst y)) eqn:Hlt.
  - inversion Hs as [|? ? Hks Hhd]; subst. constructor; [now apply IH|].
    destruct ks as [|z ks]; simpl.
    + constructor. now apply ltb_leb.
    + destruct (String.ltb (fst entry) (fst z)).
      * inversion Hhd; subst. now constructor.
      * constructor. now apply ltb_leb.
  - constructor; [exact Hs|]. constructor. now apply not_ltb_leb.
Qed.

Lemma sort_desc_sorted ks : Sorted keys_descend (sort_desc ks).
Proof.
  induction ks as [|entry ks IH]; simpl; [constructor|].
  now apply insert_desc_sorted.
Qed.

(** The sort is stable. *)
Lemma insert_desc_stable d (entry : string * dict string) ks :
  filter (fun e => String.eqb (fst e) d) (insert_desc entry ks)
  = filter (fun e => String.eqb (fst e) d) (entry :: ks).
Proof.
  induction ks as [|y ks IH]; [reflexivity|]. simpl insert_desc.
  destruct (String.ltb (fst entry) (fst y)) eqn:Hlt; [|reflexivity].
  simpl filter in *. rewrite IH.
  destruct (String.eqb_spec (fst entry) d) as [He|He];
    destruct (String.eqb_spec (fst y) d) as [Hy|Hy]; try reflexivity.
  apply ltb_neq in Hlt. rewrite He, Hy, String.eqb_refl in Hlt. discriminate.
Qed.

Lemma sort_desc_stable d ks :
  filter (fun e => String.eqb (fst e) d) (sort_desc ks)
  = filter (fun e => String.eqb (fst e) d) ks.
Proof.
  induction ks as [|entry ks IH]; [reflexivity|]. simpl sort_desc.
  rewrite insert_desc_stable. simpl. now rewrite IH.
Qed.

Lemma Sorted_map {A B : Type} (R : A -> A -> Prop) (R' : B -> B -> Prop)
    (f : A -> B) (l : list A) :
  (forall a b, In a l -> In b l -> R a b -> R' (f a) (f b)) ->
  Sorted R l -> Sorted R' (map f l).
Proof.
  induction l as [|a l IH]; intros Hf Hs; simpl; [constructor|].
  inversion Hs as [|? ? Hl Hhd]; subst. constructor.
  - apply IH; [|exact Hl]. intros x y Hx Hy. apply Hf; now right.
  - destruct l as [|b l]; simpl; constructor.
    inversion Hhd; subst. apply Hf; [now left | right; now left | assumption].
Qed.

Lemma filter_map_keyed d ks :
  Forall (fun entry => dict_get (snd entry) "date" = Some (fst entry)) ks ->
  dated d (map (fun entry => as_values (snd entry)) ks)
  = map (fun entry => as_values (snd entry))
        (filter (fun e => String.eqb (fst e) d) ks).
Proof.
  induction 1 as [|entry ks Hentry _ IH]; [reflexivity|].
  unfold dated in *. simpl. rewrite (date_of_as_values _ _ Hentry), IH.
  now destruct (String.eqb (fst entry) d).
Qed.

(** X18: [convert_covid_csv_data_to_list_dict] on a header line and rows.
    When it returns, the records are those of the rows, each once, in an
    order in which no record is before one of a later date, and the
    records of one date are in the order of their rows.  It raises only
    KeyError, and only when the record of some row has no "date", because
    no header is "date" or the row is too short to reach it. *)
Theorem convert_sorts_by_date first rows :
  match convert_covid_csv_data_to_list_dict (first :: rows) with
  | inr records =>
      Permutation records (rows_as_records (split "," first) rows)
      /\ Sorted not_before records
      /\ forall d, dated d records = dated d (rows_as_records (split "," first) rows)
  | inl e =>
      e = KeyError
      /\ exists row,
           In row rows
           /\ cell_under "date" (split "," first) (split "," row) = None
  end.
Proof.
  unfold convert_covid_csv_data_to_list_dict, list_item. simpl nth_error.
  unfold rbind at 1, ok at 1. simpl tl. unfold records_of.
  set (dicts := map (fun row => fill [] (split "," first) (split "," row)) rows).
  assert (Hrows : rows_as_records (split "," first) rows = map as_values dicts).
  { unfold rows_as_records, dicts. now rewrite map_map. }
  destruct (keyed dicts) as [e|ks] eqn:Hkeyed; simpl.
  - destruct (keyed_error _ _ Hkeyed) as [He (x & Hx & Hnone)].
    split; [exact He|]. unfold dicts in Hx. apply in_map_iff in Hx.
    destruct Hx as (row & <- & Hrow). exists row. split; [exact Hrow|].
    rewrite fill_get in Hnone.
    now destruct (cell_under "date" (split "," first) (split "," row)).
  - destruct (keyed_ok _ _ Hkeyed) as [Hmap Hall].
    assert (Hsorted_all :
      Forall (fun entry => dict_get (snd entry) "date" = Some (fst entry))
             (sort_desc ks)).
    { rewrite Forall_forall in *. intros entry Hentry. apply Hall.
      eapply Permutation_in; [apply sort_desc_perm | exact Hentry]. }
    rewrite Hrows, <- Hmap, map_map. split; [|split].
    + apply Permutation_map, sort_desc_perm.
    + apply (Sorted_map keys_descend); [|apply sort_desc_sorted].
      rewrite Forall_forall in Hsorted_all.
      intros a b Ha Hb Hab. unfold not_before.
      now rewrite (date_of_as_values _ _ (Hsorted_all a Ha)),
                  (date_of_as_values _ _ (Hsorted_all b Hb)).
    + intros d. rewrite (filter_map_keyed d _ Hsorted_all), sort_desc_stable.
      symmetry. apply filter_map_keyed. exact Hall.
Qed.
End CsvRecords.

(** ** The header line *)

Section CsvHeaders.
Import py notions cdh.

Lemma list_ascii_of_string_app a b :
  list_ascii_of_string (a ++ b)
  = (list_ascii_of_string a ++ list_ascii_of_string b)%list.
Proof. induction a as [|c a IH]; simpl; [reflexivity | now rewrite IH]. Qed.

Lemma split_from_app_no_sep sep xs :
  forallb (fun c => negb (Ascii.eqb c sep)) xs = true ->
  forall cur l, split_from sep cur (xs ++ l) = split_from sep (rev xs ++ cur) l.
Proof.
  induction xs as [|c xs IH]; intros H cur l; [reflexivity|].
  simpl in H. apply andb_prop in H. destruct H as [Hc Hxs].
  apply negb_true_iff in Hc. simpl. rewrite Hc, (IH Hxs).
  now rewrite <- app_assoc.
Qed.

Lemma split_one s : no_comma s = true -> split "," s = [s].
Proof.
  intros H. unfold split.
  rewrite <- (app_nil_r (list_ascii_of_string s)).
  rewrite (split_from_app_no_sep _ _ H). simpl.
  now rewrite app_nil_r, rev_involutive, string_of_list_ascii_of_string.
Qed.

(** Joining with commas and splitting at commas gives the strings back
    when none of them holds a comma. *)
Lemma split_concat l :
  l <> [] -> forallb no_comma l = true ->
  split "," (String.concat "," l) = l.
Proof.
  induction l as [|x l IH]; [congruence|]. intros _ H.
  simpl in H. apply andb_prop in H. destruct H as [Hx Hl].
  destruct l as [|y l]; [now apply split_one|].
  change (String.concat "," (x :: y :: l))
    with (x ++ "," ++ String.concat "," (y :: l))%string.
  unfold split. rewrite list_ascii_of_string_app.
  rewrite (split_from_app_no_sep _ _ Hx). simpl list_ascii_of_string.
  rewrite split_from_cons_sep, app_nil_r, rev_involutive,
    string_of_list_ascii_of_string.
  f_equal. apply IH; [discriminate | exact Hl].
Qed.

Lemma split_from_no_sep sep l : forall cur,
  forallb (fun c => negb (Ascii.eqb c sep)) cur = true ->
  forallb (fun s => forallb (fun c => negb (Ascii.eqb c sep)) (list_ascii_of_string s))
          (split_from sep cur l) = true.
Proof.
  assert (Hrev : forall cur,
    forallb (fun c => negb (Ascii.eqb c sep)) cur = true ->
    forallb (fun c => negb (Ascii.eqb c sep))
            (list_ascii_of_string (string_of_list_ascii (rev cur))) = true).
  { intros cur H. rewrite list_ascii_of_string_of_list_ascii.
    rewrite forallb_forall in *. intros c Hc. apply H. now apply in_rev. }
  induction l as [|c l IH]; intros cur H; simpl.
  - now rewrite (Hrev cur H).
  - destruct (Ascii.eqb c sep) eqn:Hc; simpl.
    + rewrite (Hrev cur H). now apply IH.
    + apply IH. simpl. now rewrite Hc.
Qed.

Lemma split_not_empty sep s : split sep s <> [].
Proof.
  unfold split. generalize (@nil ascii).
  induction (list_ascii_of_string s) as [|c l IH]; intros cur; simpl; [discriminate|].
  destruct (Ascii.eqb c sep); [discriminate | apply IH].
Qed.

Lemma new_headers_no_comma : forallb no_comma (map snd headers) = true.
Proof. vm_compute. reflexivity. Qed.

Lemma dict_get_value {V : Type} (d : dict V) k v :
  dict_get d k = Some v -> In v (map snd d).
Proof.
  induction d as [|[k' v'] d IH]; simpl; [discriminate|].
  destruct (String.eqb k k'); [intros [= ->]; now left | right; now apply IH].
Qed.

Lemma rename_no_comma header : no_comma header = true -> no_comma (rename header) = true.
Proof.
  intros H. unfold rename.
  destruct (dict_get headers header) as [new_header|] eqn:Hget; [|exact H].
  pose proof new_headers_no_comma as Hall. rewrite forallb_forall in Hall.
  apply Hall. eapply dict_get_value; eassumption.
Qed.

(** X20: [parse_csv_data] on a file that can be read and has a first
    line.  The records it returns are those that
    [convert_covid_csv_data_to_list_dict] makes of the rows under the
    headers of the first line, each renamed when it is one of the seven
    headers of the API and kept as it is otherwise: joining the new
    headers with commas and splitting the line again in the conversion
    gives back the same headers, in number and in order. *)
Theorem parse_csv_data_renames_headers open_file filename content first rows :
  open_file filename = Text content ->
  splitlines content = first :: rows ->
  parse_csv_data open_file filename =
    rbind (records_of (map rename (split "," first)) rows)
          (fun records => ok (Some records)).
Proof.
  intros Hopen Hlines. unfold parse_csv_data. rewrite Hopen, Hlines.
  unfold list_item. simpl nth_error. unfold rbind at 1, ok at 1. simpl tl.
  unfold convert_covid_csv_data_to_list_dict, list_item. simpl nth_error.
  unfold rbind at 2, ok at 1. simpl tl.
  rewrite split_concat; [reflexivity | |].
  - pose proof (split_not_empty "," first) as Hne.
    destruct (split "," first); [congruence | discriminate].
  - rewrite forallb_forall. intros h Hh. apply in_map_iff in Hh.
    destruct Hh as (h0 & <- & Hh0). apply rename_no_comma.
    pose proof (split_from_no_sep "," (list_ascii_of_string first) [] eq_refl) as Hall.
    rewrite forallb_forall in Hall. now apply Hall.
Qed.
End CsvHeaders.

(** ** The theorems about data at work *)

Section DataWitnesses.
Import py intervals notions scenes.

Lemma past_datetime_fires_at_next_occurrence_witness :
  let fire := noon_34 + DAY - HOUR in
  three_days_ago < noon_34
  /\ next_occurrence noon_34 (Z.to_nat (hour three_days_ago))
                     (Z.to_nat (minute three_days_ago)) = fire
  /\ exists w',
      cdh.schedule_covid_updates (frozen noon_34) (a_datetime three_days_ago)
                                 "first" true covid_start = Returns tt w'
      /\ dict_get (cdh.scheduled_updates (globals_of w')) "first"
         = Some (mkUpdate (mkEvent fire 1 0 call_sch_update_covid_data
                                   (fire, "first", true))
                          fire true).
Proof.
  intros fire. split; [reflexivity|]. split; [reflexivity|].
  destruct (past_datetime_fires_at_next_occurrence (frozen noon_34) covid_start
              three_days_ago "first" true noon_34)
    as (_ & _ & _ & _ & w' & Hw' & Hfresh);
    [reflexivity | reflexivity | reflexivity | reflexivity | reflexivity
    | split; [apply Z.leb_le | apply Z.ltb_lt]; reflexivity |].
  exists w'. split; [exact Hw'|].
  destruct (Hfresh eq_refl) as [Hupdates _]. rewrite Hupdates. reflexivity.
Defined.

Lemma week_total_skips_the_first_day_witness :
  cdh.total_cases_last_7_days count_records = ok (VInt 28).
Proof.
  apply (week_total_skips_the_first_day count_records case_counts).
  repeat constructor.
Defined.

Lemma most_recent_is_first_value_witness :
  cdh.most_recent "hospital_cases" hospital_records = ok (VInt 70).
Proof.
  apply (most_recent_is_first_value "hospital_cases" hospital_records hospital_values).
  repeat constructor.
Defined.

Lemma parse_csv_data_renames_headers_witness :
  cdh.parse_csv_data csv_files "nation.csv" =
    rbind (cdh.records_of ["date"; "new_cases"; "hospital_cases"; "notes"] csv_rows)
          (fun records => ok (Some records)).
Proof.
  apply (parse_csv_data_renames_headers csv_files "nation.csv" csv_text csv_header
           csv_rows); reflexivity.
Defined.
End DataWitnesses.

(** * The news lists *)

Section NewsLists.
Import py intervals notions cnh.
Variable out : Outside.
Variable requests_get : nat -> string -> fetch.
Implicit Types (w : World globals) (l : list Article).

Lemma format_article_content article :
  format_article article =
    if has_content article then ok (entry_of article) else throw TypeError.
Proof.
  unfold has_content, entry_of, format_article, first_100.
  now destruct (content article).
Qed.

(** The loop of [news_formatter] appends the entries of the articles
    before the first one without a content, and raises TypeError at that
    one. *)
Lemma format_all_eq l : forall w,
  let w' := with_globals w
              (with_formatted_news (globals_of w)
                 (formatted_news (globals_of w) ++ map entry_of (before_gap l))) in
  format_all l w = if forallb has_content l then Returns tt w' else Raises TypeError w'.
Proof.
  induction l as [|article rest IH]; intros [c a s g]; cbn [format_all forallb before_gap].
  - unfold ret, with_globals, with_formatted_news. simpl. rewrite app_nil_r.
    now destruct g.
  - unfold bind at 1. rewrite format_article_content.
    destruct (has_content article); cbn [lift ok throw andb map].
    + unfold ret at 1. cbv beta iota.
      unfold bind, get_globals, set_globals. cbv beta iota. rewrite IH.
      unfold with_globals, with_formatted_news.
      cbn [globals_of formatted_news clock_reads api_calls sequence api_key
           config_covid_terms news removed_articles scheduler scheduled_updates].
      rewrite <- app_assoc. reflexivity.
    + unfold raise, with_globals, with_formatted_news. simpl. rewrite app_nil_r.
      now destruct g.
Qed.

Lemma entry_of_title article : formatted_title (entry_of article) = title article.
Proof.
  unfold entry_of, format_article, first_100.
  now destruct (content article).
Qed.

Lemma news_formatter_eq w :
  let shown := firstn 5 (news (globals_of w)) in
  let w' := with_globals w
              (with_formatted_news (globals_of w) (map entry_of (before_gap shown))) in
  news_formatter w = (if forallb has_content shown then Returns tt w'
                      else Raises TypeError w').
Proof.
  intros shown w'.
  unfold news_formatter, bind, get_globals, set_globals. cbv beta iota.
  cbn [globals_of with_globals news with_formatted_news]. rewrite first_five.
  rewrite format_all_eq. reflexivity.
Qed.

(** X21: [news_formatter] makes the display list of the first five
    articles of the live list, in their order and under their titles.  An
    article without a content stops it: it raises TypeError there, and the
    display list is left with the entries of the articles before that one.
    Nothing else of the module is changed. *)
Theorem display_list_stops_at_missing_content w :
  let shown := firstn 5 (news (globals_of w)) in
  let w' := with_globals w
              (with_formatted_news (globals_of w) (map entry_of (before_gap shown))) in
  news_formatter w = (if forallb has_content shown then Returns tt w'
                      else Raises TypeError w')
  /\ map formatted_title (formatted_news (globals_of w')) = map title (before_gap shown)
  /\ (List.length (formatted_news (globals_of w')) <= 5)%nat.
Proof.
  intros shown w'. split; [apply news_formatter_eq|]. split.
  - simpl. rewrite map_map. apply map_ext. apply entry_of_title.
  - simpl. rewrite length_map.
    assert (Hle : forall l, (List.length (before_gap l) <= List.length l)%nat).
    { induction l as [|a l IH]; simpl; [lia|]. destruct (has_content a); simpl; lia. }
    specialize (Hle shown). pose proof (firstn_le_length 5 (news (globals_of w))).
    subst shown. lia.
Qed.

(** X22: An update of the news whose request the API answers.  When the
    status of the answer is not "error", the live list becomes the articles
    of the answer whose titles have not been removed, in their order, and
    the display list is made of it.  When the status is "error", the live
    list is left empty and the display list is not touched.  The removed
    titles, the registry and the queue stay as they are. *)
Theorem answered_update_replaces_the_list terms response w :
  requests_get (api_calls w) (request_url (globals_of w) terms) = Fetched response ->
  let g := globals_of w in
  let live := if String.eqb (status response) "error" then []
              else kept (removed_articles g) (articles response) in
  let display := if String.eqb (status response) "error" then formatted_news g
                 else map entry_of (before_gap (firstn 5 live)) in
  let w' := mkWorld (clock_reads w) (S (api_calls w)) (sequence w)
                    (with_formatted_news (with_news g live) display) in
  update_news out requests_get terms w =
    if forallb has_content (firstn 5 live) then Returns tt w' else Raises TypeError w'.
Proof.
  intros H g live display w'.
  unfold update_news, news_API_request, bind, get_globals, next_api_call.
  cbv beta iota. rewrite H. unfold ret at 1, set_globals at 1. cbv beta iota.
  subst w' display live.
  destruct (status response =? "error")%string; cbn [negb]; cbv beta iota.
  - simpl. unfold ret, with_globals. simpl. subst g. now destruct (globals_of w).
  - rewrite keep_articles_eq, news_formatter_eq. reflexivity.
Qed.
End NewsLists.

(** ** The request of the news *)

Section NewsRequest.
Import py notions cnh.

Lemma split_from_not_nil sep l cur : split_from sep cur l <> [].
Proof.
  revert cur. induction l as [|c l IH]; intros cur; simpl; [discriminate|].
  destruct (Ascii.eqb c sep); [discriminate | apply IH].
Qed.

Lemma string_of_list_ascii_app_eq a b :
  string_of_list_ascii (a ++ b) = (string_of_list_ascii a ++ string_of_list_ascii b)%string.
Proof. induction a as [|c a IH]; simpl; [reflexivity | now rewrite IH]. Qed.

(** Joining with plus signs what was split at the spaces. *)
Lemma concat_split_spaces l : forall cur,
  String.concat "+" (split_from " " cur l)
  = string_of_list_ascii
      (rev cur ++ map (fun c => if Ascii.eqb c " " then "+"%char else c) l).
Proof.
  induction l as [|c l IH]; intros cur; simpl.
  - now rewrite app_nil_r.
  - destruct (Ascii.eqb c " ") eqn:Hc.
    + pose proof (split_from_not_nil " " l []) as Hne.
      specialize (IH []).
      destruct (split_from " " [] l) as [|y ys]; [congruence|].
      change (String.concat "+" (string_of_list_ascii (rev cur) :: y :: ys))
        with (string_of_list_ascii (rev cur) ++ "+" ++ String.concat "+" (y :: ys))%string.
      rewrite IH. simpl. now rewrite string_of_list_ascii_app_eq.
    + rewrite IH. simpl. now rewrite <- app_assoc.
Qed.

(** X23: The address [news_API_request] asks: the terms of the config
    file when it gave some, the terms of the call otherwise, with a plus
    sign in the place of every space, also of a space at the start or the
    end and of each of several spaces in a row, between the fixed start
    of the address and the API key. *)
Theorem request_url_joins_terms_with_plus g covid_terms :
  request_url g covid_terms =
    ("https://newsapi.org/v2/everything?q=+"
       ++ plus_for_space match config_covid_terms g with
                         | EmptyString => covid_terms
                         | configured => configured
                         end
       ++ "&apikey=" ++ api_key g)%string.
Proof.
  unfold request_url, plus_for_space, split. now rewrite concat_split_spaces.
Qed.
End NewsRequest.

(** * What the dashboard shows of an update *)

Section Toasts.
Import py intervals notions dashboard.
Variable out : Outside.

Lemma two_digit_of_nat n : two_digit (Z.of_nat n) = two_digits n.
Proof.
  unfold two_digit, two_digits.
  change 10 with (Z.of_nat 10).
  now rewrite <- Nat2Z.inj_div, <- Nat2Z.inj_mod, !Nat2Z.id.
Qed.

Lemma strftime_HM_eq t h m :
  hour t = Z.of_nat h -> minute t = Z.of_nat m -> strftime_HM t = HHMM h m.
Proof.
  intros Hh Hm. unfold strftime_HM, HHMM. now rewrite Hh, Hm, !two_digit_of_nat.
Qed.

Lemma dict_get_pair {V : Type} (d : dict V) k v :
  dict_get d k = Some v -> In (k, v) d.
Proof.
  induction d as [|[k' v'] d IH]; simpl; [discriminate|].
  destruct (String.eqb_spec k k') as [->|Hne];
    [intros [= ->]; now left | right; now apply IH].
Qed.

(** X24: From the form to the toast.  A valid wall-clock time scheduled
    for the data module under an unused name is shown by the dashboard,
    once the registries are collated and the toasts formatted, in a toast
    under that name whose text holds the same time of day with two digits
    for the hour, names the data, names the news as well exactly when the
    news registry has the name too, and ends in "every day" exactly when
    the update repeats; so whatever the clock reads during the call, its
    first reading being on a day before the last one [datetime] can
    hold. *)
Theorem scheduled_time_is_shown_in_its_toast (w : World cdh.globals)
    (cnh_updates : dict ScheduledUpdate) s h m name repeat :
  wall_clock s h m ->
  0 <= clock out (clock_reads w) < DATETIME_END - DAY ->
  dict_in name (cdh.scheduled_updates (globals_of w)) = false ->
  let w' := world_of (cdh.schedule_covid_updates out (a_str s) name repeat w) in
  let both := dict_in name cnh_updates in
  exists scheduled_updates,
    collate_update_lists (cdh.scheduled_updates (globals_of w')) cnh_updates
    = ok scheduled_updates
    /\ In (mkToast name
             ("Updating COVID Data"
              ++ next_line ++ times "and" both ++ " "
              ++ next_line ++ times "Covid News" both
              ++ next_line ++ "at " ++ HHMM h m ++ " " ++ times "every day" repeat))
          (format_update_toasts scheduled_updates).
Proof.
  intros Hs Hrange Hfresh w' both.
  destruct (cdh_schedule_wall_clock out w s h m name repeat Hs Hrange)
    as (w1 & Hw1 & _ & Hupdates).
  destruct (Hupdates Hfresh) as [Hregistry _]. clear Hupdates.
  assert (Hw' : w' = w1) by (subst w'; now rewrite Hw1).
  rewrite <- Hw' in Hregistry. clear Hw1 Hw'.
  destruct (collate_lookup (cdh.scheduled_updates (globals_of w')) cnh_updates)
    as (merged & Hmerged & _ & Hget).
  exists merged. split; [exact Hmerged|].
  specialize (Hget name). rewrite Hregistry in Hget.
  unfold dict_in, covid_entry in Hget. rewrite dict_get_set_same in Hget. simpl in Hget.
  apply dict_get_pair in Hget.
  apply (in_map (fun item =>
           mkToast (fst item) (toast_text (snd item) (strftime_HM (time (snd item))))))
    in Hget.
  simpl in Hget.
  destruct (occurrence_time_of_day (clock out (clock_reads w))
              (clock out (S (clock_reads w))) h m (proj1 Hs) (proj1 (proj2 Hs)))
    as [Hhour Hminute].
  rewrite (strftime_HM_eq _ h m Hhour Hminute) in Hget. exact Hget.
Qed.
End Toasts.

(** * The exceptions of a poll *)

#[local] Instance same_location_preorder : PreOrder notions.same_location.
Proof.
  split.
  - now intros g.
  - intros g1 g2 g3 H12 H23. unfold notions.same_location in *. congruence.
Qed.

Section CovidPollExceptions.
Import py intervals notions cdh.
Variable out : Outside.
Variable get_json : nat -> list string -> fetch.
Implicit Types (w : World globals).

Lemma cdh_register_location times name r :
  preserves same_location (register out times name r).
Proof.
  intros w. destruct times as [[delay fire]|]; simpl; [|reflexivity].
  unfold bind, get_globals.
  now destruct (dict_in name (scheduled_updates (globals_of w))).
Qed.

Lemma cdh_schedule_location ui name r :
  preserves same_location (schedule_covid_updates out ui name r).
Proof.
  unfold schedule_covid_updates. pres_bind.
  - pres_quiet. apply cdh_parse_str_quiet.
  - intros [[ui' times]|]; [|pres_ret].
    pose proof cdh_register_location. auto with preserves.
Qed.

Lemma cdh_request_location location location_type :
  preserves same_location (covid_API_request out get_json location location_type).
Proof.
  unfold covid_API_request. pres_bind; [auto with preserves|].
  intros k. pose proof cdh_schedule_location.
  destruct (get_json k _); auto with preserves.
Qed.

Lemma cdh_refresh_location : preserves same_location (refresh out get_json).
Proof.
  pose proof cdh_request_location as Hreq.
  unfold refresh. pres_bind; [auto with preserves|]. intros g.
  pres_bind; [auto 6 with preserves|]. intros api_response.
  pres_bind; [auto with preserves|]. intros national_api_response.
  pres_bind; [|intros _];
    (apply preserves_if; [|pres_ret];
     apply preserves_update; intros g0; reflexivity).
Qed.

Lemma cdh_forget_location name : preserves same_location (forget name).
Proof.
  intros w. unfold forget, bind, get_globals.
  destruct (dict_del _ name); reflexivity.
Qed.

Lemma cdh_callback_location u name r :
  preserves same_location (sch_update_covid_data out get_json u name r).
Proof.
  unfold sch_update_covid_data. pres_bind; [|intros _; pres_bind; [|intros _]].
  - apply cdh_forget_location.
  - apply cdh_refresh_location.
  - unfold rearm. pose proof cdh_schedule_location.
    destruct r; auto with preserves.
Qed.

Lemma cdh_cancel_location name : preserves same_location (cancel_scheduled_update name).
Proof.
  intros w. unfold cancel_scheduled_update, bind, get_globals.
  destruct (dict_in name (scheduled_updates (globals_of w))); [|reflexivity].
  destruct (dict_item _ name) as [e|u]; [reflexivity|]. simpl.
  destruct (queue_remove _ _) as [e|q]; [reflexivity|]. simpl.
  unfold set_globals. simpl.
  destruct (dict_del _ name) as [e|d]; reflexivity.
Qed.

Lemma cdh_run_location rounds :
  preserves same_location (scheduler_run out get_json rounds).
Proof.
  induction rounds as [|rounds IH]; intros w; simpl; [reflexivity|].
  unfold bind at 1. unfold get_globals at 1. cbv beta iota.
  destruct (least (scheduler (globals_of w))) as [first|]; [|reflexivity].
  unfold bind at 1. unfold now at 1. cbv beta iota.
  destruct (ev_time first >? clock out (clock_reads w)); [reflexivity|].
  unfold bind at 1. unfold set_globals at 1. cbv beta iota. unfold bind at 1.
  destruct (ev_argument first) as [[u name] r].
  match goal with
  | |- context [sch_update_covid_data out get_json u name r ?w0] =>
      pose proof (cdh_callback_location u name r w0) as Hcall;
      destruct (sch_update_covid_data out get_json u name r w0) as [[] w1|e1 w1]
  end; simpl in Hcall.
  - unfold same_location in *. rewrite (IH w1). exact Hcall.
  - exact Hcall.
Qed.

Lemma cdh_serve_location r w :
  same_location (globals_of w) (globals_of (serve_covid out get_json r w)).
Proof.
  destruct r; simpl.
  - apply cdh_schedule_location.
  - apply cdh_cancel_location.
  - apply cdh_run_location.
  - apply cdh_request_location.
Qed.

Lemma cdh_serve_all_location requests w :
  same_location (globals_of w) (globals_of (serve_covid_all out get_json requests w)).
Proof.
  revert w. induction requests as [|r requests IH]; intros w; [reflexivity|].
  simpl. etransitivity; [apply (cdh_serve_location r) | apply IH].
Qed.

(** The [datetime] block returns both times or raises OverflowError. *)
Lemma parse_datetime_outcome {G : Type} t times (w : World G) :
  match parse_datetime out (a_datetime t) times w with
  | Returns r _ => r <> None
  | Raises e _ => e = OverflowError
  end.
Proof.
  pose proof (parse_datetime_throws out anywhere (fun _ _ _ _ => I) (a_datetime t) times
                w I) as Hthrows.
  unfold parse_datetime in *. unfold bind at 1 in Hthrows. unfold bind at 1.
  unfold now at 1 in Hthrows. unfold now at 1. cbv beta iota in *.
  unfold bind at 1 in Hthrows. unfold bind at 1.
  match goal with
  | |- match (match ?m with Returns _ _ => _ | Raises _ _ => _ end) with
       | Returns _ _ => _ | Raises _ _ => _ end =>
      destruct m as [fire w1|e w1]
  end; [simpl; discriminate | now symmetry].
Qed.

(** Scheduling with an [int] or a [datetime] raises nothing but
    OverflowError. *)
Lemma cdh_schedule_overflow_only ui name r w :
  (forall s, ui <> a_str s) ->
  overflow_only (schedule_covid_updates out ui name r w).
Proof.
  intros Hui. unfold schedule_covid_updates, bind at 1.
  destruct ui as [n|s|t]; [| now destruct (Hui s) |]; simpl parse_str;
    unfold ret at 1; cbv beta iota; unfold bind at 1.
  - simpl parse_datetime. unfold ret at 1. cbv beta iota. unfold bind at 1.
    rewrite parse_int_eq. cbv zeta.
    destruct (in_range _); [|reflexivity].
    unfold register, bind, get_globals.
    now destruct (negb (dict_in name _)).
  - pose proof (parse_datetime_outcome t None w) as Hd.
    destruct (parse_datetime out (a_datetime t) None w) as [[[delay fire]|] w1|e w1];
      [| congruence | exact Hd].
    unfold bind at 1. simpl parse_int. unfold ret at 1. cbv beta iota.
    unfold register, bind, get_globals.
    now destruct (negb (dict_in name _)).
Qed.

Lemma overflow_only_or {G A : Type} (others : exn -> Prop) (o : outcome G A) :
  overflow_only o -> overflow_or others o.
Proof. destruct o; simpl; [trivial | now left]. Qed.

(** A request raises nothing but the OverflowError of the retry it
    schedules and what the API call itself raises uncaught. *)
Lemma cdh_request_raises location location_type w :
  overflow_or (covid_let_through get_json)
              (covid_API_request out get_json location location_type w).
Proof.
  unfold covid_API_request, bind at 1, next_api_call at 1. cbv beta iota.
  match goal with
  | |- context [get_json ?k ?f] => destruct (get_json k f) as [d| | |error] eqn:Hk
  end; [exact I | | | right; do 2 eexists; exact Hk];
    (unfold bind at 1;
     match goal with
     | |- context [schedule_covid_updates out ?ui ?name ?r ?w0] =>
         pose proof (cdh_schedule_overflow_only ui name r w0) as Hs;
         destruct (schedule_covid_updates out ui name r w0)
     end; [exact I | left; apply Hs; discriminate]).
Qed.

Lemma dict_item_in {V : Type} (d : dict V) k :
  dict_in k d = true -> exists v, dict_item d k = ok v.
Proof.
  unfold dict_in, dict_item. destruct (dict_get d k) as [v|]; [|discriminate].
  intros _. now exists v.
Qed.

Lemma cdh_refresh_raises w :
  location_given (globals_of w) ->
  overflow_or (covid_let_through get_json) (refresh out get_json w).
Proof.
  intros Hloc. unfold refresh. unfold bind at 1. unfold get_globals at 1.
  cbv beta iota. unfold bind at 1.
  assert (Hfirst : overflow_or (covid_let_through get_json)
    ((if nonempty (config_covid_location (globals_of w)) then
        location_type <- lift (dict_item (config_covid_location (globals_of w))
                                         "area_type") ;;
        location <- lift (dict_item (config_covid_location (globals_of w))
                                    "area_name") ;;
        covid_API_request out get_json location location_type
      else covid_API_request out get_json "Exeter" "ltla") w)).
  { destruct (nonempty (config_covid_location (globals_of w))) eqn:Hne;
      [|apply cdh_request_raises].
    destruct (Hloc Hne) as [Htype Hname].
    destruct (dict_item_in _ _ Htype) as [ty ->].
    destruct (dict_item_in _ _ Hname) as [loc ->].
    apply cdh_request_raises. }
  match goal with
  | |- overflow_or _ (match ?m with Returns _ _ => _ | Raises _ _ => _ end) =>
      destruct m as [api_response w1|e1 w1]
  end; [|exact Hfirst].
  unfold bind at 1.
  pose proof (cdh_request_raises "Exeter" "overview" w1) as Hsecond.
  destruct (covid_API_request out get_json "Exeter" "overview" w1)
    as [national_api_response w2|e2 w2]; [|exact Hsecond].
  unfold bind, get_globals, set_globals.
  destruct (nonempty api_response), (nonempty national_api_response); exact I.
Qed.

Lemma cdh_rearm_overflow_only u name r w : overflow_only (rearm out u name r w).
Proof.
  unfold rearm. destruct r; [|exact I].
  unfold bind, lift, dt_add.
  destruct (in_range (u + DAY)); [|reflexivity].
  apply cdh_schedule_overflow_only. discriminate.
Qed.

(** The callback of an event of the queue raises nothing but
    OverflowError and what an API call raises uncaught. *)
Lemma cdh_fire_raises e w :
  cdh_consistent w ->
  location_given (globals_of w) ->
  In e (scheduler (globals_of w)) ->
  overflow_or (covid_let_through get_json)
    ((let '(update_time, update_name, repeat) := ev_argument e in
      sch_update_covid_data out get_json update_time update_name repeat)
       (with_globals w
          (with_scheduler (globals_of w)
             (queue_without e (scheduler (globals_of w)))))).
Proof.
  intros Hw Hloc He.
  destruct (agree_entry_of _ _ _ _ Hw He) as (u & Hget & Hev & Harg).
  rewrite Harg. unfold sch_update_covid_data. unfold bind at 1.
  unfold forget, bind at 1, get_globals at 1, dict_del, dict_in. cbv beta iota.
  cbn [globals_of with_globals scheduled_updates with_scheduler]. rewrite Hget.
  unfold bind at 1, lift at 1, ok at 1, ret at 1. cbv beta iota.
  unfold set_globals at 1. cbv beta iota. unfold bind at 1.
  match goal with
  | |- context [refresh out get_json ?w1] =>
      pose proof (cdh_refresh_raises w1 Hloc) as Hrefresh;
      destruct (refresh out get_json w1) as [[] w2|e2 w2]
  end; [apply overflow_only_or, cdh_rearm_overflow_only | exact Hrefresh].
Qed.

Lemma cdh_run_raises rounds : forall w,
  cdh_consistent w ->
  location_given (globals_of w) ->
  overflow_or (covid_let_through get_json) (scheduler_run out get_json rounds w).
Proof.
  induction rounds as [|rounds IH]; intros w Hw Hloc; simpl; [exact I|].
  unfold bind at 1. unfold get_globals at 1. cbv beta iota.
  destruct (least (scheduler (globals_of w))) as [first|] eqn:Hleast; [|exact I].
  apply least_In in Hleast. unfold bind at 1. unfold now at 1. cbv beta iota.
  destruct (ev_time first >? clock out (clock_reads w)); [exact I|].
  unfold bind at 1. unfold set_globals at 1. cbv beta iota. unfold bind at 1.
  assert (Hticked : cdh_consistent (ticked w))
    by (now apply (cdh_consistent_clock w); [apply same_but_clock_ticked|]).
  pose proof (cdh_fire_keeps out get_json first (ticked w) Hticked Hleast) as Hkeep.
  pose proof (cdh_fire_raises first (ticked w) Hticked Hloc Hleast) as Hfire.
  assert (Hsame : same_location (globals_of w)
            (globals_of (world_of
               ((let '(update_time, update_name, repeat) := ev_argument first in
                 sch_update_covid_data out get_json update_time update_name repeat)
                  (with_globals (ticked w)
                     (with_scheduler (globals_of (ticked w))
                        (queue_without first (scheduler (globals_of (ticked w)))))))))).
  { destruct (ev_argument first) as [[u name] r].
    apply (cdh_callback_location u name r
             (with_globals (ticked w)
                (with_scheduler (globals_of (ticked w))
                   (queue_without first (scheduler (globals_of (ticked w))))))). }
  match goal with
  | |- overflow_or _ (match ?m with Returns _ _ => _ | Raises _ _ => _ end) =>
      change (cdh_consistent (world_of m)) in Hkeep;
      change (overflow_or (covid_let_through get_json) m) in Hfire;
      change (same_location (globals_of w) (globals_of (world_of m))) in Hsame;
      destruct m as [[] w1|e1 w1]
  end; simpl in *; [|exact Hfire].
  apply IH; [exact Hkeep|]. unfold location_given, same_location in *.
  now rewrite Hsame.
Qed.

(** X25: However the dashboard has used the data module since it was
    imported, a poll of its scheduler raises nothing of its own but
    OverflowError: any other exception that comes out of the poll is one
    that a call of the COVID API raised and that [covid_API_request],
    which catches FailedRequestError and ConnectionError only, let
    through.  So it is whatever the clock reads, whatever the API does and
    however many events are due, as long as the location of the config
    file is empty or gives an area and its type.  In particular the
    callback always finds the entry it deletes: its [del] does not raise
    KeyError. *)
Theorem covid_poll_raises_only_overflow requests rounds w :
  scheduled_updates (globals_of w) = [] ->
  scheduler (globals_of w) = [] ->
  location_given (globals_of w) ->
  match scheduler_run out get_json rounds (serve_covid_all out get_json requests w) with
  | Returns _ _ => True
  | Raises e _ =>
      e = OverflowError \/ exists k filters, get_json k filters = Uncaught e
  end.
Proof.
  intros Hu Hq Hloc.
  apply cdh_run_raises.
  - now apply cdh_serve_all_keeps, cdh_start_consistent.
  - pose proof (cdh_serve_all_location requests w) as Hsame.
    unfold location_given, same_location in *. now rewrite Hsame.
Qed.
End CovidPollExceptions.

(** ** The theorems about the dashboard's lists at work *)

Section ListWitnesses.
Import py intervals notions scenes.

Lemma answered_update_replaces_the_list_witness :
  cnh.update_news ticking news_api_up "Covid COVID-19 coronavirus"
                  (with_globals news_world
                     (cnh.with_removed_articles news_globals ["Cases fall"]))
  = Returns tt
      (mkWorld 0 1 1
         (cnh.with_formatted_news
            (cnh.with_news (cnh.with_removed_articles news_globals ["Cases fall"])
                           [third_article])
            [entry_of third_article])).
Proof.
  apply (answered_update_replaces_the_list ticking news_api_up
           "Covid COVID-19 coronavirus"
           (cnh.mkJson "ok" [first_article; third_article])).
  reflexivity.
Defined.

Lemma scheduled_time_is_shown_in_its_toast_witness :
  let w' := world_of (cdh.schedule_covid_updates ticking (a_str "7:05")
                        "morning" true covid_start) in
  exists scheduled_updates,
    dashboard.collate_update_lists (cdh.scheduled_updates (globals_of w')) []
    = ok scheduled_updates
    /\ In (dashboard.mkToast "morning"
             ("Updating COVID Data"
              ++ dashboard.next_line ++ " "
              ++ dashboard.next_line
              ++ dashboard.next_line ++ "at 07:05 every day"))
          (dashboard.format_update_toasts scheduled_updates).
Proof.
  apply (scheduled_time_is_shown_in_its_toast ticking covid_start []
           "7:05" 7 5 "morning" true);
    try reflexivity.
  - split; [lia|]. split; [lia|]. right. split; [lia | reflexivity].
  - split; [apply Z.leb_le | apply Z.ltb_lt]; reflexivity.
Defined.

Lemma covid_poll_raises_only_overflow_witness :
  let poll := cdh.scheduler_run ticking covid_api_times_out 5
                (serve_covid_all ticking covid_api_times_out (firstn 3 covid_visit)
                                 covid_start) in
  raised poll = true
  /\ match poll with
     | Returns _ _ => True
     | Raises e _ =>
         e = OverflowError
         \/ exists k filters, covid_api_times_out k filters = cdh.Uncaught e
     end.
Proof.
  split; [reflexivity|].
  apply (covid_poll_raises_only_overflow ticking covid_api_times_out
           (firstn 3 covid_visit) 5 covid_start); try reflexivity.
  intros H. discriminate H.
Defined.
End ListWitnesses.

Section NewsPollExceptions.
Import py intervals notions cnh.
Variable out : Outside.
Variable requests_get : nat -> string -> fetch.
Implicit Types (w : World globals).

(** Scheduling with an [int] or a [datetime] raises nothing but
    OverflowError. *)
Lemma cnh_schedule_overflow_only ui name r w :
  (forall s, ui <> a_str s) ->
  overflow_only (schedule_news_updates out ui name r w).
Proof.
  intros Hui. unfold schedule_news_updates, bind at 1.
  destruct ui as [n|s|t]; [| now destruct (Hui s) |]; simpl parse_str;
    unfold ret at 1; cbv beta iota; unfold bind at 1.
  - simpl parse_datetime. unfold ret at 1. cbv beta iota. unfold bind at 1.
    rewrite parse_int_eq. cbv zeta.
    destruct (in_range _); [|reflexivity].
    unfold register, bind, get_globals.
    now destruct (negb (dict_in name _)).
  - pose proof (parse_datetime_outcome out t None w) as Hd.
    destruct (parse_datetime out (a_datetime t) None w) as [[[delay fire]|] w1|e w1];
      [| congruence | exact Hd].
    unfold bind at 1. simpl parse_int. unfold ret at 1. cbv beta iota.
    unfold register, bind, get_globals.
    now destruct (negb (dict_in name _)).
Qed.

(** A request raises nothing but the OverflowError of the retry it
    schedules and what the API call itself raises uncaught. *)
Lemma cnh_request_raises terms w :
  overflow_or (news_let_through requests_get)
              (news_API_request out requests_get terms w).
Proof.
  unfold news_API_request, bind at 1, get_globals at 1. cbv beta iota zeta.
  unfold bind at 1, next_api_call at 1. cbv beta iota.
  match goal with
  | |- context [requests_get ?k ?f] => destruct (requests_get k f) as [d| | |error] eqn:Hk
  end; [exact I | | | right; do 2 eexists; exact Hk];
    (unfold bind at 1;
     match goal with
     | |- context [schedule_news_updates out ?ui ?name ?r ?w0] =>
         pose proof (cnh_schedule_overflow_only ui name r w0) as Hs;
         destruct (schedule_news_updates out ui name r w0)
     end; [exact I | left; apply Hs; discriminate]).
Qed.

(** [update_news] raises nothing but the OverflowError of the retry it
    schedules, the TypeError of an article without a content and what the
    API call raises uncaught. *)
Lemma cnh_update_news_raises terms w :
  overflow_or (fun e => e = TypeError \/ news_let_through requests_get e)
              (update_news out requests_get terms w).
Proof.
  unfold update_news. unfold bind at 1.
  pose proof (cnh_request_raises terms w) as Hreq.
  destruct (news_API_request out requests_get terms w) as [api_response w1|e w1];
    [|destruct Hreq as [Hreq|Hreq]; [now left | right; now right]].
  unfold bind at 1, get_globals at 1. cbv beta iota.
  unfold bind at 1, set_globals at 1. cbv beta iota.
  destruct api_response as [response|]; [|exact I].
  destruct (negb (status response =? "error")%string); [|exact I].
  unfold bind at 1. rewrite keep_articles_eq, news_formatter_eq.
  destruct (forallb has_content _); [exact I | right; now left].
Qed.

Lemma cnh_rearm_overflow_only u name r w : overflow_only (rearm out u name r w).
Proof.
  unfold rearm. destruct r; [|exact I].
  unfold bind, lift, dt_add.
  destruct (in_range (u + DAY)); [|reflexivity].
  apply cnh_schedule_overflow_only. discriminate.
Qed.

Lemma cnh_fire_raises e w :
  cnh_consistent w ->
  In e (scheduler (globals_of w)) ->
  overflow_or (fun e => e = TypeError \/ news_let_through requests_get e)
    ((let '(update_time, update_name, repeat) := ev_argument e in
      sch_update_news out requests_get update_time update_name repeat)
       (with_globals w
          (with_scheduler (globals_of w)
             (queue_without e (scheduler (globals_of w)))))).
Proof.
  intros Hw He.
  destruct (agree_entry_of _ _ _ _ Hw He) as (u & Hget & Hev & Harg).
  rewrite Harg. unfold sch_update_news. unfold bind at 1.
  unfold forget, bind at 1, get_globals at 1, dict_del, dict_in. cbv beta iota.
  cbn [globals_of with_globals scheduled_updates with_scheduler]. rewrite Hget.
  unfold bind at 1, lift at 1, ok at 1, ret at 1. cbv beta iota.
  unfold set_globals at 1. cbv beta iota. unfold bind at 1.
  match goal with
  | |- context [update_news out requests_get ?t ?w1] =>
      pose proof (cnh_update_news_raises t w1) as Hupdate;
      destruct (update_news out requests_get t w1) as [[] w2|e2 w2]
  end; [apply overflow_only_or, cnh_rearm_overflow_only | exact Hupdate].
Qed.

Lemma cnh_run_raises rounds : forall w,
  cnh_consistent w ->
  overflow_or (fun e => e = TypeError \/ news_let_through requests_get e)
              (scheduler_run out requests_get rounds w).
Proof.
  induction rounds as [|rounds IH]; intros w Hw; simpl; [exact I|].
  unfold bind at 1. unfold get_globals at 1. cbv beta iota.
  destruct (least (scheduler (globals_of w))) as [first|] eqn:Hleast; [|exact I].
  apply least_In in Hleast. unfold bind at 1. unfold now at 1. cbv beta iota.
  destruct (ev_time first >? clock out (clock_reads w)); [exact I|].
  unfold bind at 1. unfold set_globals at 1. cbv beta iota. unfold bind at 1.
  assert (Hticked : cnh_consistent (ticked w))
    by (now apply (cnh_consistent_clock w); [apply same_but_clock_ticked|]).
  pose proof (cnh_fire_keeps out requests_get first (ticked w) Hticked Hleast) as Hkeep.
  pose proof (cnh_fire_raises first (ticked w) Hticked Hleast) as Hfire.
  match goal with
  | |- overflow_or _ (match ?m with Returns _ _ => _ | Raises _ _ => _ end) =>
      change (cnh_consistent (world_of m)) in Hkeep;
      change (overflow_or (fun e => e = TypeError \/ news_let_through requests_get e) m)
        in Hfire;
      destruct m as [[] w1|e1 w1]
  end; simpl in *; [|exact Hfire].
  apply IH. exact Hkeep.
Qed.

(** X30: However the dashboard has used the news module since it was
    imported, a poll of its scheduler raises nothing of its own but
    OverflowError and the TypeError of an article without a content: any
    other exception that comes out of the poll is one that a call of the
    news API, [requests.get] or [response.json()], raised and that
    [news_API_request], which catches ConnectionError and Timeout only,
    let through.  So it is whatever the clock reads, however many events
    are due and whatever the API does, its answers being of the shape the
    API documents: a status and a list of articles, each with a title, a
    url and a content that may be null.  In particular the callback
    always finds the entry it deletes: its [del] does not raise
    KeyError. *)
Theorem news_poll_raises_only_overflow_or_type requests rounds w :
  scheduled_updates (globals_of w) = [] ->
  scheduler (globals_of w) = [] ->
  match scheduler_run out requests_get rounds
          (serve_news_all out requests_get requests w) with
  | Returns _ _ => True
  | Raises e _ =>
      e = OverflowError \/ e = TypeError
      \/ exists k url, requests_get k url = Uncaught e
  end.
Proof.
  intros Hu Hq. apply cnh_run_raises.
  now apply cnh_serve_all_keeps, cnh_start_consistent.
Qed.
End NewsPollExceptions.

Section NewsPollWitnesses.
Import py intervals notions scenes.

Lemma news_poll_raises_only_overflow_or_type_witness :
  let poll := cnh.scheduler_run ticking news_api_no_json 5
                (serve_news_all ticking news_api_no_json (firstn 2 news_visit)
                                news_start) in
  raised poll = true
  /\ match poll with
     | Returns _ _ => True
     | Raises e _ =>
         e = OverflowError \/ e = TypeError
         \/ exists k url, news_api_no_json k url = cnh.Uncaught e
     end.
Proof.
  split; [reflexivity|].
  exact (news_poll_raises_only_overflow_or_type ticking news_api_no_json
           (firstn 2 news_visit) 5 news_start eq_refl eq_refl).
Defined.
End NewsPollWitnesses.

(** * The pages of the dashboard *)

#[local] Instance same_snapshots_preorder : PreOrder notions.same_snapshots.
Proof.
  split.
  - now intros g.
  - intros g1 g2 g3 [H12 H12'] [H23 H23']. unfold notions.same_snapshots in *.
    split; congruence.
Qed.

Section Pages.
Import py intervals notions dashboard.
Variable out : Outside.
Variable get_json : nat -> list string -> cdh.fetch.
Variable requests_get : nat -> string -> cnh.fetch.
Implicit Types (w : World globals).

Lemma data_world_after w (wd : World cdh.globals) : data_world (after_data w wd) = wd.
Proof. now destruct wd. Qed.

Lemma news_world_after w (wn : World cnh.globals) : news_world (after_news w wn) = wn.
Proof. now destruct wn. Qed.

Lemma in_cdh_world {A : Type} (m : M cdh.globals A) w :
  world_of (in_cdh m w) = after_data w (world_of (m (data_world w))).
Proof. unfold in_cdh. now destruct (m (data_world w)). Qed.

Lemma in_cnh_world {A : Type} (m : M cnh.globals A) w :
  world_of (in_cnh m w) = after_news w (world_of (m (news_world w))).
Proof. unfold in_cnh. now destruct (m (news_world w)). Qed.

(** A step that returns, and the rest. *)
Lemma bind_returns {G A B : Type} (m : M G A) (k : A -> M G B) (v v' : World G) b :
  bind m k v = Returns b v' ->
  exists a v1, m v = Returns a v1 /\ k a v1 = Returns b v'.
Proof.
  unfold bind. destruct (m v) as [a v1|e v1]; [|discriminate].
  intros H. now exists a, v1.
Qed.

(** *** The statistics *)

Lemma cdh_register_snapshots times name r :
  preserves same_snapshots (cdh.register out times name r).
Proof.
  intros w. destruct times as [[delay fire]|]; simpl; [|reflexivity].
  unfold bind, get_globals.
  destruct (dict_in name (cdh.scheduled_updates (globals_of w))); simpl;
    split; reflexivity.
Qed.

Lemma cdh_schedule_snapshots ui name r :
  preserves same_snapshots (cdh.schedule_covid_updates out ui name r).
Proof.
  unfold cdh.schedule_covid_updates. pres_bind.
  - pres_quiet. apply cdh_parse_str_quiet.
  - intros [[ui' times]|]; [|pres_ret].
    pose proof cdh_register_snapshots. auto with preserves.
Qed.

Lemma cdh_request_snapshots location location_type :
  preserves same_snapshots (cdh.covid_API_request out get_json location location_type).
Proof.
  unfold cdh.covid_API_request. pres_bind; [auto with preserves|].
  intros k. pose proof cdh_schedule_snapshots.
  destruct (get_json k _); auto with preserves.
Qed.

(** A request that the API fails returns [{"data": None}]. *)
Lemma cdh_failed_request_returns location location_type (wd : World cdh.globals) :
  (forall k filters, covid_failure (get_json k filters) = true) ->
  in_range (clock out (clock_reads wd) + 30 * SECOND) = true ->
  exists wd',
    cdh.covid_API_request out get_json location location_type wd
    = Returns cdh.no_data wd'
    /\ same_snapshots (globals_of wd) (globals_of wd')
    /\ same_location (globals_of wd) (globals_of wd').
Proof.
  intros Hdown Hrange.
  pose proof (cdh_request_snapshots location location_type wd) as Hsnap.
  pose proof (cdh_request_location out get_json location location_type wd) as Hloc.
  destruct (cdh.covid_API_request out get_json location location_type wd)
    as [d wd'|e wd'] eqn:Hreq.
  - assert (Hnone : forall k filters d0, get_json k filters <> cdh.Fetched d0).
    { intros k filters d0 Hk. specialize (Hdown k filters). now rewrite Hk in Hdown. }
    pose proof (cdh_request_api_down _ _ _ _ _ _ _ Hnone Hreq) as ->.
    exists wd'. split; [reflexivity|]. split; assumption.
  - exfalso. revert Hreq.
    unfold cdh.covid_API_request, bind at 1, next_api_call at 1. cbv beta iota.
    match goal with
    | |- context [get_json ?k ?f] =>
        pose proof (Hdown k f) as Hk; destruct (get_json k f) as [d| | |error]
    end; [discriminate | | | discriminate Hk];
      (unfold bind at 1;
       match goal with
       | |- context [cdh.schedule_covid_updates out ?ui ?name ?r ?w0] =>
           pose proof (cdh_schedule_int_returns out 30 name r w0 Hrange) as Hret;
           destruct (cdh.schedule_covid_updates out ui name r w0)
       end; discriminate).
Qed.

Lemma in_cdh_failed_request location location_type w :
  (forall k filters, covid_failure (get_json k filters) = true) ->
  (forall k, in_range (clock out k + 30 * SECOND) = true) ->
  exists w',
    in_cdh (cdh.covid_API_request out get_json location location_type) w
    = Returns cdh.no_data w'
    /\ same_snapshots (data_module (globals_of w)) (data_module (globals_of w'))
    /\ same_location (data_module (globals_of w)) (data_module (globals_of w')).
Proof.
  intros Hdown Hrange.
  destruct (cdh_failed_request_returns location location_type (data_world w) Hdown
              (Hrange _)) as (wd & Hreq & Hsnap & Hloc).
  exists (after_data w wd). unfold in_cdh. rewrite Hreq.
  split; [reflexivity|]. split; assumption.
Qed.

(** X26: Starting the program while the COVID API fails with one of the
    two exceptions [covid_API_request] catches.  After [data_init],
    whatever becomes of the news, both snapshots of the data
    module are [{"data": None}], and the block of [home] that reads the
    statistics does not raise for them: all six values are "N/A".  With
    the snapshots as they are when the module is imported, before any
    [data_init], the same block raises KeyError. *)
Theorem page_without_data_shows_no_statistics w :
  (forall k filters, covid_failure (get_json k filters) = true) ->
  (forall k, in_range (clock out k + 30 * SECOND) = true) ->
  location_given (data_module (globals_of w)) ->
  let w1 := world_of (data_init out get_json requests_get w) in
  cdh.covid_data (data_module (globals_of w1)) = cdh.no_data
  /\ cdh.national_covid_data (data_module (globals_of w1)) = cdh.no_data
  /\ key_statistics (data_module (globals_of w1)) = ok no_statistics
  /\ (cdh.covid_data (data_module (globals_of w)) = [] ->
      key_statistics (data_module (globals_of w)) = throw KeyError).
Proof.
  intros Hdown Hrange Hloc w1.
  assert (Hdata : cdh.covid_data (data_module (globals_of w1)) = cdh.no_data
                  /\ cdh.national_covid_data (data_module (globals_of w1)) = cdh.no_data).
  { assert (Hw1 : exists w5 wn,
              w1 = after_news w5 wn
              /\ cdh.covid_data (data_module (globals_of w5)) = cdh.no_data
              /\ cdh.national_covid_data (data_module (globals_of w5)) = cdh.no_data);
      [|destruct Hw1 as (w5 & wn & -> & H5); exact H5].
    subst w1. unfold data_init. unfold bind at 1, get_globals at 1.
    cbv beta iota zeta. unfold bind at 1.
    assert (Hfirst : exists w2,
      (if cdh.nonempty (cdh.config_covid_location (data_module (globals_of w))) then
         location <- lift (dict_item (cdh.config_covid_location
                                        (data_module (globals_of w))) "area_name") ;;
         location_type <- lift (dict_item (cdh.config_covid_location
                                             (data_module (globals_of w))) "area_type") ;;
         in_cdh (cdh.covid_API_request out get_json location location_type)
       else in_cdh (cdh.covid_API_request out get_json "Exeter" "ltla")) w
      = Returns cdh.no_data w2).
    { destruct (cdh.nonempty _) eqn:Hne.
      - destruct (Hloc Hne) as [Htype Hname].
        destruct (dict_item_in _ _ Htype) as [ty Hty].
        destruct (dict_item_in _ _ Hname) as [loc Hl].
        unfold bind at 1. rewrite Hl. unfold lift at 1, ok at 1, ret at 1.
        cbv beta iota. unfold bind at 1. rewrite Hty.
        unfold lift at 1, ok at 1, ret at 1. cbv beta iota.
        destruct (in_cdh_failed_request loc ty w Hdown Hrange) as (w2 & H2 & _).
        now exists w2.
      - destruct (in_cdh_failed_request "Exeter" "ltla" w Hdown Hrange) as (w2 & H2 & _).
        now exists w2. }
    destruct Hfirst as (w2 & ->).
    unfold bind at 1.
    unfold in_cdh at 1, bind at 1, get_globals at 1, set_globals at 1.
    cbv beta iota. unfold bind at 1.
    match goal with
    | |- context [in_cdh (cdh.covid_API_request out get_json "Exeter" "overview") ?w3] =>
        destruct (in_cdh_failed_request "Exeter" "overview" w3 Hdown Hrange)
          as (w4 & -> & [Hcovid _] & _)
    end.
    unfold bind at 1.
    unfold in_cdh at 1, bind at 1, get_globals at 1, set_globals at 1.
    cbv beta iota. rewrite in_cnh_world.
    eexists. eexists. split; [reflexivity|]. simpl. split; [|reflexivity].
    rewrite Hcovid. reflexivity. }
  destruct Hdata as [Hcovid Hnational].
  split; [exact Hcovid|]. split; [exact Hnational|]. split.
  - unfold key_statistics. rewrite Hcovid. reflexivity.
  - intros Hempty. unfold key_statistics. rewrite Hempty. reflexivity.
Qed.

(** *** The form *)

Lemma after_news_same w : after_news w (news_world w) = w.
Proof. destruct w as [c a q g]. now destruct g. Qed.

Lemma after_data_same w : after_data w (data_world w) = w.
Proof. destruct w as [c a q g]. now destruct g. Qed.

(** With the box of the news ticked and a valid time of day, the block
    that schedules raises. *)
Lemma schedule_from_form_news_raises args w s h m :
  update args = Some s ->
  wall_clock s h m ->
  given (news_arg args) = true ->
  dict_in (str_of_arg (two args) ++ " - " ++ s) (scheduled_updates (globals_of w)) = false ->
  raised (schedule_from_form out args w) = true
  /\ (given (covid_data_arg args) = false ->
      schedule_from_form out args w = Raises ValueError w).
Proof.
  intros Hupdate Hs Hnews Hfresh.
  assert (H : schedule_from_form out args w =
              ((if given (covid_data_arg args)
                then in_cdh (cdh.schedule_covid_updates out (a_str s)
                               (str_of_arg (two args) ++ " - " ++ s)
                               (given (repeat_arg args)))
                else ret tt) ;;;
               in_cnh (cnh.schedule_news_updates out (a_str s)
                         (str_of_arg (two args) ++ " - " ++ s)
                         (given (repeat_arg args)))) w).
  { unfold schedule_from_form. rewrite Hnews, orb_true_r, Hupdate.
    cbn [str_of_arg]. unfold bind at 1, get_globals at 1. cbv beta iota.
    rewrite Hfresh. reflexivity. }
  rewrite H. unfold bind.
  destruct (given (covid_data_arg args)).
  - split; [|discriminate].
    destruct (in_cdh _ w) as [[] w1|e w1]; [|reflexivity].
    unfold in_cnh. now rewrite (wall_clock_news_raises out s h m _ _ _ Hs).
  - unfold ret. unfold in_cnh.
    rewrite (wall_clock_news_raises out s h m _ _ _ Hs), after_news_same.
    split; [reflexivity | intros _; reflexivity].
Qed.

(** X27: A request whose form asks for an update of the news at a valid
    time of day never gets its page: when the name and the time are not
    those of an update the dashboard shows, [home] raises, and it is
    [schedule_news_updates] that raises ValueError when nothing before it
    has.  With the box of the data left unticked the block that schedules
    raises that ValueError in every state and changes nothing. *)
Theorem news_update_from_the_form_is_never_rendered rounds args w s h m :
  update args = Some s ->
  wall_clock s h m ->
  given (news_arg args) = true ->
  dict_in (str_of_arg (two args) ++ " - " ++ s) (scheduled_updates (globals_of w)) = false ->
  raised (home out get_json requests_get rounds args w) = true
  /\ (given (covid_data_arg args) = false ->
      forall w0,
        scheduled_updates (globals_of w0) = scheduled_updates (globals_of w) ->
        schedule_from_form out args w0 = Raises ValueError w0).
Proof.
  intros Hupdate Hs Hnews Hfresh. split.
  - unfold home. unfold bind at 1.
    pose proof (in_cdh_world (cdh.scheduler_run out get_json rounds) w) as H1.
    destruct (in_cdh (cdh.scheduler_run out get_json rounds) w) as [p1 w1|e1 w1];
      [|reflexivity].
    simpl in H1. unfold bind at 1.
    pose proof (in_cnh_world (cnh.scheduler_run out requests_get rounds) w1) as H2.
    destruct (in_cnh (cnh.scheduler_run out requests_get rounds) w1) as [p2 w2|e2 w2];
      [|reflexivity].
    simpl in H2. unfold bind at 1, get_globals at 1. cbv beta iota. unfold bind at 1.
    destruct (key_statistics (data_module (globals_of w2)))
      as [e|[[[[[v1 v2] v3] v4] v5] v6]]; [reflexivity|].
    unfold lift at 1, ret at 1. cbv beta iota. unfold bind at 1.
    destruct (schedule_from_form_news_raises args w2 s h m Hupdate Hs Hnews)
      as [Hraised _].
    { rewrite H2, H1. exact Hfresh. }
    destruct (schedule_from_form out args w2); [discriminate | reflexivity].
  - intros Hcovid w0 Hview.
    apply (schedule_from_form_news_raises args w0 s h m Hupdate Hs Hnews);
      [|exact Hcovid].
    rewrite Hview. exact Hfresh.
Qed.

(** X28: Every page that [home] renders shows the registries as they are
    then: the dashboard's merged view is the collation of the registries
    of the two modules at the end of the request, the toasts are those of
    that view, so that there is a toast under a name exactly when the name
    is registered in one of the modules, and the news shown is the display
    list of the news module. *)
Theorem rendered_page_shows_the_registries rounds args w page w' :
  home out get_json requests_get rounds args w = Returns page w' ->
  let data_updates := cdh.scheduled_updates (data_module (globals_of w')) in
  let news_updates := cnh.scheduled_updates (news_module (globals_of w')) in
  collate_update_lists data_updates news_updates = ok (scheduled_updates (globals_of w'))
  /\ updates page = format_update_toasts (scheduled_updates (globals_of w'))
  /\ news_articles page = cnh.formatted_news (news_module (globals_of w'))
  /\ (forall name,
        In name (map toast_title (updates page))
        <-> dict_in name data_updates = true \/ dict_in name news_updates = true).
Proof.
  intros H data_updates news_updates. unfold home in H.
  apply bind_returns in H. destruct H as (p1 & w1 & _ & H).
  apply bind_returns in H. destruct H as (p2 & w2 & _ & H).
  apply bind_returns in H. destruct H as (g & w3 & _ & H).
  apply bind_returns in H. destruct H as ([[[[[v1 v2] v3] v4] v5] v6] & w4 & _ & H).
  apply bind_returns in H. destruct H as (u5 & w5 & _ & H).
  apply bind_returns in H. destruct H as (u6 & w6 & _ & H).
  apply bind_returns in H. destruct H as (u7 & w7 & _ & H).
  apply bind_returns in H. destruct H as (u8 & w8 & Hcollate & H).
  unfold bind, get_globals, ret in H. injection H as <- <-.
  unfold collate_now, bind, get_globals in Hcollate.
  destruct (collate_lookup (cdh.scheduled_updates (data_module (globals_of w7)))
                           (cnh.scheduled_updates (news_module (globals_of w7))))
    as (merged & Hmerged & _ & Hlookup).
  rewrite Hmerged in Hcollate. unfold lift, ok, ret, set_globals in Hcollate.
  injection Hcollate as Hw8. subst w8 data_updates news_updates. simpl.
  split; [exact Hmerged|]. split; [reflexivity|]. split; [reflexivity|].
  intros name. unfold format_update_toasts. rewrite map_map. simpl.
  change (map (fun x => fst x) merged) with (keys merged).
  rewrite <- dict_in_In. unfold dict_in at 1. rewrite Hlookup.
  unfold covid_entry, news_entry, dict_in.
  destruct (dict_get (cdh.scheduled_updates (data_module (globals_of w7))) name);
    destruct (dict_get (cnh.scheduled_updates (news_module (globals_of w7))) name);
    simpl; intuition congruence.
Qed.

(** *** Removing an update *)

Lemma agree_no_event updates queue counter name :
  agree updates queue counter -> dict_in name updates = false ->
  forall e, In e queue -> name_of e <> name.
Proof.
  intros (_ & H2 & _) Hnot e He Hname.
  destruct (H2 e He) as (u & Hget & _). rewrite Hname in Hget.
  apply dict_in_false in Hnot. congruence.
Qed.

Lemma cdh_cancel_gone name (wd : World cdh.globals) :
  cdh_consistent wd ->
  exists wd',
    cdh.cancel_scheduled_update name wd = Returns tt wd'
    /\ clock_reads wd' = clock_reads wd
    /\ dict_in name (cdh.scheduled_updates (globals_of wd')) = false
    /\ forall e, In e (cdh.scheduler (globals_of wd')) -> name_of e <> name.
Proof.
  intros Hwd. pose proof (cdh_cancel_keeps name wd Hwd) as [_ Hafter].
  rewrite (cdh_cancel_eq name wd Hwd) in *. simpl in Hafter.
  eexists. split; [reflexivity|].
  assert (Hgone : dict_in name
            (cdh.scheduled_updates (globals_of
               match dict_get (cdh.scheduled_updates (globals_of wd)) name with
               | Some u =>
                   with_globals wd
                     (cdh.with_scheduled_updates
                        (cdh.with_scheduler (globals_of wd)
                           (queue_without (event u) (cdh.scheduler (globals_of wd))))
                        (dict_remove (cdh.scheduled_updates (globals_of wd)) name))
               | None => wd
               end)) = false).
  { destruct (dict_get (cdh.scheduled_updates (globals_of wd)) name) eqn:Hget; simpl.
    - apply dict_in_remove_same.
    - now apply dict_in_false. }
  split; [now destruct (dict_get _ name)|]. split; [exact Hgone|].
  now apply (agree_no_event _ _ _ _ Hafter).
Qed.

Lemma cnh_cancel_gone name (wn : World cnh.globals) :
  cnh_consistent wn ->
  exists wn',
    cnh.cancel_scheduled_update name wn = Returns tt wn'
    /\ clock_reads wn' = clock_reads wn
    /\ dict_in name (cnh.scheduled_updates (globals_of wn')) = false
    /\ forall e, In e (cnh.scheduler (globals_of wn')) -> name_of e <> name.
Proof.
  intros Hwn. pose proof (cnh_cancel_keeps name wn Hwn) as [_ Hafter].
  rewrite (cnh_cancel_eq name wn Hwn) in *. simpl in Hafter.
  eexists. split; [reflexivity|].
  assert (Hgone : dict_in name
            (cnh.scheduled_updates (globals_of
               match dict_get (cnh.scheduled_updates (globals_of wn)) name with
               | Some u =>
                   with_globals wn
                     (cnh.with_scheduled_updates
                        (cnh.with_scheduler (globals_of wn)
                           (queue_without (event u) (cnh.scheduler (globals_of wn))))
                        (dict_remove (cnh.scheduled_updates (globals_of wn)) name))
               | None => wn
               end)) = false).
  { destruct (dict_get (cnh.scheduled_updates (globals_of wn)) name) eqn:Hget; simpl.
    - apply dict_in_remove_same.
    - now apply dict_in_false. }
  split; [now destruct (dict_get _ name)|]. split; [exact Hgone|].
  now apply (agree_no_event _ _ _ _ Hafter).
Qed.

(** X29: Removing an update that the dashboard shows.  When the merged
    view is the collation of the two registries and in each module the
    registry and the queue agree, the block of [home] that removes a
    scheduled update returns for every name of the view, and afterwards
    the name is registered in neither module and no event of either queue
    carries it: the flags of the view send the cancellation to every
    module that has the update. *)
Theorem shown_update_is_removed_everywhere args w name :
  update_item args = Some name ->
  name <> "" ->
  cdh_consistent (data_world w) ->
  cnh_consistent (news_world w) ->
  collate_update_lists (cdh.scheduled_updates (data_module (globals_of w)))
                       (cnh.scheduled_updates (news_module (globals_of w)))
  = ok (scheduled_updates (globals_of w)) ->
  dict_in name (scheduled_updates (globals_of w)) = true ->
  exists w',
    remove_from_form args w = Returns tt w'
    /\ dict_in name (cdh.scheduled_updates (data_module (globals_of w'))) = false
    /\ dict_in name (cnh.scheduled_updates (news_module (globals_of w'))) = false
    /\ (forall e, In e (cdh.scheduler (data_module (globals_of w'))) -> name_of e <> name)
    /\ (forall e, In e (cnh.scheduler (news_module (globals_of w'))) -> name_of e <> name).
Proof.
  intros Hitem Hname Hdata Hnews Hview Hshown.
  destruct (collate_lookup (cdh.scheduled_updates (data_module (globals_of w)))
                           (cnh.scheduled_updates (news_module (globals_of w))))
    as (merged & Hmerged & _ & Hlookup).
  rewrite Hview in Hmerged. injection Hmerged as <-.
  specialize (Hlookup name).
  unfold remove_from_form. rewrite Hitem.
  destruct name as [|c name]; [congruence|]. cbn [given str_of_arg].
  set (nm := String c name) in *.
  unfold bind at 1, get_globals at 1. cbv beta iota. unfold bind at 1, dict_item.
  destruct (dict_get (scheduled_updates (globals_of w)) nm) as [u|] eqn:Hu;
    [|unfold dict_in in Hshown; rewrite Hu in Hshown; discriminate].
  unfold lift at 1, ok at 1, ret at 1. cbv beta iota.
  destruct (cnh_cancel_gone nm (news_world w) Hnews) as (wn & Hcn & _ & Hn1 & Hn2).
  destruct (dict_in nm (cdh.scheduled_updates (data_module (globals_of w)))) eqn:Hc.
  - unfold covid_entry in Hlookup.
    destruct (dict_get (cdh.scheduled_updates (data_module (globals_of w))) nm)
      as [uc|] eqn:Huc; [|unfold dict_in in Hc; rewrite Huc in Hc; discriminate].
    simpl in Hlookup. injection Hlookup as ->. cbn [news covid].
    destruct (dict_in nm (cnh.scheduled_updates (news_module (globals_of w)))) eqn:Hn.
    + unfold bind at 1, in_cnh at 1. rewrite Hcn.
      destruct (cdh_cancel_gone nm (data_world (after_news w wn)))
        as (wd & Hcd & _ & Hd1 & Hd2); [exact Hdata|].
      unfold in_cdh. rewrite Hcd. eexists. split; [reflexivity|]. simpl.
      repeat split; assumption.
    + unfold bind at 1, ret at 1. cbv beta iota.
      destruct (cdh_cancel_gone nm (data_world w) Hdata) as (wd & Hcd & _ & Hd1 & Hd2).
      unfold in_cdh. rewrite Hcd. eexists. split; [reflexivity|]. simpl.
      split; [exact Hd1|]. split; [exact Hn|]. split; [exact Hd2|].
      now apply (agree_no_event _ _ _ _ Hnews).
  - destruct (dict_in nm (cnh.scheduled_updates (news_module (globals_of w)))) eqn:Hn;
      [|discriminate].
    unfold news_entry in Hlookup.
    destruct (dict_get (cnh.scheduled_updates (news_module (globals_of w))) nm)
      as [un|] eqn:Hun; [|discriminate].
    simpl in Hlookup. injection Hlookup as ->. cbn [news covid].
    unfold bind at 1, in_cnh at 1. rewrite Hcn. unfold ret.
    eexists. split; [reflexivity|]. simpl.
    split; [exact Hc|]. split; [exact Hn1|]. split; [|exact Hn2].
    now apply (agree_no_event _ _ _ _ Hdata).
Qed.
End Pages.

(** ** The theorems about the pages at work *)

Section PageWitnesses.
Import py intervals notions scenes.

(** One update and its event agree. *)
Lemma agree_single name ev t r :
  ev_argument ev = (t, name, r) ->
  agree [(name, mkUpdate ev t r)] [ev] (S (ev_sequence ev)).
Proof.
  intros Harg. split; [|split; [|split]].
  - intros x u. simpl. destruct (String.eqb_spec x name) as [->|]; [|discriminate].
    intros [= <-]. simpl. split; [now left | exact Harg].
  - intros e [<-|[]]. exists (mkUpdate ev t r). split; [|reflexivity].
    unfold name_of. rewrite Harg. simpl. now rewrite String.eqb_refl.
  - repeat constructor. simpl. tauto.
  - intros e [<-|[]]. lia.
Qed.

Lemma page_without_data_shows_no_statistics_witness :
  let w1 := world_of (dashboard.data_init (frozen noon_34) covid_api_down
                        news_api_down app_start) in
  cdh.covid_data (dashboard.data_module (globals_of w1)) = cdh.no_data
  /\ cdh.national_covid_data (dashboard.data_module (globals_of w1)) = cdh.no_data
  /\ dashboard.key_statistics (dashboard.data_module (globals_of w1)) = ok no_statistics
  /\ (cdh.covid_data (dashboard.data_module (globals_of app_start)) = [] ->
      dashboard.key_statistics (dashboard.data_module (globals_of app_start))
      = throw KeyError).
Proof.
  apply (page_without_data_shows_no_statistics (frozen noon_34) covid_api_down
           news_api_down app_start).
  - reflexivity.
  - intros k. reflexivity.
  - intros H. discriminate H.
Defined.

Lemma news_update_from_the_form_is_never_rendered_witness :
  dashboard.home (frozen noon_34) covid_api_down news_api_down 3 no_args app_loaded
  = Returns (dashboard.mkPage (VStr "N/A") "N/A cases" (VStr "N/A") (VStr "N/A")
                              (VStr "N/A") (VStr "N/A") []
                              (dashboard.format_update_toasts
                                 (dashboard.scheduled_updates
                                    (globals_of (world_of
                                       (dashboard.home (frozen noon_34) covid_api_down
                                          news_api_down 3 no_args app_loaded))))))
            (world_of (dashboard.home (frozen noon_34) covid_api_down news_api_down 3
                                      no_args app_loaded))
  /\ raised (dashboard.home (frozen noon_34) covid_api_down news_api_down 3
                            evening_news app_loaded) = true
  /\ (dashboard.given (dashboard.covid_data_arg evening_news) = false ->
      forall w0,
        dashboard.scheduled_updates (globals_of w0)
        = dashboard.scheduled_updates (globals_of app_loaded) ->
        dashboard.schedule_from_form (frozen noon_34) evening_news w0
        = Raises ValueError w0).
Proof.
  split; [reflexivity|].
  apply (news_update_from_the_form_is_never_rendered (frozen noon_34) covid_api_down
           news_api_down 3 evening_news app_loaded "19:30" 19 30); try reflexivity.
  split; [lia|]. split; [lia|]. now left.
Defined.

Lemma rendered_page_shows_the_registries_witness :
  exists page w',
    dashboard.home (frozen noon_34) covid_api_down news_api_down 3 evening_data
                   app_loaded = Returns page w'
    /\ map dashboard.toast_title (dashboard.updates page)
       = ["API Retry"; "evening - 19:30"]
    /\ dashboard.collate_update_lists
         (cdh.scheduled_updates (dashboard.data_module (globals_of w')))
         (cnh.scheduled_updates (dashboard.news_module (globals_of w')))
       = ok (dashboard.scheduled_updates (globals_of w'))
    /\ dashboard.updates page
       = dashboard.format_update_toasts (dashboard.scheduled_updates (globals_of w'))
    /\ dashboard.news_articles page
       = cnh.formatted_news (dashboard.news_module (globals_of w'))
    /\ (forall name,
          In name (map dashboard.toast_title (dashboard.updates page))
          <-> dict_in name (cdh.scheduled_updates
                              (dashboard.data_module (globals_of w'))) = true
              \/ dict_in name (cnh.scheduled_updates
                                 (dashboard.news_module (globals_of w'))) = true).
Proof.
  destruct (dashboard.home (frozen noon_34) covid_api_down news_api_down 3
              evening_data app_loaded) as [page w'|e w'] eqn:H.
  - exists page, w'. split; [reflexivity|]. split.
    + vm_compute in H. injection H as <- <-. reflexivity.
    + apply (rendered_page_shows_the_registries (frozen noon_34) covid_api_down
               news_api_down 3 evening_data app_loaded page w' H).
  - vm_compute in H. discriminate H.
Defined.

Lemma shown_update_is_removed_everywhere_witness :
  dict_in "daily" (cdh.scheduled_updates
                     (dashboard.data_module (globals_of app_with_daily))) = true
  /\ dict_in "daily" (cnh.scheduled_updates
                        (dashboard.news_module (globals_of app_with_daily))) = true
  /\ exists w',
      dashboard.remove_from_form remove_daily app_with_daily = Returns tt w'
      /\ dict_in "daily" (cdh.scheduled_updates
                            (dashboard.data_module (globals_of w'))) = false
      /\ dict_in "daily" (cnh.scheduled_updates
                            (dashboard.news_module (globals_of w'))) = false
      /\ (forall e, In e (cdh.scheduler (dashboard.data_module (globals_of w'))) ->
                    name_of e <> "daily")
      /\ (forall e, In e (cnh.scheduler (dashboard.news_module (globals_of w'))) ->
                    name_of e <> "daily").
Proof.
  split; [reflexivity|]. split; [reflexivity|].
  apply (shown_update_is_removed_everywhere remove_daily app_with_daily "daily");
    try reflexivity.
  - discriminate.
  - apply (agree_single "daily" (daily_event call_sch_update_covid_data) noon_34 true).
    reflexivity.
  - apply (agree_single "daily" (daily_event call_sch_update_news) noon_34 true).
    reflexivity.
Defined.
End PageWitnesses.
